(** * Phenomenal: turntable camera calibration

    A shallow embedding of [openalea/phenomenal/calibration/calibration.py]:
    the pinhole model and the frame builders of [CalibrationCamera], the
    objective, the multi-start search and the persistence of
    [CalibrationCameraTop], [CalibrationCameraSideWith2TargetYXZ] and
    [Calibration], and [normalise_angle].

    Python floats are idealised as real numbers ([R]): rounding, infinities
    and NaN are outside the model.  numpy divides by a depth of 0 with a
    warning and returns inf or nan; the facts on pixels and on the values of
    the objectives are therefore stated for points whose depth in the camera
    frame is not 0.  An attribute of an object holds a JSON value, as it does
    after [load]; an exception is the [Raise] result of an error monad.  The
    optimizer of scipy and the random numbers of numpy are parameters.
    Printing and the [_verbose] flag are left out. *)

From Stdlib Require Import Reals Lra Lia ZArith.
From stdpp Require Import base option list strings gmap.

Open Scope R_scope.

Set Warnings "-register-all".

(* ===================================================================== *)
(** * Numbers *)
(* ===================================================================== *)

(** Python's [a % m] on floats: the result has the sign of [m]. *)
Definition py_mod (a m : R) : R := a - IZR (Zfloor (a / m)) * m.

(** [math.radians] and [numpy.radians]. *)
Definition radians (deg : R) : R := deg * (PI / 180).

(** [a] and [b] differ by a whole number of turns. *)
Definition congruent_2pi (a b : R) : Prop :=
  exists k : Z, a = b + IZR k * (2 * PI).

(** [numpy.where(c, a, b)] on a scalar condition [x > y]. *)
Definition where_gt (x y a b : R) : R :=
  if Rlt_dec y x then a else b.

(** [normalise_angle], on a scalar. *)
Definition normalise_angle (angle : R) : R :=
  let modulo := 2 * PI in
  let angle := py_mod angle modulo in
  (* force to [0, modulo] range *)
  let angle := py_mod (angle + modulo) modulo in
  angle - where_gt angle (modulo / 2) modulo 0.

(** [normalise_angle], on an array: every numpy operation is element-wise. *)
Definition normalise_angle_array (angle : list R) : list R :=
  let modulo := 2 * PI in
  let angle := map (fun a => py_mod a modulo) angle in
  let angle := map (fun a => py_mod (a + modulo) modulo) angle in
  zip_with Rminus angle (map (fun a => where_gt a (modulo / 2) modulo 0) angle).

(** Row-wise Euclidean norm, [numpy.linalg.norm(..., axis=1)], of one row. *)
Definition norm2 (d : R * R) : R := sqrt (d.1 * d.1 + d.2 * d.2).

(** [numpy.ndarray.sum] of a vector. *)
Definition np_sum (l : list R) : R := foldr Rplus 0 l.

(* ===================================================================== *)
(** * Vectors, matrices and frames *)
(* ===================================================================== *)

Definition vec3 : Type := R * R * R.
Definition vec4 : Type := R * R * R * R.
(** Matrices are stored row by row, as numpy does. *)
Definition mat3 : Type := vec3 * vec3 * vec3.
Definition mat4 : Type := vec4 * vec4 * vec4 * vec4.

(** A numpy array of shape (3,) or (N, 3). *)
Inductive points : Type :=
  | Point (p : vec3)
  | Batch (ps : list vec3).

(** What [pixel_coordinates] returns: a tuple, or an array of shape (N, 2). *)
Inductive pixels : Type :=
  | Pixel (uv : R * R)
  | Pixels (uvs : list (R * R)).

Definition identity4 : mat4 :=
  ((1, 0, 0, 0), (0, 1, 0, 0), (0, 0, 1, 0), (0, 0, 0, 1)).

Definition dot4 (u v : vec4) : R :=
  let '(u0, u1, u2, u3) := u in
  let '(v0, v1, v2, v3) := v in
  u0 * v0 + u1 * v1 + u2 * v2 + u3 * v3.

Definition mat4_T (m : mat4) : mat4 :=
  let '((a0, a1, a2, a3), (b0, b1, b2, b3),
        (c0, c1, c2, c3), (d0, d1, d2, d3)) := m in
  ((a0, b0, c0, d0), (a1, b1, c1, d1), (a2, b2, c2, d2), (a3, b3, c3, d3)).

(** [numpy.dot] of two 4x4 matrices. *)
Definition mat4_mul (m n : mat4) : mat4 :=
  let '(r0, r1, r2, r3) := m in
  let '(c0, c1, c2, c3) := mat4_T n in
  ((dot4 r0 c0, dot4 r0 c1, dot4 r0 c2, dot4 r0 c3),
   (dot4 r1 c0, dot4 r1 c1, dot4 r1 c2, dot4 r1 c3),
   (dot4 r2 c0, dot4 r2 c1, dot4 r2 c2, dot4 r2 c3),
   (dot4 r3 c0, dot4 r3 c1, dot4 r3 c2, dot4 r3 c3)).

(** The slice [m[:3, :3]]. *)
Definition block3 (m : mat4) : mat3 :=
  let '((a0, a1, a2, _), (b0, b1, b2, _), (c0, c1, c2, _), _) := m in
  ((a0, a1, a2), (b0, b1, b2), (c0, c1, c2)).

(** [rot = numpy.identity(4); rot[:3, :3] = m]. *)
Definition embed3 (m : mat3) : mat4 :=
  let '((a0, a1, a2), (b0, b1, b2), (c0, c1, c2)) := m in
  ((a0, a1, a2, 0), (b0, b1, b2, 0), (c0, c1, c2, 0), (0, 0, 0, 1)).

Definition mat3_T (m : mat3) : mat3 :=
  let '((a0, a1, a2), (b0, b1, b2), (c0, c1, c2)) := m in
  ((a0, b0, c0), (a1, b1, c1), (a2, b2, c2)).

Definition dot3 (u v : vec3) : R :=
  let '(u0, u1, u2) := u in
  let '(v0, v1, v2) := v in
  u0 * v0 + u1 * v1 + u2 * v2.

Definition mat3_vec (m : mat3) (p : vec3) : vec3 :=
  let '(r0, r1, r2) := m in (dot3 r0 p, dot3 r1 p, dot3 r2 p).

Definition mat3_mul (m n : mat3) : mat3 :=
  let '(r0, r1, r2) := m in
  let '(c0, c1, c2) := mat3_T n in
  ((dot3 r0 c0, dot3 r0 c1, dot3 r0 c2),
   (dot3 r1 c0, dot3 r1 c1, dot3 r1 c2),
   (dot3 r2 c0, dot3 r2 c1, dot3 r2 c2)).

Definition vec3_add (p q : vec3) : vec3 :=
  let '(p0, p1, p2) := p in
  let '(q0, q1, q2) := q in (p0 + q0, p1 + q1, p2 + q2).

Definition vec3_sub (p q : vec3) : vec3 :=
  let '(p0, p1, p2) := p in
  let '(q0, q1, q2) := q in (p0 - q0, p1 - q1, p2 - q2).

(** Modelled from the spec: the fixed world axis constants of the module
    [frame], which is not among the sources. *)
Definition x_axis : vec3 := (1, 0, 0).
Definition y_axis : vec3 := (0, 1, 0).
Definition z_axis : vec3 := (0, 0, 1).

(** Modelled from the spec: [rotation_matrix] of the module
    [transformations], which is not among the sources: the homogeneous 4x4
    matrix of the rotation by [angle] about the unit axis [direction]
    (the callers only pass the world axes). *)
Definition rotation_matrix (angle : R) (direction : vec3) : mat4 :=
  let sina := sin angle in
  let cosa := cos angle in
  let '(dx, dy, dz) := direction in
  let k := 1 - cosa in
  embed3
    ((cosa + dx * dx * k,     dx * dy * k - dz * sina, dx * dz * k + dy * sina),
     (dy * dx * k + dz * sina, cosa + dy * dy * k,     dy * dz * k - dx * sina),
     (dz * dx * k - dy * sina, dz * dy * k + dx * sina, cosa + dz * dz * k)).

(** Modelled from the spec: [concatenate_matrices] of the module
    [transformations], which is not among the sources: the product of the
    given matrices, in the order given. *)
Definition concatenate_matrices (ms : list mat4) : mat4 :=
  foldl mat4_mul identity4 ms.

(** Modelled from the spec: the class [Frame] of the module [frame], which
    is not among the sources: a rotation matrix (local to world) and an
    origin; [Frame(axes, origin)] keeps [axes] as that rotation. *)
Record Frame : Type := mkFrame { rot : mat3; origin : vec3 }.

(** Modelled from the spec: [Frame.local_point], world to frame:
    [Rt.(p - origin)], row-wise on a batch. *)
Definition local_point1 (f : Frame) (p : vec3) : vec3 :=
  mat3_vec (mat3_T (rot f)) (vec3_sub p (origin f)).

Definition local_point (f : Frame) (pts : points) : points :=
  match pts with
  | Point p => Point (local_point1 f p)
  | Batch ps => Batch (map (local_point1 f) ps)
  end.

(** Modelled from the spec: [Frame.global_point], frame to world:
    [R.p + origin], row-wise on a batch. *)
Definition global_point1 (f : Frame) (p : vec3) : vec3 :=
  vec3_add (mat3_vec (rot f) p) (origin f).

Definition global_point (f : Frame) (pts : points) : points :=
  match pts with
  | Point p => Point (global_point1 f p)
  | Batch ps => Batch (map (global_point1 f) ps)
  end.

(** Modelled from the spec: [Frame.rotation_to_global], the rotation of the
    frame. *)
Definition rotation_to_global (f : Frame) : mat3 := rot f.

(** [cam_origin_axis]: the 4x4 matrix of a positioning of the camera axes;
    [Frame(axes)] has the origin (0, 0, 0). *)
Definition cam_origin_axis (axes : mat3) : mat4 :=
  let f := mkFrame axes (0, 0, 0) in
  embed3 (rotation_to_global f).

(* ===================================================================== *)
(** * Python values, exceptions and files *)
(* ===================================================================== *)

(** A JSON document, which is also what an attribute of an object holds:
    [JNull] is [None], [JNum] a Python number. *)
Inductive json : Type :=
  | JNull
  | JNum (r : R)
  | JStr (s : string)
  | JList (l : list json)
  | JDict (d : gmap string json).

Inductive exn : Type :=
  | KeyError (key : string)
  | IndexError
  | TypeError
  | ValueError
  | AttributeError
  | ZeroDivisionError
  | IOError (filename : string).

(** A computation that returns or raises. *)
Inductive result (A : Type) : Type :=
  | Ok (a : A)
  | Raise (e : exn).
Arguments Ok {A} a.
Arguments Raise {A} e.

#[global] Instance result_ret : MRet result := @Ok.
#[global] Instance result_bind : MBind result :=
  fun A B f m => match m with Ok a => f a | Raise e => Raise e end.
#[global] Instance result_fmap : FMap result :=
  fun A B f m => match m with Ok a => Ok (f a) | Raise e => Raise e end.

(** Arithmetic on an attribute: a number, or [TypeError]. *)
Definition num (v : json) : result R :=
  match v with JNum r => Ok r | _ => Raise TypeError end.

(** [d[key]] on a loaded document. *)
Definition getitem (d : json) (key : string) : result json :=
  match d with
  | JDict m => match m !! key with
               | Some v => Ok v
               | None => Raise (KeyError key)
               end
  | _ => Raise TypeError
  end.

(** [l[i]] on a Python list. *)
Definition list_getitem {A : Type} (l : list A) (i : nat) : result A :=
  match l !! i with Some a => Ok a | None => Raise IndexError end.

(** The files: [json.dump] followed by [json.load] gives the document back
    (Python prints a float with the digits that read back as the same
    float), so a file holds the document itself. *)
Abbreviation files := (gmap string json).

Definition json_load (fs : files) (filename : string) : result json :=
  match fs !! filename with
  | Some doc => Ok doc
  | None => Raise (IOError filename)
  end.

Definition json_dump (doc : json) (fs : files) (filename : string) : files :=
  <[filename := doc]> fs.

(** [m.reshape((16,)).tolist()]. *)
Definition reshape16 (m : mat4) : list R :=
  let '((a0, a1, a2, a3), (b0, b1, b2, b3),
        (c0, c1, c2, c3), (d0, d1, d2, d3)) := m in
  [a0; a1; a2; a3; b0; b1; b2; b3; c0; c1; c2; c3; d0; d1; d2; d3].

(** [a.reshape((4, 4))]. *)
Definition reshape44 (l : list R) : result mat4 :=
  match l with
  | [a0; a1; a2; a3; b0; b1; b2; b3; c0; c1; c2; c3; d0; d1; d2; d3] =>
      Ok ((a0, a1, a2, a3), (b0, b1, b2, b3),
          (c0, c1, c2, c3), (d0, d1, d2, d3))
  | _ => Raise ValueError
  end.

(** The shape of [numpy.array(v)] and its values, row by row, for a value
    made of lists and of numbers: the flat list that [dump] writes, or
    nested lists.  Lists of different shapes make no array of numbers. *)
Fixpoint np_cells (v : json) : result (list nat * list R) :=
  match v with
  | JList l =>
      rows ← (fix rows_of (l : list json)
                : result (list (list nat * list R)) :=
                match l with
                | [] => Ok []
                | x :: l =>
                    row ← np_cells x; rows ← rows_of l; Ok (row :: rows)
                end) l;
      match rows with
      | [] => Ok ([0%nat], [])
      | (shape, _) :: _ =>
          if forallb (fun row => bool_decide (row.1 = shape)) rows
          then Ok (length rows :: shape, concat (map snd rows))
          else Raise ValueError
      end
  | v => cell ← num v; Ok ([], [cell])
  end.

(** The values of [numpy.array(v)], in the order in which [reshape] reads
    them.  A value that is no list makes an array of one cell, which no
    [reshape((4, 4))] accepts. *)
Definition np_array (v : json) : result (list R) :=
  match v with
  | JList _ => '(_, values) ← np_cells v; Ok values
  | _ => Raise ValueError
  end.

Definition mat4_map (f : R -> R) (m : mat4) : mat4 :=
  let '((a0, a1, a2, a3), (b0, b1, b2, b3),
        (c0, c1, c2, c3), (d0, d1, d2, d3)) := m in
  ((f a0, f a1, f a2, f a3), (f b0, f b1, f b2, f b3),
   (f c0, f c1, f c2, f c3), (f d0, f d1, f d2, f d3)).

(** A slice [l[a:b]] with [0 <= a]. *)
Definition slice {A : Type} (l : list A) (a b : nat) : list A :=
  take (b - a) (drop a l).

(* ===================================================================== *)
(** * class CalibrationCamera *)
(* ===================================================================== *)

Module CalibrationCamera.

Record t : Type := mk {
  _cam_width_image : json;
  _cam_height_image : json;
  _cam_focal_length_x : json;
  _cam_focal_length_y : json;
  _cam_pos_x : json;
  _cam_pos_y : json;
  _cam_pos_z : json;
  _cam_rot_x : json;
  _cam_rot_y : json;
  _cam_rot_z : json;
  _angle_factor : json;
  _cam_origin_axis : option mat4;
}.

(** [__init__]: every attribute is [None]. *)
Definition init : t :=
  mk JNull JNull JNull JNull JNull JNull JNull JNull JNull JNull JNull None.

Definition pixel_coordinates (point_3d : points)
    (width_image height_image focal_length_x focal_length_y : R) : pixels :=
  match point_3d with
  | Point (x, y, z) =>
      let u := x / z * focal_length_x + width_image / 2 in
      let v := y / z * focal_length_y + height_image / 2 in
      Pixel (u, v)
  | Batch pt =>
      (* x, y, z = pt.T *)
      let x := map (fun p => p.1.1) pt in
      let y := map (fun p => p.1.2) pt in
      let z := map (fun p => p.2) pt in
      let u := zip_with (fun x z => x / z * focal_length_x + width_image / 2)
                        x z in
      let v := zip_with (fun y z => y / z * focal_length_y + height_image / 2)
                        y z in
      (* numpy.column_stack((u, v)) *)
      Pixels (zip u v)
  end.

Definition pixel_coordinates_2 (point_3d : points) (cx cy fx fy : R)
    : pixels :=
  match point_3d with
  | Point (x, y, z) =>
      let u := x / z * fx + cx in
      let v := y / z * fy + cy in
      Pixel (u, v)
  | Batch pt =>
      (* x, y, z = pt.T *)
      let x := map (fun p => p.1.1) pt in
      let y := map (fun p => p.1.2) pt in
      let z := map (fun p => p.2) pt in
      let u := zip_with (fun x z => x / z * fx + cx) x z in
      let v := zip_with (fun y z => y / z * fy + cy) y z in
      (* numpy.column_stack((u, v)) *)
      Pixels (zip u v)
  end.

Definition target_frame (pos_x pos_y pos_z rot_x rot_y rot_z alpha : R)
    : Frame :=
  let origin :=
    (pos_x * cos alpha - pos_y * sin alpha,
     pos_x * sin alpha + pos_y * cos alpha,
     pos_z) in
  let mat_rot_x := rotation_matrix rot_x x_axis in
  let mat_rot_y := rotation_matrix rot_y y_axis in
  let mat_rot_z := rotation_matrix (alpha + rot_z) z_axis in
  let rot := concatenate_matrices [mat_rot_z; mat_rot_x; mat_rot_y] in
  mkFrame (mat3_T (block3 rot)) origin.

Definition camera_frame (pos_x pos_y pos_z rot_x rot_y rot_z : R)
    (origin_axis : mat4) : Frame :=
  let origin := (pos_x, pos_y, pos_z) in
  let mat_rot_x := rotation_matrix rot_x x_axis in
  let mat_rot_y := rotation_matrix rot_y y_axis in
  let mat_rot_z := rotation_matrix rot_z z_axis in
  let rot := concatenate_matrices
               [origin_axis; mat_rot_x; mat_rot_y; mat_rot_z] in
  mkFrame (mat3_T (block3 rot)) origin.

(** The origin axis of an object, as a matrix. *)
Definition origin_axis_of (self : t) : result mat4 :=
  match _cam_origin_axis self with
  | Some m => Ok m
  | None => Raise TypeError
  end.

Definition get_camera_frame (self : t) : result Frame :=
  pos_x ← num (_cam_pos_x self);
  pos_y ← num (_cam_pos_y self);
  pos_z ← num (_cam_pos_z self);
  rot_x ← num (_cam_rot_x self);
  rot_y ← num (_cam_rot_y self);
  rot_z ← num (_cam_rot_z self);
  origin_axis ← origin_axis_of self;
  Ok (camera_frame pos_x pos_y pos_z rot_x rot_y rot_z origin_axis).

(** The function returned is [projection]. *)
Definition get_projection (self : t) (alpha : R)
    : result (points -> result pixels) :=
  fr_cam ← get_camera_frame self;
  angle_factor ← num (_angle_factor self);
  let angle := radians (alpha * angle_factor) in
  Ok (fun pts =>
    let origin :=
      match pts with
      | Point (x, y, z) =>
          let x := x * cos angle - y * sin angle in
          let y := x * sin angle + y * cos angle in
          Point (x, y, z)
      | Batch pt =>
          let x := map (fun p => p.1.1) pt in
          let y := map (fun p => p.1.2) pt in
          let z := map (fun p => p.2) pt in
          let x := zip_with (fun x y => x * cos angle - y * sin angle) x y in
          let y := zip_with (fun x y => x * sin angle + y * cos angle) x y in
          (* numpy.column_stack((x, y, z)) *)
          Batch (zip (zip x y) z)
      end in
    width ← num (_cam_width_image self);
    height ← num (_cam_height_image self);
    focal_length_x ← num (_cam_focal_length_x self);
    focal_length_y ← num (_cam_focal_length_y self);
    Ok (pixel_coordinates (local_point fr_cam origin)
          width height focal_length_x focal_length_y)).

Section Persistence.
(** [astype(numpy.float32)] on one value: the nearest single-precision
    number, which the real-number model leaves as a parameter. *)
Variable float32 : R -> R.

(** The attribute [_cam_origin_axis] read from a document. *)
Definition load_origin_axis (v : json) : result mat4 :=
  a ← np_array v;
  m ← reshape44 a;
  Ok (mat4_map float32 m).

Definition load (fs : files) (filename : string) : result t :=
  save_class ← json_load fs filename;
  cam_width_image ← getitem save_class "cam_width_image";
  cam_height_image ← getitem save_class "cam_height_image";
  cam_focal_length_x ← getitem save_class "cam_focal_length_x";
  cam_focal_length_y ← getitem save_class "cam_focal_length_y";
  cam_pos_x ← getitem save_class "cam_pos_x";
  cam_pos_y ← getitem save_class "cam_pos_y";
  cam_pos_z ← getitem save_class "cam_pos_z";
  cam_rot_x ← getitem save_class "cam_rot_x";
  cam_rot_y ← getitem save_class "cam_rot_y";
  cam_rot_z ← getitem save_class "cam_rot_z";
  angle_factor ← getitem save_class "angle_factor";
  origin_axis ← getitem save_class "cam_origin_axis";
  cam_origin_axis ← load_origin_axis origin_axis;
  Ok (mk cam_width_image cam_height_image
         cam_focal_length_x cam_focal_length_y
         cam_pos_x cam_pos_y cam_pos_z
         cam_rot_x cam_rot_y cam_rot_z
         angle_factor (Some cam_origin_axis)).
End Persistence.

(** The part of [save_class] that every [dump] writes. *)
Definition save_camera (self : t) (save_class : gmap string json)
    : result (gmap string json) :=
  let save_class := <["cam_width_image" := _cam_width_image self]> save_class in
  let save_class := <["cam_height_image" := _cam_height_image self]> save_class in
  let save_class := <["cam_focal_length_x" := _cam_focal_length_x self]> save_class in
  let save_class := <["cam_focal_length_y" := _cam_focal_length_y self]> save_class in
  let save_class := <["cam_pos_x" := _cam_pos_x self]> save_class in
  let save_class := <["cam_pos_y" := _cam_pos_y self]> save_class in
  let save_class := <["cam_pos_z" := _cam_pos_z self]> save_class in
  let save_class := <["cam_rot_x" := _cam_rot_x self]> save_class in
  let save_class := <["cam_rot_y" := _cam_rot_y self]> save_class in
  let save_class := <["cam_rot_z" := _cam_rot_z self]> save_class in
  let save_class := <["angle_factor" := _angle_factor self]> save_class in
  match _cam_origin_axis self with
  | None => Raise AttributeError
  | Some m =>
      Ok (<["cam_origin_axis" := JList (map JNum (reshape16 m))]> save_class)
  end.

Definition dump (self : t) (fs : files) (filename : string) : result files :=
  save_class ← save_camera self ∅;
  Ok (json_dump (JDict save_class) fs filename).

End CalibrationCamera.

(* ===================================================================== *)
(** * Loops, residuals and the multi-start search *)
(* ===================================================================== *)

(** An attribute that is [None] until [calibrate] sets it. *)
Definition attr {A : Type} (v : option A) : result A :=
  match v with Some a => Ok a | None => Raise TypeError end.

(** [for item in items: body], on the state [s] that the body updates. *)
Fixpoint for_each {A S : Type} (body : A -> S -> result S)
    (items : list A) (s : S) : result S :=
  match items with
  | [] => Ok s
  | item :: items => s ← body item s; for_each body items s
  end.

(** [numpy.array(pts)] for a list of the tuples or arrays that
    [pixel_coordinates] returns: an array of shape (N, 2). *)
Definition np_rows (pts : list pixels) : list (R * R) :=
  flat_map (fun p => match p with Pixel uv => [uv] | Pixels uvs => uvs end) pts.

Definition sub2 (p q : R * R) : R * R := (p.1 - q.1, p.2 - q.2).

(** [numpy.linalg.norm(pts - ref_pts, axis=1).sum()] for an array [pts] of
    shape (N, 2) and the list [ref_pts] of the M pixels observed.  The empty
    list is an array of shape (0,), which fits no array of rows; otherwise a
    single row is broadcast against the rows of the other array, two arrays
    of the same length are subtracted row by row, and other shapes do not
    fit. *)
Definition residual (pts ref_pts : list (R * R)) : result R :=
  match pts, ref_pts with
  | _, [] => Raise ValueError
  | [p], _ => Ok (np_sum (map (fun q => norm2 (sub2 p q)) ref_pts))
  | _, [q] => Ok (np_sum (map (fun p => norm2 (sub2 p q)) pts))
  | _, _ =>
      if decide (length pts = length ref_pts)
      then Ok (np_sum (zip_with (fun p q => norm2 (sub2 p q)) pts ref_pts))
      else Raise ValueError
  end.

(** The same for the list [pts] of the tuples that [pixel_coordinates]
    returns on points: [numpy.array(pts)] has the shape (N, 2), but for the
    list of no tuple, whose array has the shape (0,): no array of rows can
    be subtracted from it, and it has no norm along the axis 1. *)
Definition residual_of_points (pts : list pixels) (ref_pts : list (R * R))
    : result R :=
  match pts with
  | [] => Raise ValueError
  | _ => residual (np_rows pts) ref_pts
  end.

#[global] Instance Rlt_decision (x y : R) : Decision (x < y) := Rlt_dec x y.

(** [parameters[i] %= math.pi * 2.0]. *)
Definition wrap_index (i : nat) (parameters : list R) : result (list R) :=
  v ← list_getitem parameters i;
  Ok (<[i := py_mod v (PI * 2)]> parameters).

(** The state of the loop of [find_parameters].  [min_err] is [None] for
    [float('inf')]; [rng_pos] counts the random numbers drawn. *)
Record search : Type := mkSearch {
  best_parameters : option (list R);
  min_err : option R;
  rng_pos : nat;
}.

Section Search.
(** [scipy.optimize.minimize(f, x, method='BFGS').x]. *)
Variable minimize : (list R -> result R) -> list R -> result (list R).
(** The stream of [numpy.random.random_sample()]. *)
Variable random_sample : nat -> R.

(** [numpy.random.uniform(low, high)], from the position [pos] of the
    stream. *)
Definition uniform (low high : R) (pos : nat) : R * nat :=
  (low + (high - low) * random_sample pos, S pos).

(** One class differs from another in its objective and its first guess. *)
Variable fit_function : list R -> result R.
Variable initial_guess : nat -> list R * nat.

(** The body of the loop.  [err] is a number, at the depths for which the
    facts on the search are stated: it is less than [float('inf')]. *)
Definition attempt (st : search) : result search :=
  let '(parameters, pos) := initial_guess (rng_pos st) in
  parameters ← minimize fit_function parameters;
  err ← fit_function parameters;
  if match min_err st with
     | None => true
     | Some m => bool_decide (err < m)
     end
  then Ok (mkSearch (Some parameters) (Some err) pos)
  else Ok (mkSearch (best_parameters st) (min_err st) pos).

(** [for i in range(count)]. *)
Fixpoint repeat_attempts (count : nat) (st : search) : result search :=
  match count with
  | O => Ok st
  | S count => st ← attempt st; repeat_attempts count st
  end.

Definition search_parameters (number_of_repetition : nat) (pos : nat)
    : result search :=
  repeat_attempts (number_of_repetition + 1) (mkSearch None None pos).
End Search.

(* ===================================================================== *)
(** * class CalibrationCameraTop *)
(* ===================================================================== *)

Module CalibrationCameraTop.

(** The attributes of [CalibrationCamera] are in [base]. *)
Record t : Type := mk {
  base : CalibrationCamera.t;
  _ref_target_points_local_3d : option (list vec3);
  _ref_target_points_2d : option (list (list (R * R)));
  _ref_target_points_3d : option (list (list vec3));
  _ref_number : option nat;
}.

(** camera frame axis coordinates expressed in world coordinates *)
Definition axes : mat3 := ((1, 0, 0), (0, -1, 0), (0, 0, -1)).

Definition init : t :=
  let c := CalibrationCamera.init in
  mk (CalibrationCamera.mk
        (CalibrationCamera._cam_width_image c)
        (CalibrationCamera._cam_height_image c)
        (CalibrationCamera._cam_focal_length_x c)
        (CalibrationCamera._cam_focal_length_y c)
        (CalibrationCamera._cam_pos_x c)
        (CalibrationCamera._cam_pos_y c)
        (CalibrationCamera._cam_pos_z c)
        (CalibrationCamera._cam_rot_x c)
        (CalibrationCamera._cam_rot_y c)
        (CalibrationCamera._cam_rot_z c)
        (CalibrationCamera._angle_factor c)
        (Some (cam_origin_axis axes)))
     None None None None.

Definition fit_function (self : t) (x0 : list R) : result R :=
  match x0 with
  | [cam_focal_length_x; cam_focal_length_y;
     cam_pos_x; cam_pos_y; cam_pos_z;
     cam_rot_x; cam_rot_y; cam_rot_z] =>
      origin_axis ← CalibrationCamera.origin_axis_of (base self);
      let fr_cam := CalibrationCamera.camera_frame
                      cam_pos_x cam_pos_y cam_pos_z
                      cam_rot_x cam_rot_y cam_rot_z origin_axis in
      ref_2d ← attr (_ref_target_points_2d self);
      for_each
        (fun i err =>
           ref_3d ← attr (_ref_target_points_3d self);
           points_3d ← list_getitem ref_3d i;
           pts ← mapM
             (fun pt =>
                width ← num (CalibrationCamera._cam_width_image (base self));
                height ← num (CalibrationCamera._cam_height_image (base self));
                Ok (CalibrationCamera.pixel_coordinates
                      (local_point fr_cam (Point pt))
                      width height cam_focal_length_x cam_focal_length_y))
             points_3d;
           ref_pts ← list_getitem ref_2d i;
           r ← residual_of_points pts ref_pts;
           Ok (err + r))
        (seq 0 (length ref_2d)) 0
  | _ => Raise ValueError
  end.

Definition project_points_3d (self : t) (points_3d : list vec3)
    : result (list pixels) :=
  fr_cam ← CalibrationCamera.get_camera_frame (base self);
  mapM
    (fun pt =>
       width ← num (CalibrationCamera._cam_width_image (base self));
       height ← num (CalibrationCamera._cam_height_image (base self));
       focal_length_x ← num (CalibrationCamera._cam_focal_length_x (base self));
       focal_length_y ← num (CalibrationCamera._cam_focal_length_y (base self));
       Ok (CalibrationCamera.pixel_coordinates
             (local_point fr_cam (Point pt))
             width height focal_length_x focal_length_y))
    points_3d.

(** The attributes that [calibrate] sets from its arguments, before the
    search. *)
Definition prepare (self : t)
    (ref_target_points_2d : list (list (R * R)))
    (ref_target_points_3d : list (list vec3))
    (size_image : R * R) (angle_factor : R) : t :=
  let c := base self in
  mk (CalibrationCamera.mk
        (JNum size_image.1) (JNum size_image.2)
        (CalibrationCamera._cam_focal_length_x c)
        (CalibrationCamera._cam_focal_length_y c)
        (CalibrationCamera._cam_pos_x c)
        (CalibrationCamera._cam_pos_y c)
        (CalibrationCamera._cam_pos_z c)
        (CalibrationCamera._cam_rot_x c)
        (CalibrationCamera._cam_rot_y c)
        (CalibrationCamera._cam_rot_z c)
        (JNum angle_factor)
        (CalibrationCamera._cam_origin_axis c))
     (_ref_target_points_local_3d self)
     (Some ref_target_points_2d) (Some ref_target_points_3d)
     (Some (length ref_target_points_2d)).

Section Fitting.
Variable minimize : (list R -> result R) -> list R -> result (list R).
Variable random_sample : nat -> R.

(** The first guess of one attempt. *)
Definition initial_guess (pos : nat) : list R * nat :=
  let '(cam_focal_length_x, pos) := uniform random_sample 0 10000 pos in
  let '(cam_focal_length_y, pos) := uniform random_sample 0 10000 pos in
  let '(cam_pos_x, pos) := uniform random_sample (-500) 500 pos in
  let '(cam_pos_y, pos) := uniform random_sample (-500) 500 pos in
  let '(cam_pos_z, pos) := uniform random_sample 0 10000 pos in
  let cam_rot_x := 0 in
  let cam_rot_y := 0 in
  let cam_rot_z := 0 in
  ([cam_focal_length_x; cam_focal_length_y;
    cam_pos_x; cam_pos_y; cam_pos_z;
    cam_rot_x; cam_rot_y; cam_rot_z], pos).

(** The loop of [find_parameters], with its ghost log. *)
Definition find_parameters_search (self : t) (number_of_repetition : nat)
    (pos : nat) : result search :=
  search_parameters minimize (fit_function self) initial_guess
    number_of_repetition pos.

Definition find_parameters (self : t) (number_of_repetition : nat)
    (pos : nat) : result (option (list R)) :=
  st ← find_parameters_search self number_of_repetition pos;
  Ok (best_parameters st).

(** [calibrate] returns the object as it has set it and the mean error. *)
Definition calibrate (self : t)
    (ref_target_points_2d : list (list (R * R)))
    (ref_target_points_3d : list (list vec3))
    (size_image : R * R) (angle_factor : R)
    (number_of_repetition : nat) (pos : nat) : result (t * R) :=
  let self := prepare self ref_target_points_2d ref_target_points_3d
                      size_image angle_factor in
  let ref_number := length ref_target_points_2d in
  parameters ← find_parameters self number_of_repetition pos;
  parameters ← attr parameters;
  parameters ← for_each wrap_index [5; 6; 7]%nat parameters;
  p0 ← list_getitem parameters 0;
  p1 ← list_getitem parameters 1;
  p2 ← list_getitem parameters 2;
  p3 ← list_getitem parameters 3;
  p4 ← list_getitem parameters 4;
  p5 ← list_getitem parameters 5;
  p6 ← list_getitem parameters 6;
  p7 ← list_getitem parameters 7;
  let c := base self in
  let self :=
    mk (CalibrationCamera.mk
          (CalibrationCamera._cam_width_image c)
          (CalibrationCamera._cam_height_image c)
          (JNum p0) (JNum p1)
          (JNum p2) (JNum p3) (JNum p4)
          (JNum p5) (JNum p6) (JNum p7)
          (CalibrationCamera._angle_factor c)
          (CalibrationCamera._cam_origin_axis c))
       (_ref_target_points_local_3d self)
       (_ref_target_points_2d self) (_ref_target_points_3d self)
       (_ref_number self) in
  err ← fit_function self parameters;
  if decide (ref_number = 0%nat) then Raise ZeroDivisionError
  else Ok (self, err / INR ref_number).
End Fitting.

Section Persistence.
Variable float32 : R -> R.

(** [load] reads the keys that [CalibrationCamera.load] reads, into a new
    object of this class. *)
Definition load (fs : files) (filename : string) : result t :=
  c ← CalibrationCamera.load float32 fs filename;
  Ok (mk c None None None None).
End Persistence.

(** [dump] is inherited from [CalibrationCamera]. *)
Definition dump (self : t) (fs : files) (filename : string) : result files :=
  CalibrationCamera.dump (base self) fs filename.

End CalibrationCameraTop.

(* ===================================================================== *)
(** * class CalibrationCameraSideWith2TargetYXZ *)
(* ===================================================================== *)

Module CalibrationCameraSideWith2TargetYXZ.

(** The attributes of [CalibrationCamera] are in [base]; a dict of
    observations is the list of its items. *)
Record t : Type := mk {
  base : CalibrationCamera.t;
  _ref_target_1_points_local_3d : option (list vec3);
  _ref_target_2_points_local_3d : option (list vec3);
  _ref_number : option nat;
  _ref_target_1_points_2d : option (list (R * list (R * R)));
  _ref_target_2_points_2d : option (list (R * list (R * R)));
  _target_1_pos_x : json;
  _target_1_pos_y : json;
  _target_1_pos_z : json;
  _target_1_rot_x : json;
  _target_1_rot_y : json;
  _target_1_rot_z : json;
  _target_2_pos_x : json;
  _target_2_pos_y : json;
  _target_2_pos_z : json;
  _target_2_rot_x : json;
  _target_2_rot_y : json;
  _target_2_rot_z : json;
}.

(** camera frame axis coordinates expressed in world coordinates *)
Definition axes : mat3 := ((1, 0, 0), (0, 0, -1), (0, 1, 0)).

Definition init : t :=
  let c := CalibrationCamera.init in
  mk (CalibrationCamera.mk
        (CalibrationCamera._cam_width_image c)
        (CalibrationCamera._cam_height_image c)
        (CalibrationCamera._cam_focal_length_x c)
        (CalibrationCamera._cam_focal_length_y c)
        (CalibrationCamera._cam_pos_x c)
        (CalibrationCamera._cam_pos_y c)
        (JNum 0)
        (CalibrationCamera._cam_rot_x c)
        (JNum 0)
        (CalibrationCamera._cam_rot_z c)
        (CalibrationCamera._angle_factor c)
        (Some (cam_origin_axis axes)))
     None None None None None
     JNull JNull JNull JNull JNull JNull
     JNull JNull JNull JNull JNull JNull.

(** One of the two loops of [fit_function], which differ in the target:
    its pose, its observations and its corners. *)
Definition target_terms (self : t) (fr_cam : Frame)
    (cam_focal_length_x cam_focal_length_y angle_factor : R)
    (pos_x pos_y pos_z rot_x rot_y rot_z : R)
    (ref_target_points_2d : option (list (R * list (R * R))))
    (ref_target_points_local_3d : option (list vec3))
    (err : R) : result R :=
  items ← attr ref_target_points_2d;
  for_each
    (fun '(alpha, ref_pts) err =>
       let fr_target := CalibrationCamera.target_frame
                          pos_x pos_y pos_z rot_x rot_y rot_z
                          (radians (alpha * angle_factor)) in
       local_3d ← attr ref_target_points_local_3d;
       let target_pts := map (fun pt => global_point fr_target (Point pt))
                             local_3d in
       pts ← mapM
         (fun pt =>
            width ← num (CalibrationCamera._cam_width_image (base self));
            height ← num (CalibrationCamera._cam_height_image (base self));
            Ok (CalibrationCamera.pixel_coordinates
                  (local_point fr_cam pt)
                  width height cam_focal_length_x cam_focal_length_y))
         target_pts;
       r ← residual_of_points pts ref_pts;
       Ok (err + r))
    items err.

Definition fit_function (self : t) (x0 : list R) : result R :=
  match x0 with
  | [cam_focal_length_x; cam_focal_length_y;
     cam_pos_x; cam_pos_y;
     cam_rot_x; cam_rot_z;
     angle_factor;
     target_1_pos_x; target_1_pos_y; target_1_pos_z;
     target_1_rot_x; target_1_rot_y; target_1_rot_z;
     target_2_pos_x; target_2_pos_y; target_2_pos_z;
     target_2_rot_x; target_2_rot_y; target_2_rot_z] =>
      cam_pos_z ← num (CalibrationCamera._cam_pos_z (base self));
      cam_rot_y ← num (CalibrationCamera._cam_rot_y (base self));
      origin_axis ← CalibrationCamera.origin_axis_of (base self);
      let fr_cam := CalibrationCamera.camera_frame
                      cam_pos_x cam_pos_y cam_pos_z
                      cam_rot_x cam_rot_y cam_rot_z origin_axis in
      err ← target_terms self fr_cam
              cam_focal_length_x cam_focal_length_y angle_factor
              target_1_pos_x target_1_pos_y target_1_pos_z
              target_1_rot_x target_1_rot_y target_1_rot_z
              (_ref_target_1_points_2d self)
              (_ref_target_1_points_local_3d self) 0;
      target_terms self fr_cam
        cam_focal_length_x cam_focal_length_y angle_factor
        target_2_pos_x target_2_pos_y target_2_pos_z
        target_2_rot_x target_2_rot_y target_2_rot_z
        (_ref_target_2_points_2d self)
        (_ref_target_2_points_local_3d self) err
  | _ => Raise ValueError
  end.

(** The frame of a target at the angle [alpha], from the attributes of
    its pose: the first statement of the four methods below, which differ
    in the target. *)
Definition target_frame_of (self : t)
    (pos_x pos_y pos_z rot_x rot_y rot_z : json) (alpha : R) : result Frame :=
  pos_x ← num pos_x;
  pos_y ← num pos_y;
  pos_z ← num pos_z;
  rot_x ← num rot_x;
  rot_y ← num rot_y;
  rot_z ← num rot_z;
  angle_factor ← num (CalibrationCamera._angle_factor (base self));
  Ok (CalibrationCamera.target_frame pos_x pos_y pos_z rot_x rot_y rot_z
        (radians (alpha * angle_factor))).

(** The pixels of world points seen by the camera of the object. *)
Definition projected (self : t) (fr_cam : Frame) (target_pts : list points)
    : result (list pixels) :=
  mapM
    (fun pt =>
       width ← num (CalibrationCamera._cam_width_image (base self));
       height ← num (CalibrationCamera._cam_height_image (base self));
       focal_length_x ← num (CalibrationCamera._cam_focal_length_x (base self));
       focal_length_y ← num (CalibrationCamera._cam_focal_length_y (base self));
       Ok (CalibrationCamera.pixel_coordinates
             (local_point fr_cam pt)
             width height focal_length_x focal_length_y))
    target_pts.

Definition get_target_1_projected (self : t) (alpha : R)
    (ref_target_1_points_local_3d : list vec3) : result (list pixels) :=
  fr_cam ← CalibrationCamera.get_camera_frame (base self);
  fr_target ← target_frame_of self
    (_target_1_pos_x self) (_target_1_pos_y self) (_target_1_pos_z self)
    (_target_1_rot_x self) (_target_1_rot_y self) (_target_1_rot_z self)
    alpha;
  let target_pts := map (fun pt => global_point fr_target (Point pt))
                        ref_target_1_points_local_3d in
  projected self fr_cam target_pts.

Definition get_target_2_projected (self : t) (alpha : R)
    (ref_target_2_points_local_3d : list vec3) : result (list pixels) :=
  fr_cam ← CalibrationCamera.get_camera_frame (base self);
  fr_target ← target_frame_of self
    (_target_2_pos_x self) (_target_2_pos_y self) (_target_2_pos_z self)
    (_target_2_rot_x self) (_target_2_rot_y self) (_target_2_rot_z self)
    alpha;
  let target_pts := map (fun pt => global_point fr_target (Point pt))
                        ref_target_2_points_local_3d in
  projected self fr_cam target_pts.

Definition get_target_1_ref_points_global_3d (self : t) (alpha : R)
    (ref_target_1_points_local_3d : list vec3) : result (list points) :=
  fr_target ← target_frame_of self
    (_target_1_pos_x self) (_target_1_pos_y self) (_target_1_pos_z self)
    (_target_1_rot_x self) (_target_1_rot_y self) (_target_1_rot_z self)
    alpha;
  Ok (map (fun pt => global_point fr_target (Point pt))
          ref_target_1_points_local_3d).

Definition get_target_2_ref_points_global_3d (self : t) (alpha : R)
    (ref_target_2_points_local_3d : list vec3) : result (list points) :=
  fr_target ← target_frame_of self
    (_target_2_pos_x self) (_target_2_pos_y self) (_target_2_pos_z self)
    (_target_2_rot_x self) (_target_2_rot_y self) (_target_2_rot_z self)
    alpha;
  Ok (map (fun pt => global_point fr_target (Point pt))
          ref_target_2_points_local_3d).

(** The attributes that [calibrate] takes from the parameter vector. *)
Definition store (self : t) (parameters : list R) : result t :=
  p0 ← list_getitem parameters 0;
  p1 ← list_getitem parameters 1;
  p2 ← list_getitem parameters 2;
  p3 ← list_getitem parameters 3;
  p4 ← list_getitem parameters 4;
  p5 ← list_getitem parameters 5;
  p6 ← list_getitem parameters 6;
  p7 ← list_getitem parameters 7;
  p8 ← list_getitem parameters 8;
  p9 ← list_getitem parameters 9;
  p10 ← list_getitem parameters 10;
  p11 ← list_getitem parameters 11;
  p12 ← list_getitem parameters 12;
  p13 ← list_getitem parameters 13;
  p14 ← list_getitem parameters 14;
  p15 ← list_getitem parameters 15;
  p16 ← list_getitem parameters 16;
  p17 ← list_getitem parameters 17;
  p18 ← list_getitem parameters 18;
  let c := base self in
  Ok (mk (CalibrationCamera.mk
            (CalibrationCamera._cam_width_image c)
            (CalibrationCamera._cam_height_image c)
            (* Camera Parameters *)
            (JNum p0) (JNum p1)
            (JNum p2) (JNum p3) (CalibrationCamera._cam_pos_z c)
            (JNum p4) (CalibrationCamera._cam_rot_y c) (JNum p5)
            (JNum p6)
            (CalibrationCamera._cam_origin_axis c))
         (_ref_target_1_points_local_3d self)
         (_ref_target_2_points_local_3d self)
         (_ref_number self)
         (_ref_target_1_points_2d self)
         (_ref_target_2_points_2d self)
         (* Target 1 Parameters *)
         (JNum p7) (JNum p8) (JNum p9) (JNum p10) (JNum p11) (JNum p12)
         (* Target 2 Parameters *)
         (JNum p13) (JNum p14) (JNum p15) (JNum p16) (JNum p17) (JNum p18)).

Section Fitting.
Variable minimize : (list R -> result R) -> list R -> result (list R).
Variable random_sample : nat -> R.

(** The first guess of one attempt. *)
Definition initial_guess (pos : nat) : list R * nat :=
  let '(cam_focal_length_x, pos) := uniform random_sample 1000 10000 pos in
  let '(cam_focal_length_y, pos) := uniform random_sample 1000 10000 pos in
  let cam_pos_x := 0 in
  let '(u, pos) := uniform random_sample 10000 1000 pos in
  let cam_pos_y := - u in
  let cam_rot_x := 0 in
  let cam_rot_z := 0 in
  let angle_factor := 1 in
  let '(target_1_pos_x, pos) := uniform random_sample (-1000) 1000 pos in
  let '(target_1_pos_y, pos) := uniform random_sample (-1000) 1000 pos in
  let '(target_1_pos_z, pos) := uniform random_sample (-1000) 1000 pos in
  let target_2_pos_x := - target_1_pos_x in
  let target_2_pos_y := - target_1_pos_y in
  let '(target_2_pos_z, pos) := uniform random_sample (-1000) 1000 pos in
  ([cam_focal_length_x; cam_focal_length_y;
    cam_pos_x; cam_pos_y;
    cam_rot_x; cam_rot_z;
    angle_factor;
    target_1_pos_x; target_1_pos_y; target_1_pos_z; 0; 0; 0;
    target_2_pos_x; target_2_pos_y; target_2_pos_z; 0; 0; 0], pos).

Definition find_parameters (self : t) (number_of_repetition : nat)
    (pos : nat) : result (option (list R)) :=
  st ← search_parameters minimize (fit_function self) initial_guess
         number_of_repetition pos;
  Ok (best_parameters st).

(** [calibrate] returns the object as it has set it and the mean error. *)
Definition calibrate (self : t)
    (ref_target_1_points_2d : list (R * list (R * R)))
    (ref_target_1_points_local_3d : list vec3)
    (ref_target_2_points_2d : list (R * list (R * R)))
    (ref_target_2_points_local_3d : list vec3)
    (size_image : R * R)
    (number_of_repetition : nat) (pos : nat) : result (t * R) :=
  let ref_number := (length ref_target_1_points_2d
                     + length ref_target_2_points_2d)%nat in
  let c := base self in
  let self :=
    mk (CalibrationCamera.mk
          (JNum size_image.1) (JNum size_image.2)
          (CalibrationCamera._cam_focal_length_x c)
          (CalibrationCamera._cam_focal_length_y c)
          (CalibrationCamera._cam_pos_x c)
          (CalibrationCamera._cam_pos_y c)
          (CalibrationCamera._cam_pos_z c)
          (CalibrationCamera._cam_rot_x c)
          (CalibrationCamera._cam_rot_y c)
          (CalibrationCamera._cam_rot_z c)
          (CalibrationCamera._angle_factor c)
          (CalibrationCamera._cam_origin_axis c))
       (Some ref_target_1_points_local_3d)
       (Some ref_target_2_points_local_3d)
       (Some ref_number)
       (Some ref_target_1_points_2d)
       (Some ref_target_2_points_2d)
       (_target_1_pos_x self) (_target_1_pos_y self) (_target_1_pos_z self)
       (_target_1_rot_x self) (_target_1_rot_y self) (_target_1_rot_z self)
       (_target_2_pos_x self) (_target_2_pos_y self) (_target_2_pos_z self)
       (_target_2_rot_x self) (_target_2_rot_y self) (_target_2_rot_z self) in
  parameters ← find_parameters self number_of_repetition pos;
  parameters ← attr parameters;
  parameters ← for_each wrap_index
                 [4; 6; 10; 11; 12; 16; 17; 18]%nat parameters;
  self ← store self parameters;
  err ← fit_function self parameters;
  if decide (ref_number = 0%nat) then Raise ZeroDivisionError
  else Ok (self, err / INR ref_number).
End Fitting.

Definition dump (self : t) (fs : files) (filename : string) : result files :=
  save_class ← CalibrationCamera.save_camera (base self) ∅;
  let save_class := <["target_1_pos_x" := _target_1_pos_x self]> save_class in
  let save_class := <["target_1_pos_y" := _target_1_pos_y self]> save_class in
  let save_class := <["target_1_pos_z" := _target_1_pos_z self]> save_class in
  let save_class := <["target_1_rot_x" := _target_1_rot_x self]> save_class in
  let save_class := <["target_1_rot_y" := _target_1_rot_y self]> save_class in
  let save_class := <["target_1_rot_z" := _target_1_rot_z self]> save_class in
  let save_class := <["target_2_pos_x" := _target_2_pos_x self]> save_class in
  let save_class := <["target_2_pos_y" := _target_2_pos_y self]> save_class in
  let save_class := <["target_2_pos_z" := _target_2_pos_z self]> save_class in
  let save_class := <["target_2_rot_x" := _target_2_rot_x self]> save_class in
  let save_class := <["target_2_rot_y" := _target_2_rot_y self]> save_class in
  let save_class := <["target_2_rot_z" := _target_2_rot_z self]> save_class in
  Ok (json_dump (JDict save_class) fs filename).

Section Persistence.
Variable float32 : R -> R.

(** The keys of the camera are read first, as [CalibrationCamera.load]
    reads them. *)
Definition load (fs : files) (filename : string) : result t :=
  c ← CalibrationCamera.load float32 fs filename;
  save_class ← json_load fs filename;
  target_1_pos_x ← getitem save_class "target_1_pos_x";
  target_1_pos_y ← getitem save_class "target_1_pos_y";
  target_1_pos_z ← getitem save_class "target_1_pos_z";
  target_1_rot_x ← getitem save_class "target_1_rot_x";
  target_1_rot_y ← getitem save_class "target_1_rot_y";
  target_1_rot_z ← getitem save_class "target_1_rot_z";
  target_2_pos_x ← getitem save_class "target_2_pos_x";
  target_2_pos_y ← getitem save_class "target_2_pos_y";
  target_2_pos_z ← getitem save_class "target_2_pos_z";
  target_2_rot_x ← getitem save_class "target_2_rot_x";
  target_2_rot_y ← getitem save_class "target_2_rot_y";
  target_2_rot_z ← getitem save_class "target_2_rot_z";
  Ok (mk c None None None None None
         target_1_pos_x target_1_pos_y target_1_pos_z
         target_1_rot_x target_1_rot_y target_1_rot_z
         target_2_pos_x target_2_pos_y target_2_pos_z
         target_2_rot_x target_2_rot_y target_2_rot_z).
End Persistence.

End CalibrationCameraSideWith2TargetYXZ.

(* ===================================================================== *)
(** * class TargetParameters and class Calibration *)
(* ===================================================================== *)

Module TargetParameters.

Record t : Type := mk {
  _pos_x : json;
  _pos_y : json;
  _pos_z : json;
  _rot_x : json;
  _rot_y : json;
  _rot_z : json;
}.

Definition init : t := mk JNull JNull JNull JNull JNull JNull.

(** [t.__dict__]. *)
Definition dict (self : t) : gmap string json :=
  <["_rot_z" := _rot_z self]>
    (<["_rot_y" := _rot_y self]>
       (<["_rot_x" := _rot_x self]>
          (<["_pos_z" := _pos_z self]>
             (<["_pos_y" := _pos_y self]>
                (<["_pos_x" := _pos_x self]> ∅))))).

End TargetParameters.

(** [len(v)] on a loaded document. *)
Definition py_len (v : json) : result nat :=
  match v with
  | JList l => Ok (length l)
  | JDict d => Ok (size d)
  | JStr s => Ok (String.length s)
  | _ => Raise TypeError
  end.

(** [for x in v] on a loaded document: the elements of a list, the keys of
    a dict, the characters of a string. *)
Definition py_iter (v : json) : result (list json) :=
  match v with
  | JList l => Ok l
  | JDict d => Ok (map (fun kv => JStr kv.1) (map_to_list d))
  | JStr s => Ok (map (fun a => JStr (String a EmptyString))
                      (String.list_ascii_of_string s))
  | _ => Raise TypeError
  end.

Module Calibration.

(** The observations of one target from one camera: the items of the dict
    from the angle to the corners seen. *)
Definition observations : Type := list (R * list (R * R)).

(** The attributes of [CalibrationCamera], which are those of the
    reference camera, are in [base]. *)
Record t : Type := mk {
  base : CalibrationCamera.t;
  _cameras_origin_axis : mat3;
  _targets_origin_axis : mat3;
  clockwise : bool;
  _targets_points_local_3d : option (list (list vec3));
  _ref_targets_points_2d : option (list observations);
  _nb_corners : option nat;
  _nb_targets : nat;
  _targets_parameters : list TargetParameters.t;
  _nb_others : nat;
  _others : list CalibrationCamera.t;
  _others_targets_points_2d : option (list (list observations));
}.

Definition default_cameras_origin_axis : mat3 :=
  ((1, 0, 0), (0, 0, -1), (0, 1, 0)).
Definition default_targets_origin_axis : mat3 :=
  ((1, 0, 0), (0, 0, 1), (0, -1, 0)).

Definition init (nb_targets nb_cameras : nat)
    (cameras_origin_axis targets_origin_axis : mat3)
    (clockwise_rotation : bool) : t :=
  let nb_others := (nb_cameras - 1)%nat in
  mk CalibrationCamera.init
     cameras_origin_axis targets_origin_axis clockwise_rotation
     None None None
     nb_targets (replicate nb_targets TargetParameters.init)
     nb_others (replicate nb_others CalibrationCamera.init)
     None.

(** The body of the two innermost loops of [fit_function]: the residual
    of the corners [layout] of a target with the pose [pose], seen at the
    angle [alpha] by the camera of frame [fr_cam]. *)
Definition observed_error (self : t) (fr_cam : Frame)
    (width height : json) (cam_focal_length_x cam_focal_length_y : R)
    (angle_factor : R) (pose : R * R * R * R * R * R)
    (layout_index : nat) (alpha : R) (ref_pts : list (R * R)) (err : R)
    : result R :=
  let '(pos_x, pos_y, pos_z, rot_x, rot_y, rot_z) := pose in
  let alpha := alpha * angle_factor in
  (* alpha labels of ref_pts dict are positive *)
  let alpha := if clockwise self then alpha * -1 else alpha in
  let fr_target := CalibrationCamera.target_frame
                     pos_x pos_y pos_z rot_x rot_y rot_z (radians alpha) in
  local_3d ← attr (_targets_points_local_3d self);
  layout ← list_getitem local_3d layout_index;
  let target_pts := global_point fr_target (Batch layout) in
  width ← num width;
  height ← num height;
  let pts := CalibrationCamera.pixel_coordinates
               (local_point fr_cam target_pts)
               width height cam_focal_length_x cam_focal_length_y in
  r ← residual (np_rows [pts]) ref_pts;
  Ok (err + r).

(** [pos_x, pos_y, pos_z, rot_x, rot_y, rot_z = x0[7 + i * 6: 13 + i * 6]]. *)
Definition target_slot (x0 : list R) (i : nat)
    : result (R * R * R * R * R * R) :=
  match slice x0 (7 + i * 6) (13 + i * 6) with
  | [pos_x; pos_y; pos_z; rot_x; rot_y; rot_z] =>
      Ok (pos_x, pos_y, pos_z, rot_x, rot_y, rot_z)
  | _ => Raise ValueError
  end.

(** [cam_focal_length_x, ..., angle_factor = x0[0:7]]. *)
Definition reference_slot (x0 : list R)
    : result (R * R * R * R * R * R * R) :=
  match slice x0 0 7 with
  | [cam_focal_length_x; cam_focal_length_y;
     cam_pos_y;
     cam_rot_x; cam_rot_y; cam_rot_z;
     angle_factor] =>
      Ok (cam_focal_length_x, cam_focal_length_y,
          cam_pos_y,
          cam_rot_x, cam_rot_y, cam_rot_z,
          angle_factor)
  | _ => Raise ValueError
  end.

(** [cam_focal_length_x, ..., cam_rot_z = x0[offset + i * 8: offset + i * 8 + 8]],
    with [offset = 7 + self._nb_targets * 6]. *)
Definition camera_slot (self : t) (x0 : list R) (i : nat)
    : result (R * R * R * R * R * R * R * R) :=
  let offset := (7 + _nb_targets self * 6)%nat in
  match slice x0 (offset + i * 8) (offset + i * 8 + 8) with
  | [cam_focal_length_x; cam_focal_length_y;
     cam_pos_x; cam_pos_y; cam_pos_z;
     cam_rot_x; cam_rot_y; cam_rot_z] =>
      Ok (cam_focal_length_x, cam_focal_length_y,
          cam_pos_x, cam_pos_y, cam_pos_z,
          cam_rot_x, cam_rot_y, cam_rot_z)
  | _ => Raise ValueError
  end.

Definition fit_function (self : t) (x0 : list R) : result R :=
  (* reference camera parameters *)
  let cam_pos_x := 0 in
  let cam_pos_z := 0 in
  let cam_origin_axis_ := cam_origin_axis (_cameras_origin_axis self) in
  '(cam_focal_length_x, cam_focal_length_y,
    cam_pos_y,
    cam_rot_x, cam_rot_y, cam_rot_z,
    angle_factor) ← reference_slot x0;
  let fr_cam := CalibrationCamera.camera_frame
                  cam_pos_x cam_pos_y cam_pos_z
                  cam_rot_x cam_rot_y cam_rot_z cam_origin_axis_ in
  err ← for_each
    (fun i err =>
       ref_2d ← attr (_ref_targets_points_2d self);
       items ← list_getitem ref_2d i;
       for_each
         (fun '(alpha, ref_pts) err =>
            pose ← target_slot x0 i;
            observed_error self fr_cam
              (CalibrationCamera._cam_width_image (base self))
              (CalibrationCamera._cam_height_image (base self))
              cam_focal_length_x cam_focal_length_y
              angle_factor pose i alpha ref_pts err)
         items err)
    (seq 0 (_nb_targets self)) 0;
  for_each
    (fun i err =>
       '(cam_focal_length_x, cam_focal_length_y,
         cam_pos_x, cam_pos_y, cam_pos_z,
         cam_rot_x, cam_rot_y, cam_rot_z) ← camera_slot self x0 i;
       let fr_cam := CalibrationCamera.camera_frame
                       cam_pos_x cam_pos_y cam_pos_z
                       cam_rot_x cam_rot_y cam_rot_z
                       cam_origin_axis_ in
       for_each
         (fun j err =>
            pose ← target_slot x0 j;
            others_2d ← attr (_others_targets_points_2d self);
            of_camera ← list_getitem others_2d i;
            items ← list_getitem of_camera j;
            for_each
              (fun '(alpha, ref_pts) err =>
                 camera ← list_getitem (_others self) i;
                 (* the corners are self._targets_points_local_3d[i] *)
                 observed_error self fr_cam
                   (CalibrationCamera._cam_width_image camera)
                   (CalibrationCamera._cam_height_image camera)
                   cam_focal_length_x cam_focal_length_y
                   angle_factor pose i alpha ref_pts err)
              items err)
         (seq 0 (_nb_targets self)) err)
    (seq 0 (length (_others self))) err.

(** [parameters[i] % math.pi * 2.0]. *)
Definition wrapped (parameters : list R) (i : nat) : result json :=
  v ← list_getitem parameters i;
  Ok (JNum (py_mod v PI * 2)).

Definition plain (parameters : list R) (i : nat) : result json :=
  v ← list_getitem parameters i;
  Ok (JNum v).

(** The attributes that [calibrate] takes from the parameter vector. *)
Definition store (self : t) (parameters : list R) : result t :=
  (* Reference Camera Parameters *)
  cam_focal_length_x ← plain parameters 0;
  cam_focal_length_y ← plain parameters 1;
  cam_pos_y ← plain parameters 2;
  cam_rot_x ← wrapped parameters 3;
  cam_rot_y ← wrapped parameters 4;
  cam_rot_z ← wrapped parameters 5;
  angle_factor ← plain parameters 6;
  (* Targets Parameters *)
  targets ← mapM
    (fun i =>
       pos_x ← plain parameters (7 + i * 6);
       pos_y ← plain parameters (8 + i * 6);
       pos_z ← plain parameters (9 + i * 6);
       rot_x ← wrapped parameters (10 + i * 6);
       rot_y ← wrapped parameters (11 + i * 6);
       rot_z ← wrapped parameters (12 + i * 6);
       Ok (TargetParameters.mk pos_x pos_y pos_z rot_x rot_y rot_z))
    (seq 0 (length (_targets_parameters self)));
  (* other camera parameters *)
  let offset := (7 + _nb_targets self * 6)%nat in
  others ← mapM
    (fun '(i, camera) =>
       cam_focal_length_x ← plain parameters (offset + i * 8);
       cam_focal_length_y ← plain parameters (offset + i * 8 + 1);
       cam_pos_x ← plain parameters (offset + i * 8 + 2);
       cam_pos_y ← plain parameters (offset + i * 8 + 3);
       cam_pos_z ← plain parameters (offset + i * 8 + 4);
       cam_rot_x ← wrapped parameters (offset + i * 8 + 5);
       cam_rot_y ← wrapped parameters (offset + i * 8 + 6);
       cam_rot_z ← wrapped parameters (offset + i * 8 + 7);
       angle_factor ← plain parameters 6;
       Ok (CalibrationCamera.mk
             (CalibrationCamera._cam_width_image camera)
             (CalibrationCamera._cam_height_image camera)
             cam_focal_length_x cam_focal_length_y
             cam_pos_x cam_pos_y cam_pos_z
             cam_rot_x cam_rot_y cam_rot_z
             angle_factor
             (CalibrationCamera._cam_origin_axis camera)))
    (zip (seq 0 (length (_others self))) (_others self));
  let c := base self in
  Ok (mk (CalibrationCamera.mk
            (CalibrationCamera._cam_width_image c)
            (CalibrationCamera._cam_height_image c)
            cam_focal_length_x cam_focal_length_y
            (CalibrationCamera._cam_pos_x c)
            cam_pos_y
            (CalibrationCamera._cam_pos_z c)
            cam_rot_x cam_rot_y cam_rot_z
            angle_factor
            (CalibrationCamera._cam_origin_axis c))
         (_cameras_origin_axis self) (_targets_origin_axis self)
         (clockwise self)
         (_targets_points_local_3d self) (_ref_targets_points_2d self)
         (_nb_corners self)
         (_nb_targets self) targets
         (_nb_others self) others
         (_others_targets_points_2d self)).

(** [camera._cam_width_image = image_size[0]] and the height. *)
Definition set_image_size (camera : CalibrationCamera.t)
    (image_size : R * R) : CalibrationCamera.t :=
  CalibrationCamera.mk
    (JNum image_size.1) (JNum image_size.2)
    (CalibrationCamera._cam_focal_length_x camera)
    (CalibrationCamera._cam_focal_length_y camera)
    (CalibrationCamera._cam_pos_x camera)
    (CalibrationCamera._cam_pos_y camera)
    (CalibrationCamera._cam_pos_z camera)
    (CalibrationCamera._cam_rot_x camera)
    (CalibrationCamera._cam_rot_y camera)
    (CalibrationCamera._cam_rot_z camera)
    (CalibrationCamera._angle_factor camera)
    (CalibrationCamera._cam_origin_axis camera).

(** The four methods [get_target_1_projected], [get_target_2_projected],
    [get_target_1_ref_points_global_3d] and
    [get_target_2_ref_points_global_3d] of this class read the attributes
    [_target_1_pos_x], ... or [_target_2_pos_x], ..., which no object of this
    class has: the poses are in [_targets_parameters]. *)
Definition get_target_1_projected (self : t) (alpha : R)
    (ref_target_1_points_local_3d : list vec3) : result (list pixels) :=
  fr_cam ← CalibrationCamera.get_camera_frame (base self);
  (* self._target_1_pos_x *)
  Raise AttributeError.

Definition get_target_2_projected (self : t) (alpha : R)
    (ref_target_2_points_local_3d : list vec3) : result (list pixels) :=
  fr_cam ← CalibrationCamera.get_camera_frame (base self);
  (* self._target_2_pos_x *)
  Raise AttributeError.

Definition get_target_1_ref_points_global_3d (self : t) (alpha : R)
    (ref_target_1_points_local_3d : list vec3) : result (list points) :=
  (* self._target_1_pos_x *)
  Raise AttributeError.

Definition get_target_2_ref_points_global_3d (self : t) (alpha : R)
    (ref_target_2_points_local_3d : list vec3) : result (list points) :=
  (* self._target_2_pos_x *)
  Raise AttributeError.

Section Fitting.
Variable minimize : (list R -> result R) -> list R -> result (list R).
Variable random_sample : nat -> R.

(** [for i in range(self._nb_targets): parameters += [...]]. *)
Fixpoint guess_targets (count pos : nat) : list R * nat :=
  match count with
  | O => ([], pos)
  | S count =>
      let '(pos_x, pos) := uniform random_sample (-1000) 1000 pos in
      let '(pos_y, pos) := uniform random_sample (-1000) 1000 pos in
      let '(pos_z, pos) := uniform random_sample (-1000) 1000 pos in
      let '(rest, pos) := guess_targets count pos in
      ([pos_x; pos_y; pos_z; PI / 2; 0; 0] ++ rest, pos)
  end.

(** [for i in range(self._nb_others): parameters += [...]]. *)
Fixpoint guess_others (count pos : nat) : list R * nat :=
  match count with
  | O => ([], pos)
  | S count =>
      let '(focal_x, pos) := uniform random_sample 1000 10000 pos in
      let '(focal_y, pos) := uniform random_sample 1000 10000 pos in
      let '(pos_x, pos) := uniform random_sample (-200) 200 pos in
      let '(pos_y, pos) := uniform random_sample (-200) 500 pos in
      let '(pos_z, pos) := uniform random_sample 0 5000 pos in
      let '(rest, pos) := guess_others count pos in
      ([focal_x; focal_y; pos_x; pos_y; pos_z; 0; 0; 0] ++ rest, pos)
  end.

(** The first guess of one attempt. *)
Definition initial_guess (self : t) (pos : nat) : list R * nat :=
  let cam_focal_length_x := 5500 in
  let cam_focal_length_y := 5500 in
  let cam_pos_y := - 5500 in
  let cam_rot_x := 0 in
  let cam_rot_y := 0 in
  let cam_rot_z := 0 in
  let angle_factor := 1 in
  let parameters := [cam_focal_length_x; cam_focal_length_y;
                     cam_pos_y;
                     cam_rot_x; cam_rot_y; cam_rot_z;
                     angle_factor] in
  let '(targets, pos) := guess_targets (_nb_targets self) pos in
  let parameters := parameters ++ targets in
  let '(others, pos) := guess_others (_nb_others self) pos in
  let parameters := parameters ++ others in
  (parameters, pos).

Definition find_parameters (self : t) (number_of_repetition : nat)
    (pos : nat) : result (option (list R)) :=
  st ← search_parameters minimize (fit_function self) (initial_guess self)
         number_of_repetition pos;
  Ok (best_parameters st).

(** [calibrate] returns the object as it has set it and the mean error.
    A target is given as its observations and its corners, another
    camera as its image size and its observations of every target. *)
Definition calibrate (self : t)
    (targets : list (observations * list vec3))
    (size_image : R * R)
    (other_cameras : list ((R * R) * list observations))
    (number_of_repetition : nat) (pos : nat) : result (t * R) :=
  let nb_corners :=
    foldl (fun n target => (n + length target.1)%nat) 0%nat targets in
  '(others, nb_corners) ← for_each
    (fun '(i, (image_size, targets_points_2d)) '(others, nb_corners) =>
       camera ← list_getitem others i;
       let others := <[i := set_image_size camera image_size]> others in
       let nb_corners :=
         foldl (fun n target => (n + length target)%nat)
               nb_corners targets_points_2d in
       Ok (others, nb_corners))
    (zip (seq 0 (length other_cameras)) other_cameras)
    (_others self, nb_corners);
  let self :=
    mk (set_image_size (base self) size_image)
       (_cameras_origin_axis self) (_targets_origin_axis self)
       (clockwise self)
       (Some (map snd targets)) (Some (map fst targets))
       (Some nb_corners)
       (_nb_targets self) (_targets_parameters self)
       (_nb_others self) others
       (Some (map snd other_cameras)) in
  parameters ← find_parameters self number_of_repetition pos;
  parameters ← attr parameters;
  self ← store self parameters;
  err ← fit_function self parameters;
  if decide (nb_corners = 0%nat) then Raise ZeroDivisionError
  else Ok (self, err / INR nb_corners).
End Fitting.

Definition dump (self : t) (fs : files) (filename : string) : result files :=
  save_class ← CalibrationCamera.save_camera (base self) ∅;
  let save_class :=
    <["targets_parameters" :=
        JList (map (fun t => JDict (TargetParameters.dict t))
                   (_targets_parameters self))]> save_class in
  Ok (json_dump (JDict save_class) fs filename).

Section Persistence.
Variable float32 : R -> R.

Definition load_target (target_param : json) : result TargetParameters.t :=
  pos_x ← getitem target_param "_pos_x";
  pos_y ← getitem target_param "_pos_y";
  pos_z ← getitem target_param "_pos_z";
  rot_x ← getitem target_param "_rot_x";
  rot_y ← getitem target_param "_rot_y";
  rot_z ← getitem target_param "_rot_z";
  Ok (TargetParameters.mk pos_x pos_y pos_z rot_x rot_y rot_z).

Definition load (fs : files) (filename : string) : result t :=
  save_class ← json_load fs filename;
  targets_parameters ← getitem save_class "targets_parameters";
  nb_targets ← py_len targets_parameters;
  let c := init nb_targets 1 default_cameras_origin_axis
                default_targets_origin_axis true in
  camera ← CalibrationCamera.load float32 fs filename;
  records ← py_iter targets_parameters;
  targets ← mapM load_target records;
  Ok (mk camera
         (_cameras_origin_axis c) (_targets_origin_axis c) (clockwise c)
         (_targets_points_local_3d c) (_ref_targets_points_2d c)
         (_nb_corners c)
         (_nb_targets c) targets
         (_nb_others c) (_others c)
         (_others_targets_points_2d c)).
End Persistence.

End Calibration.

(* ===================================================================== *)
(** * find_position_3d_points and find_position_3d_points_soil *)
(* ===================================================================== *)

(** [numpy.linalg.norm(a)] without an axis, on an array of rows. *)
Definition norm_rows (rows : list (R * R)) : R :=
  sqrt (np_sum (map (fun d => d.1 * d.1 + d.2 * d.2) rows)).

(** The observations of a point: for each camera, named by a string, the
    items of the dict from the angle to the pixel seen. *)
Definition views : Type := list (string * list (R * (R * R))).

(** The end of the body of the innermost loop of the two objectives: the
    distance from the pixel [observed] to the pixel of the point
    [(pos_x, pos_y, pos_z)] turned by the angle of the view. *)
Definition view_error (calib : CalibrationCamera.t) (fr_cam : Frame)
    (pos_x pos_y pos_z : R) (angle : R) (observed : R * R) : result R :=
  angle_factor ← num (CalibrationCamera._angle_factor calib);
  let alpha := radians (angle * angle_factor) in
  let origin := (pos_x * cos alpha - pos_y * sin alpha,
                 pos_x * sin alpha + pos_y * cos alpha,
                 pos_z) in
  width ← num (CalibrationCamera._cam_width_image calib);
  height ← num (CalibrationCamera._cam_height_image calib);
  focal_length_x ← num (CalibrationCamera._cam_focal_length_x calib);
  focal_length_y ← num (CalibrationCamera._cam_focal_length_y calib);
  let pt := CalibrationCamera.pixel_coordinates
              (local_point fr_cam (Point origin))
              width height focal_length_x focal_length_y in
  Ok (norm_rows (map (fun p => sub2 p observed) (np_rows [pt]))).

Module find_position_3d_points.

Definition fit_function (pt2d : views)
    (calibrations : gmap string CalibrationCamera.t) (x0 : list R)
    : result R :=
  for_each
    (fun '(id_camera, of_camera) sum_err =>
       for_each
         (fun '(angle, observed) sum_err =>
            match calibrations !! id_camera with
            | Some calib =>
                fr_cam ← CalibrationCamera.get_camera_frame calib;
                match x0 with
                | [pos_x; pos_y; pos_z] =>
                    err ← view_error calib fr_cam pos_x pos_y pos_z angle observed;
                    Ok (sum_err + err)
                | _ => Raise ValueError
                end
            | None => Ok sum_err
            end)
         of_camera sum_err)
    pt2d 0.

Section Fitting.
(** [scipy.optimize.basinhopping(f, x).x]. *)
Variable basinhopping : (list R -> result R) -> list R -> result (list R).

(** The objective is evaluated once more at the result, to print it. *)
Definition run (pt2d : views)
    (calibrations : gmap string CalibrationCamera.t) : result (list R) :=
  let parameters := [0; 0; 0] in
  parameters ← basinhopping (fit_function pt2d calibrations) parameters;
  _ ← fit_function pt2d calibrations parameters;
  Ok parameters.
End Fitting.

End find_position_3d_points.

Module find_position_3d_points_soil.

Definition soil_frame (pos_x pos_y pos_z rot_x rot_y rot_z : R) : Frame :=
  let origin := (pos_x, pos_y, pos_z) in
  let mat_rot_x := rotation_matrix rot_x x_axis in
  let mat_rot_y := rotation_matrix rot_y y_axis in
  let mat_rot_z := rotation_matrix rot_z z_axis in
  let rot := concatenate_matrices [mat_rot_x; mat_rot_y; mat_rot_z] in
  mkFrame (mat3_T (block3 rot)) origin.

Definition err_projection (pts : list views)
    (calibrations : gmap string CalibrationCamera.t) (x0 : list R)
    : result R :=
  x0_0 ← list_getitem x0 0;
  x0_1 ← list_getitem x0 1;
  x0_2 ← list_getitem x0 2;
  x0_3 ← list_getitem x0 3;
  let sf := soil_frame 0 0 x0_0 x0_1 x0_2 x0_3 in
  for_each
    (fun i err =>
       pt2d ← list_getitem pts i;
       for_each
         (fun '(id_camera, of_camera) err =>
            for_each
              (fun '(angle, observed) err =>
                 match calibrations !! id_camera with
                 | Some calib =>
                     fr_cam ← CalibrationCamera.get_camera_frame calib;
                     u ← list_getitem x0 (4 + i * 2);
                     v ← list_getitem x0 (5 + i * 2);
                     let '(pos_x, pos_y, pos_z) := global_point1 sf (u, v, 0) in
                     e ← view_error calib fr_cam pos_x pos_y pos_z angle observed;
                     Ok (err + e)
                 | None => Ok err
                 end)
              of_camera err)
         pt2d err)
    (seq 0 (length pts)) 0.

Definition fit_function (pts : list views)
    (calibrations : gmap string CalibrationCamera.t) (x0 : list R)
    : result R :=
  err_projection pts calibrations x0.

Section Fitting.
(** [scipy.optimize.basinhopping(f, x, niter=10).x]. *)
Variable basinhopping : (list R -> result R) -> list R -> result (list R).

(** The parameters and the frame of the soil, for the default
    [verbose=False]. *)
Definition run (pts : list views)
    (calibrations : gmap string CalibrationCamera.t)
    : result (list R * Frame) :=
  let parameters := [0; 0; 0; 0] in
  let parameters := parameters ++ replicate (2 * length pts) 0 in
  parameters ← basinhopping (fit_function pts calibrations) parameters;
  parameters ← for_each wrap_index [1; 2; 3]%nat parameters;
  p0 ← list_getitem parameters 0;
  p1 ← list_getitem parameters 1;
  p2 ← list_getitem parameters 2;
  p3 ← list_getitem parameters 3;
  let sf := soil_frame 0 0 p0 p1 p2 p3 in
  Ok (parameters, sf).
End Fitting.

End find_position_3d_points_soil.

(* ===================================================================== *)
(** * Specifications and sample data *)
(* ===================================================================== *)

(** The first guesses of [count] attempts from the position [pos] of the
    random stream: an attempt draws its first guess where the attempt
    before it left the stream. *)
Fixpoint starts (initial_guess : nat -> list R * nat) (count pos : nat)
    : list (list R) :=
  match count with
  | O => []
  | S count =>
      let '(x0, pos) := initial_guess pos in
      x0 :: starts initial_guess count pos
  end.

(** What the loop maintains, for the results [seen] of the optimizer so
    far: the best point is one of them, [min_err] is its objective value,
    and none of them has a lower one. *)
Definition search_inv (fit_function : list R -> result R)
    (seen : list (list R)) (st : search) : Prop :=
  match best_parameters st, min_err st with
  | Some best, Some m =>
      best ∈ seen /\ fit_function best = Ok m /\
      forall p, p ∈ seen -> exists e, fit_function p = Ok e /\ m <= e
  | None, None => seen = []
  | _, _ => False
  end.

(** The depth of a world point seen from a frame: the z of the point in the
    frame, by which [pixel_coordinates] divides. *)
Definition depth (fr : Frame) (p : vec3) : R := (local_point1 fr p).2.

(** No corner that the objective of [CalibrationCameraTop] projects at the
    parameters [x0] has the depth 0: every pixel is then a number, and so is
    the objective. *)
Definition top_depths (self : CalibrationCameraTop.t) (x0 : list R) : Prop :=
  forall focal_x focal_y pos_x pos_y pos_z rot_x rot_y rot_z
         origin_axis ref_3d points_3d pt,
    x0 = [focal_x; focal_y; pos_x; pos_y; pos_z; rot_x; rot_y; rot_z] ->
    CalibrationCamera._cam_origin_axis (CalibrationCameraTop.base self)
    = Some origin_axis ->
    CalibrationCameraTop._ref_target_points_3d self = Some ref_3d ->
    points_3d ∈ ref_3d -> pt ∈ points_3d ->
    depth (CalibrationCamera.camera_frame
             pos_x pos_y pos_z rot_x rot_y rot_z origin_axis) pt <> 0.

(** The same for [CalibrationCameraSideWith2TargetYXZ]: no corner of a
    target, at an angle at which the target was observed, has the depth
    0. *)
Definition side_depths (self : CalibrationCameraSideWith2TargetYXZ.t)
    (x0 : list R) : Prop :=
  forall focal_x focal_y pos_x pos_y rot_x rot_z angle_factor
         t1x t1y t1z t1rx t1ry t1rz t2x t2y t2z t2rx t2ry t2rz
         pos_z rot_y origin_axis,
    x0 = [focal_x; focal_y; pos_x; pos_y; rot_x; rot_z; angle_factor;
          t1x; t1y; t1z; t1rx; t1ry; t1rz; t2x; t2y; t2z; t2rx; t2ry; t2rz] ->
    CalibrationCamera._cam_pos_z (CalibrationCameraSideWith2TargetYXZ.base self)
    = JNum pos_z ->
    CalibrationCamera._cam_rot_y (CalibrationCameraSideWith2TargetYXZ.base self)
    = JNum rot_y ->
    CalibrationCamera._cam_origin_axis
      (CalibrationCameraSideWith2TargetYXZ.base self) = Some origin_axis ->
    let fr_cam := CalibrationCamera.camera_frame
                    pos_x pos_y pos_z rot_x rot_y rot_z origin_axis in
    (forall obs local alpha ref_pts pt,
       CalibrationCameraSideWith2TargetYXZ._ref_target_1_points_2d self
       = Some obs ->
       CalibrationCameraSideWith2TargetYXZ._ref_target_1_points_local_3d self
       = Some local ->
       (alpha, ref_pts) ∈ obs -> pt ∈ local ->
       depth fr_cam
         (global_point1
            (CalibrationCamera.target_frame t1x t1y t1z t1rx t1ry t1rz
               (radians (alpha * angle_factor))) pt) <> 0) /\
    (forall obs local alpha ref_pts pt,
       CalibrationCameraSideWith2TargetYXZ._ref_target_2_points_2d self
       = Some obs ->
       CalibrationCameraSideWith2TargetYXZ._ref_target_2_points_local_3d self
       = Some local ->
       (alpha, ref_pts) ∈ obs -> pt ∈ local ->
       depth fr_cam
         (global_point1
            (CalibrationCamera.target_frame t2x t2y t2z t2rx t2ry t2rz
               (radians (alpha * angle_factor))) pt) <> 0).

(** An angle at which a camera of the rig observed a target. *)
Definition rig_angle (self : Calibration.t) (alpha : R) : Prop :=
  (exists ref_2d items ref_pts,
     Calibration._ref_targets_points_2d self = Some ref_2d /\
     items ∈ ref_2d /\ (alpha, ref_pts) ∈ items) \/
  (exists others_2d of_camera items ref_pts,
     Calibration._others_targets_points_2d self = Some others_2d /\
     of_camera ∈ others_2d /\ items ∈ of_camera /\
     (alpha, ref_pts) ∈ (items : Calibration.observations)).

(** The frame of a camera of the rig at the parameters [x0]: the reference
    camera, or another camera. *)
Definition rig_frame (self : Calibration.t) (x0 : list R) (fr_cam : Frame)
    : Prop :=
  let origin_axis := cam_origin_axis (Calibration._cameras_origin_axis self) in
  (exists focal_x focal_y pos_y rot_x rot_y rot_z angle_factor,
     Calibration.reference_slot x0
     = Ok (focal_x, focal_y, pos_y, rot_x, rot_y, rot_z, angle_factor) /\
     fr_cam = CalibrationCamera.camera_frame 0 pos_y 0 rot_x rot_y rot_z
                origin_axis) \/
  (exists i focal_x focal_y pos_x pos_y pos_z rot_x rot_y rot_z,
     (i < length (Calibration._others self))%nat /\
     Calibration.camera_slot self x0 i
     = Ok (focal_x, focal_y, pos_x, pos_y, pos_z, rot_x, rot_y, rot_z) /\
     fr_cam = CalibrationCamera.camera_frame pos_x pos_y pos_z
                rot_x rot_y rot_z origin_axis).

(** The same for [Calibration]: no corner of a layout, on a target at a pose
    of [x0] and at an angle observed, has the depth 0 in the frame of a
    camera of [x0]. *)
Definition rig_depths (self : Calibration.t) (x0 : list R) : Prop :=
  forall focal_x focal_y pos_y rot_x rot_y rot_z angle_factor fr_cam
         j t_pos_x t_pos_y t_pos_z t_rot_x t_rot_y t_rot_z
         alpha local_3d layout pt,
    Calibration.reference_slot x0
    = Ok (focal_x, focal_y, pos_y, rot_x, rot_y, rot_z, angle_factor) ->
    rig_frame self x0 fr_cam ->
    (j < Calibration._nb_targets self)%nat ->
    Calibration.target_slot x0 j
    = Ok (t_pos_x, t_pos_y, t_pos_z, t_rot_x, t_rot_y, t_rot_z) ->
    rig_angle self alpha ->
    Calibration._targets_points_local_3d self = Some local_3d ->
    layout ∈ local_3d -> pt ∈ layout ->
    let alpha := alpha * angle_factor in
    let alpha := if Calibration.clockwise self then alpha * -1 else alpha in
    depth fr_cam
      (global_point1
         (CalibrationCamera.target_frame
            t_pos_x t_pos_y t_pos_z t_rot_x t_rot_y t_rot_z (radians alpha))
         pt) <> 0.

(** The same for the views of a point [p]: turned by the angle of a view,
    the point has not the depth 0 in the frame of the camera of the view. *)
Definition views_depths (pt2d : views)
    (calibrations : gmap string CalibrationCamera.t) (p : vec3) : Prop :=
  forall id_camera of_camera angle observed calib fr_cam angle_factor,
    (id_camera, of_camera) ∈ pt2d -> (angle, observed) ∈ of_camera ->
    calibrations !! id_camera = Some calib ->
    CalibrationCamera.get_camera_frame calib = Ok fr_cam ->
    CalibrationCamera._angle_factor calib = JNum angle_factor ->
    let alpha := radians (angle * angle_factor) in
    depth fr_cam (p.1.1 * cos alpha - p.1.2 * sin alpha,
                  p.1.1 * sin alpha + p.1.2 * cos alpha,
                  p.2) <> 0.

(** The same for the points of the soil at the parameters [x0]. *)
Definition soil_depths (pts : list views)
    (calibrations : gmap string CalibrationCamera.t) (x0 : list R) : Prop :=
  forall x0_0 x0_1 x0_2 x0_3 i pt2d u v,
    x0 !! 0%nat = Some x0_0 -> x0 !! 1%nat = Some x0_1 ->
    x0 !! 2%nat = Some x0_2 -> x0 !! 3%nat = Some x0_3 ->
    pts !! i = Some pt2d ->
    x0 !! (4 + i * 2)%nat = Some u -> x0 !! (5 + i * 2)%nat = Some v ->
    views_depths pt2d calibrations
      (global_point1
         (find_position_3d_points_soil.soil_frame 0 0 x0_0 x0_1 x0_2 x0_3)
         (u, v, 0)).

(** The pinhole formula of one point. *)
Definition pinhole (w h fx fy : R) (p : vec3) : R * R :=
  let '(x, y, z) := p in (x / z * fx + w / 2, y / z * fy + h / 2).

(** The elemental rotations about the world axes. *)
Definition elemental_x (a : R) : mat3 :=
  ((1, 0, 0), (0, cos a, - sin a), (0, sin a, cos a)).
Definition elemental_y (a : R) : mat3 :=
  ((cos a, 0, sin a), (0, 1, 0), (- sin a, 0, cos a)).
Definition elemental_z (a : R) : mat3 :=
  ((cos a, - sin a, 0), (sin a, cos a, 0), (0, 0, 1)).

(** What the specification asks of the function returned by
    [get_projection], on one point: turn the point about the world Z axis by
    radians(alpha * f), move it to the camera frame, project it. *)
Definition projection_spec (self : CalibrationCamera.t) (alpha : R) (p : vec3)
    : result pixels :=
  fr_cam ← CalibrationCamera.get_camera_frame self;
  f ← num (CalibrationCamera._angle_factor self);
  let a := radians (alpha * f) in
  let '(x, y, z) := p in
  let turned := (x * cos a - y * sin a, x * sin a + y * cos a, z) in
  width ← num (CalibrationCamera._cam_width_image self);
  height ← num (CalibrationCamera._cam_height_image self);
  fx ← num (CalibrationCamera._cam_focal_length_x self);
  fy ← num (CalibrationCamera._cam_focal_length_y self);
  Ok (CalibrationCamera.pixel_coordinates
        (local_point fr_cam (Point turned)) width height fx fy).

(** A camera at the world origin that looks along the world Z axis, with a
    2x2 image and unit focal lengths. *)
Definition unit_camera : CalibrationCamera.t :=
  CalibrationCamera.mk (JNum 2) (JNum 2) (JNum 1) (JNum 1)
    (JNum 0) (JNum 0) (JNum 0) (JNum 0) (JNum 0) (JNum 0)
    (JNum 1) (Some identity4).

(** A top camera with one image of one corner, an optimizer that returns its
    starting point, and a stream of random numbers. *)
Definition sample_top : CalibrationCameraTop.t :=
  CalibrationCameraTop.mk
    (CalibrationCamera.mk (JNum 2) (JNum 2) JNull JNull JNull JNull JNull
       JNull JNull JNull (JNum 1)
       (Some (cam_origin_axis CalibrationCameraTop.axes)))
    None (Some [[(1, 1)]]) (Some [[(0, 0, 0)]]) (Some 1%nat).

Definition lazy_minimize (f : list R -> result R) (x0 : list R)
    : result (list R) := Ok x0.

Definition sample_stream (k : nat) : R := INR k / 100.

(** The keys that [CalibrationCamera.load] reads. *)
Definition required_keys : list string :=
  ["cam_width_image"; "cam_height_image";
   "cam_focal_length_x"; "cam_focal_length_y";
   "cam_pos_x"; "cam_pos_y"; "cam_pos_z";
   "cam_rot_x"; "cam_rot_y"; "cam_rot_z";
   "angle_factor"; "cam_origin_axis"].

(** A record written without the position of the camera along Z. *)
Definition record_without_pos_z : gmap string json :=
  <["cam_origin_axis" := JList (map JNum (reshape16 identity4))]>
    (<["angle_factor" := JNum 1]>
       (<["cam_rot_z" := JNum 0]>
          (<["cam_rot_y" := JNum 0]>
             (<["cam_rot_x" := JNum 0]>
                (<["cam_pos_y" := JNum 0]>
                   (<["cam_pos_x" := JNum 0]>
                      (<["cam_focal_length_y" := JNum 1]>
                         (<["cam_focal_length_x" := JNum 1]>
                            (<["cam_height_image" := JNum 2]>
                               (<["cam_width_image" := JNum 2]> ∅)))))))))).

(** The document [d] holds the attributes of the camera [c], whose origin
    axis is [m]. *)
Definition holds_camera (d : gmap string json) (c : CalibrationCamera.t)
    (m : mat4) : Prop :=
  d !! "cam_width_image" = Some (CalibrationCamera._cam_width_image c) /\
  d !! "cam_height_image" = Some (CalibrationCamera._cam_height_image c) /\
  d !! "cam_focal_length_x" = Some (CalibrationCamera._cam_focal_length_x c) /\
  d !! "cam_focal_length_y" = Some (CalibrationCamera._cam_focal_length_y c) /\
  d !! "cam_pos_x" = Some (CalibrationCamera._cam_pos_x c) /\
  d !! "cam_pos_y" = Some (CalibrationCamera._cam_pos_y c) /\
  d !! "cam_pos_z" = Some (CalibrationCamera._cam_pos_z c) /\
  d !! "cam_rot_x" = Some (CalibrationCamera._cam_rot_x c) /\
  d !! "cam_rot_y" = Some (CalibrationCamera._cam_rot_y c) /\
  d !! "cam_rot_z" = Some (CalibrationCamera._cam_rot_z c) /\
  d !! "angle_factor" = Some (CalibrationCamera._angle_factor c) /\
  d !! "cam_origin_axis" = Some (JList (map JNum (reshape16 m))).

(** A stand-in for the rounding to single precision: the integers are
    among the numbers of single precision that the origin axes use. *)
Definition to_integer (x : R) : R := IZR (Zfloor x).

(** A side camera with its two targets. *)
Definition sample_side : CalibrationCameraSideWith2TargetYXZ.t :=
  CalibrationCameraSideWith2TargetYXZ.mk
    unit_camera None None None None None
    (JNum 10) (JNum 20) (JNum 30) (JNum 1) (JNum 2) (JNum 3)
    (JNum (-10)) (JNum (-20)) (JNum 40) (JNum 4) (JNum 5) (JNum 6).

(** A rig of one target and two cameras: the reference camera and another
    one. *)
Definition sample_rig : Calibration.t :=
  Calibration.mk
    unit_camera
    Calibration.default_cameras_origin_axis
    Calibration.default_targets_origin_axis true
    None None None
    1 [TargetParameters.mk (JNum 10) (JNum 20) (JNum 30)
                           (JNum 1) (JNum 2) (JNum 3)]
    1 [unit_camera] None.

Definition reference_values (r : R * R * R * R * R * R * R) : list R :=
  let '(focal_x, focal_y, pos_y, rot_x, rot_y, rot_z, angle_factor) := r in
  [focal_x; focal_y; pos_y; rot_x; rot_y; rot_z; angle_factor].

Definition target_values (t : R * R * R * R * R * R) : list R :=
  let '(pos_x, pos_y, pos_z, rot_x, rot_y, rot_z) := t in
  [pos_x; pos_y; pos_z; rot_x; rot_y; rot_z].

Definition camera_values (c : R * R * R * R * R * R * R * R) : list R :=
  let '(focal_x, focal_y, pos_x, pos_y, pos_z, rot_x, rot_y, rot_z) := c in
  [focal_x; focal_y; pos_x; pos_y; pos_z; rot_x; rot_y; rot_z].

(** The layout of the specification: the 7 values of the reference camera,
    then 6 values for each target, then 8 values for each other camera. *)
Definition layout_vector (r : R * R * R * R * R * R * R)
    (targets : list (R * R * R * R * R * R))
    (others : list (R * R * R * R * R * R * R * R)) : list R :=
  reference_values r ++ flat_map target_values targets
                     ++ flat_map camera_values others.

(** What [calibrate] keeps of a target and of another camera. *)
Definition stored_target (t : R * R * R * R * R * R) : TargetParameters.t :=
  let '(pos_x, pos_y, pos_z, rot_x, rot_y, rot_z) := t in
  TargetParameters.mk (JNum pos_x) (JNum pos_y) (JNum pos_z)
    (JNum (py_mod rot_x PI * 2)) (JNum (py_mod rot_y PI * 2))
    (JNum (py_mod rot_z PI * 2)).

Definition stored_camera (angle_factor : R) (camera : CalibrationCamera.t)
    (c : R * R * R * R * R * R * R * R) : CalibrationCamera.t :=
  let '(focal_x, focal_y, pos_x, pos_y, pos_z, rot_x, rot_y, rot_z) := c in
  CalibrationCamera.mk
    (CalibrationCamera._cam_width_image camera)
    (CalibrationCamera._cam_height_image camera)
    (JNum focal_x) (JNum focal_y)
    (JNum pos_x) (JNum pos_y) (JNum pos_z)
    (JNum (py_mod rot_x PI * 2)) (JNum (py_mod rot_y PI * 2))
    (JNum (py_mod rot_z PI * 2))
    (JNum angle_factor)
    (CalibrationCamera._cam_origin_axis camera).

Definition stored (self : Calibration.t) (r : R * R * R * R * R * R * R)
    (targets : list (R * R * R * R * R * R))
    (others : list (R * R * R * R * R * R * R * R)) : Calibration.t :=
  let '(focal_x, focal_y, pos_y, rot_x, rot_y, rot_z, angle_factor) := r in
  let c := Calibration.base self in
  Calibration.mk
    (CalibrationCamera.mk
       (CalibrationCamera._cam_width_image c)
       (CalibrationCamera._cam_height_image c)
       (JNum focal_x) (JNum focal_y)
       (CalibrationCamera._cam_pos_x c) (JNum pos_y)
       (CalibrationCamera._cam_pos_z c)
       (JNum (py_mod rot_x PI * 2)) (JNum (py_mod rot_y PI * 2))
       (JNum (py_mod rot_z PI * 2))
       (JNum angle_factor)
       (CalibrationCamera._cam_origin_axis c))
    (Calibration._cameras_origin_axis self)
    (Calibration._targets_origin_axis self)
    (Calibration.clockwise self)
    (Calibration._targets_points_local_3d self)
    (Calibration._ref_targets_points_2d self)
    (Calibration._nb_corners self)
    (Calibration._nb_targets self)
    (map stored_target targets)
    (Calibration._nb_others self)
    (zip_with (stored_camera angle_factor) (Calibration._others self) others)
    (Calibration._others_targets_points_2d self).

Definition identity3 : mat3 := ((1, 0, 0), (0, 1, 0), (0, 0, 1)).

(** The state in which [calibrate] calls [fit_function] for a rig of two
    targets and of one camera besides the reference camera, whose axes are
    the world axes.  Target 0 has one corner at (0, 0, 1) and target 1 one
    corner at (3, 4, 1); the reference camera saw no target and the other
    camera saw target 1 at the angle 0, its corner at the pixel (4, 5). *)
Definition crossed_rig : Calibration.t :=
  Calibration.mk
    unit_camera
    identity3 Calibration.default_targets_origin_axis true
    (Some [[(0, 0, 1)]; [(3, 4, 1)]])
    (Some [[]; []])
    (Some 1%nat)
    2 [TargetParameters.init; TargetParameters.init]
    1 [Calibration.set_image_size CalibrationCamera.init (2, 2)]
    (Some [[[]; [(0, [(4, 5)])]]]).

(** Both targets at the world origin without rotation, the other camera at
    the world origin without rotation and with unit focal lengths. *)
Definition crossed_vector : list R :=
  layout_vector (1, 1, 0, 0, 0, 0, 1)
    [(0, 0, 0, 0, 0, 0); (0, 0, 0, 0, 0, 0)]
    [(1, 1, 0, 0, 0, 0, 0, 0)].

(** What the optimizer converges to in two calls of [calibrate]: a vector
    for the side camera whose [cam_rot_z] (index 5) and angle factor (index 6)
    are -1, and a vector for the rig whose [cam_rot_x] (index 3) is 1. *)
Definition side_result : list R :=
  [1; 1; 0; -5; 0; -1; -1; 0; 0; 0; 0; 0; 0; 0; 0; 0; 0; 0; 0].

Definition rig_result : list R :=
  [1; 1; -5; 1; 0; 0; 1; 0; 0; 0; 0; 0; 0].

Definition found (x : list R) (f : list R -> result R) (x0 : list R)
    : result (list R) := Ok x.

(** The point that the function returned by [get_projection] moves to the
    camera frame: the y of the result is computed from the x of the
    result. *)
Definition turn_as_coded (a : R) (p : vec3) : vec3 :=
  let '(x, y, z) := p in
  let x := x * cos a - y * sin a in
  let y := x * sin a + y * cos a in
  (x, y, z).

(** A side camera that sees its two targets where they are. *)
Definition exact_side : CalibrationCameraSideWith2TargetYXZ.t :=
  CalibrationCameraSideWith2TargetYXZ.mk unit_camera
    (Some [(0, 0, 1)]) (Some [(1, 0, 1)]) (Some 2%nat)
    (Some [(0, [(1, 1)])]) (Some [(0, [(2, 1)])])
    (JNum 0) (JNum 0) (JNum 0) (JNum 0) (JNum 0) (JNum 0)
    (JNum 0) (JNum 0) (JNum 0) (JNum 0) (JNum 0) (JNum 0).

(** What the search for the soil converges to in one call: the rotations
    found are -1, 7 and 0. *)
Definition found_soil (f : list R -> result R) (x0 : list R)
    : result (list R) := Ok (1 :: -1 :: 7 :: 0 :: drop 4 x0).

(** The parameters at which the side camera [exact_side] sees its targets
    where they were observed. *)
Definition exact_side_vector : list R :=
  [1; 1; 0; 0; 0; 0; 1; 0; 0; 0; 0; 0; 0; 0; 0; 0; 0; 0; 0].

(** A rig of one target with one corner, seen once by the reference
    camera. *)
Definition one_target_rig : Calibration.t :=
  Calibration.mk
    unit_camera
    identity3 Calibration.default_targets_origin_axis true
    (Some [[(0, 0, 1)]])
    (Some [[(0, [(1, 1)])]])
    (Some 1%nat)
    1 [TargetParameters.init]
    0 []
    (Some []).

(** The parameters at which the reference camera of [one_target_rig] sees
    the corner where it was observed. *)
Definition one_target_vector : list R :=
  layout_vector (1, 1, 0, 0, 0, 0, 1) [(0, 0, 0, 0, 0, 0)] [].

(** The camera [c'] has the attributes of the camera [c], the origin axis
    apart. *)
Definition holds_camera_but_axis (c' c : CalibrationCamera.t) : Prop :=
  CalibrationCamera._cam_width_image c' = CalibrationCamera._cam_width_image c /\
  CalibrationCamera._cam_height_image c'
  = CalibrationCamera._cam_height_image c /\
  CalibrationCamera._cam_focal_length_x c'
  = CalibrationCamera._cam_focal_length_x c /\
  CalibrationCamera._cam_focal_length_y c'
  = CalibrationCamera._cam_focal_length_y c /\
  CalibrationCamera._cam_pos_x c' = CalibrationCamera._cam_pos_x c /\
  CalibrationCamera._cam_pos_y c' = CalibrationCamera._cam_pos_y c /\
  CalibrationCamera._cam_pos_z c' = CalibrationCamera._cam_pos_z c /\
  CalibrationCamera._cam_rot_x c' = CalibrationCamera._cam_rot_x c /\
  CalibrationCamera._cam_rot_y c' = CalibrationCamera._cam_rot_y c /\
  CalibrationCamera._cam_rot_z c' = CalibrationCamera._cam_rot_z c /\
  CalibrationCamera._angle_factor c' = CalibrationCamera._angle_factor c.

(** The body of the loop of [Calibration.calibrate] on the other cameras,
    on the pair of the list of the other cameras and of the number of
    observations. *)
Definition other_cameras_step
    : nat * ((R * R) * list Calibration.observations) ->
      list CalibrationCamera.t * nat ->
      result (list CalibrationCamera.t * nat) :=
  fun '(i, (image_size, targets_points_2d)) '(others, nb_corners) =>
    camera ← list_getitem others i;
    let others :=
      <[i := Calibration.set_image_size camera image_size]> others in
    let nb_corners :=
      foldl (fun n target => (n + length target)%nat)
            nb_corners targets_points_2d in
    Ok (others, nb_corners).

(** The objective of [Calibration] on the parameters themselves, as the
    layout of the specification names them: the values [r] of the reference
    camera, the pose [targets !! i] of the target i and the values
    [others !! i] of the other camera i.  An observation adds the term that
    [observed_error] computes. *)
Definition layout_objective (self : Calibration.t)
    (r : R * R * R * R * R * R * R)
    (targets : list (R * R * R * R * R * R))
    (others : list (R * R * R * R * R * R * R * R)) : result R :=
  let '(focal_x, focal_y, pos_y, rot_x, rot_y, rot_z, angle_factor) := r in
  let origin_axis := cam_origin_axis (Calibration._cameras_origin_axis self) in
  let fr_cam := CalibrationCamera.camera_frame
                  0 pos_y 0 rot_x rot_y rot_z origin_axis in
  err ← for_each
    (fun '(i, pose) err =>
       ref_2d ← attr (Calibration._ref_targets_points_2d self);
       items ← list_getitem ref_2d i;
       for_each
         (fun '(alpha, ref_pts) err =>
            Calibration.observed_error self fr_cam
              (CalibrationCamera._cam_width_image (Calibration.base self))
              (CalibrationCamera._cam_height_image (Calibration.base self))
              focal_x focal_y angle_factor pose i alpha ref_pts err)
         items err)
    (zip (seq 0 (length targets)) targets) 0;
  for_each
    (fun '(i, (focal_x, focal_y, pos_x, pos_y, pos_z, rot_x, rot_y, rot_z))
         err =>
       let fr_cam := CalibrationCamera.camera_frame
                       pos_x pos_y pos_z rot_x rot_y rot_z origin_axis in
       for_each
         (fun '(j, pose) err =>
            others_2d ← attr (Calibration._others_targets_points_2d self);
            of_camera ← list_getitem others_2d i;
            items ← list_getitem of_camera j;
            for_each
              (fun '(alpha, ref_pts) err =>
                 camera ← list_getitem (Calibration._others self) i;
                 Calibration.observed_error self fr_cam
                   (CalibrationCamera._cam_width_image camera)
                   (CalibrationCamera._cam_height_image camera)
                   focal_x focal_y angle_factor pose i alpha ref_pts err)
              items err)
         (zip (seq 0 (length targets)) targets) err)
    (zip (seq 0 (length others)) others) err.

(** The other cameras once [calibrate] has set the image sizes given. *)
Fixpoint with_image_sizes (others : list CalibrationCamera.t)
    (sizes : list (R * R)) : list CalibrationCamera.t :=
  match others, sizes with
  | camera :: others, size :: sizes =>
      Calibration.set_image_size camera size :: with_image_sizes others sizes
  | _, _ => others
  end.

(** The number of observations that [calibrate] counts: the angles at which
    the reference camera saw a target and those at which another camera saw
    one. *)
Definition observations_count
    (targets : list (Calibration.observations * list vec3))
    (other_cameras : list ((R * R) * list Calibration.observations)) : nat :=
  (sum_list_with (fun target => length target.1) targets
   + sum_list_with (fun c => sum_list_with length c.2) other_cameras)%nat.

(** The object on which [calibrate] runs the search: the image sizes, the
    corners and the observations are set. *)
Definition observing (self : Calibration.t)
    (targets : list (Calibration.observations * list vec3))
    (size_image : R * R)
    (other_cameras : list ((R * R) * list Calibration.observations))
    : Calibration.t :=
  Calibration.mk
    (Calibration.set_image_size (Calibration.base self) size_image)
    (Calibration._cameras_origin_axis self)
    (Calibration._targets_origin_axis self)
    (Calibration.clockwise self)
    (Some (map snd targets)) (Some (map fst targets))
    (Some (observations_count targets other_cameras))
    (Calibration._nb_targets self) (Calibration._targets_parameters self)
    (Calibration._nb_others self)
    (with_image_sizes (Calibration._others self) (map fst other_cameras))
    (Some (map snd other_cameras)).

(** A rig of one target and of two cameras, as the constructor makes it. *)
Definition two_camera_init : Calibration.t :=
  Calibration.init 1 2 Calibration.default_cameras_origin_axis
    Calibration.default_targets_origin_axis true.

(** What the optimizer converges to in a call of [calibrate] on that rig:
    both cameras at (0, -5, 0) without rotation and with unit focal lengths,
    the target at the world origin. *)
Definition two_camera_result : list R :=
  layout_vector (1, 1, -5, 0, 0, 0, 1)
    [(0, 0, 0, 0, 0, 0)]
    [(1, 1, 0, -5, 0, 0, 0, 0)].

(** The target of that rig has one corner, at its origin; each camera saw it
    once, at the angle 0 and at the centre of an image of 2x2 pixels. *)
Definition two_camera_targets
    : list (Calibration.observations * list vec3) :=
  [([(0, [(1, 1)])], [(0, 0, 0)])].

Definition two_camera_others
    : list ((R * R) * list Calibration.observations) :=
  [((2, 2), [[(0, [(1, 1)])]])].

(** A rig as [Calibration.load] leaves it: one camera, whose origin axis is
    set, and one target. *)
Definition loaded_rig : Calibration.t :=
  Calibration.mk
    unit_camera
    Calibration.default_cameras_origin_axis
    Calibration.default_targets_origin_axis true
    None None None
    1 [TargetParameters.mk (JNum 10) (JNum 20) (JNum 30)
                           (JNum 1) (JNum 2) (JNum 3)]
    0 [] None.

(* ===================================================================== *)
(** * Facts on numbers *)
(* ===================================================================== *)

Lemma py_mod_range (a m : R) : 0 < m -> 0 <= py_mod a m < m.
Proof.
  intros Hm. unfold py_mod.
  destruct (Zfloor_bound (a / m)) as [Hlo Hhi].
  assert (Ha : a = a / m * m) by (field; lra).
  split.
  - apply Rmult_le_compat_r with (r := m) in Hlo; [|lra]. lra.
  - apply Rmult_lt_compat_r with (r := m) in Hhi; [|lra]. lra.
Qed.

Lemma py_mod_congruent (a : R) : congruent_2pi (py_mod a (2 * PI)) a.
Proof.
  exists (- Zfloor (a / (2 * PI)))%Z. unfold py_mod.
  rewrite opp_IZR. ring.
Qed.

Lemma py_mod_small (a m : R) : 0 <= a < m -> py_mod a m = a.
Proof.
  intros [H0 Hm]. unfold py_mod.
  assert (Zfloor (a / m) = 0%Z) as ->.
  { apply Zfloor_eq. simpl. split.
    - apply Rmult_le_pos; [lra|]. left. apply Rinv_0_lt_compat. lra.
    - apply Rmult_lt_reg_r with (r := m); [lra|].
      replace (a / m * m) with a by (field; lra). lra. }
  simpl. ring.
Qed.

Lemma two_pi_pos : 0 < 2 * PI.
Proof. pose proof PI_RGT_0. lra. Qed.

Lemma congruent_2pi_trans (a b c : R) :
  congruent_2pi a b -> congruent_2pi b c -> congruent_2pi a c.
Proof.
  intros [k ->] [j ->]. exists (k + j)%Z. rewrite plus_IZR. ring.
Qed.

Lemma normalise_angle_eq (a : R) :
  let b := py_mod a (2 * PI) in
  normalise_angle a = if Rlt_dec PI b then b - 2 * PI else b.
Proof.
  intros b. unfold normalise_angle, where_gt. fold b.
  pose proof (py_mod_range a _ two_pi_pos) as Hb. fold b in Hb.
  assert (py_mod (b + 2 * PI) (2 * PI) = b) as ->.
  { unfold py_mod.
    replace ((b + 2 * PI) / (2 * PI)) with (b / (2 * PI) + IZR 1)
      by (simpl; field; lra).
    rewrite Zfloor_addz, plus_IZR.
    fold (py_mod b (2 * PI)). pose proof (py_mod_small b (2 * PI) Hb) as E.
    unfold py_mod in *. simpl. lra. }
  replace (2 * PI / 2) with PI by field.
  destruct (Rlt_dec PI b); lra.
Qed.

(** C10: [normalise_angle] returns a value congruent to its input modulo
    2π that lies in (-π, π], element-wise on arrays; π itself maps to π. *)
Theorem normalise_angle_range :
  (forall a : R,
      congruent_2pi (normalise_angle a) a /\
      - PI < normalise_angle a <= PI) /\
  (forall l : list R,
      normalise_angle_array l = map normalise_angle l) /\
  normalise_angle PI = PI.
Proof.
  split; [|split].
  - intros a. rewrite normalise_angle_eq.
    pose proof (py_mod_range a _ two_pi_pos) as Hb.
    pose proof (py_mod_congruent a) as Hc.
    destruct (Rlt_dec PI (py_mod a (2 * PI))) as [Hlt|Hge].
    + split; [|lra].
      eapply congruent_2pi_trans; [|exact Hc].
      exists (-1)%Z. simpl. lra.
    + split; [exact Hc|lra].
  - intros l. unfold normalise_angle_array.
    induction l as [|a l IH]; [reflexivity|].
    cbn [map zip_with]. f_equal. exact IH.
  - rewrite normalise_angle_eq.
    pose proof PI_RGT_0.
    rewrite py_mod_small by lra.
    destruct (Rlt_dec PI PI); lra.
Qed.

(** A value just above pi is sent to the negative half. *)
Lemma normalise_angle_above_pi (a : R) :
  PI < a < 2 * PI -> normalise_angle a = a - 2 * PI.
Proof.
  intros Ha. rewrite normalise_angle_eq. rewrite py_mod_small by lra.
  destruct (Rlt_dec PI a); lra.
Qed.

(* ===================================================================== *)
(** * Facts on the pinhole model and the frames *)
(* ===================================================================== *)

Lemma lookup_map {A B : Type} (f : A -> B) (l : list A) (i : nat) :
  map f l !! i = f <$> (l !! i).
Proof.
  revert i. induction l as [|a l IH]; intros [|i]; cbn; auto.
Qed.

Lemma pixel_coordinates_batch (w h fx fy : R) (pts : list vec3) :
  CalibrationCamera.pixel_coordinates (Batch pts) w h fx fy
  = Pixels (map (pinhole w h fx fy) pts).
Proof.
  unfold CalibrationCamera.pixel_coordinates. f_equal.
  induction pts as [|[[x y] z] pts IH]; [reflexivity|].
  cbn [map zip_with zip fst snd] in *. rewrite IH. reflexivity.
Qed.

(** C8: for a point with z <> 0, [pixel_coordinates] returns
    u = (x/z)*fx + width/2 and v = (y/z)*fy + height/2; for a batch of N
    points it returns the N rows given by the same formula. *)
Theorem pixel_coordinates_formula (w h fx fy : R) :
  (forall x y z : R, z <> 0 ->
     CalibrationCamera.pixel_coordinates (Point (x, y, z)) w h fx fy
     = Pixel (x / z * fx + w / 2, y / z * fy + h / 2)) /\
  (forall pts : list vec3, Forall (fun p => p.2 <> 0) pts ->
     exists uvs,
       CalibrationCamera.pixel_coordinates (Batch pts) w h fx fy = Pixels uvs /\
       length uvs = length pts /\
       forall k x y z, pts !! k = Some (x, y, z) ->
         uvs !! k = Some (x / z * fx + w / 2, y / z * fy + h / 2)).
Proof.
  split.
  - intros x y z _. reflexivity.
  - intros pts _. exists (map (pinhole w h fx fy) pts).
    split; [apply pixel_coordinates_batch|].
    split; [apply length_map|].
    intros k x y z Hk. rewrite lookup_map. unfold vec3 in *.
    rewrite Hk. reflexivity.
Qed.

Lemma pixel_coordinates_formula_witness :
  CalibrationCamera.pixel_coordinates (Point (3, 4, 2)) 640 480 10 10
  = Pixel (3 / 2 * 10 + 640 / 2, 4 / 2 * 10 + 480 / 2) /\
  exists uvs,
    CalibrationCamera.pixel_coordinates (Batch [(3, 4, 2); (1, 1, 1)])
      640 480 10 10 = Pixels uvs /\
    length uvs = 2%nat /\
    uvs !! 1%nat = Some (1 / 1 * 10 + 640 / 2, 1 / 1 * 10 + 480 / 2).
Proof.
  destruct (pixel_coordinates_formula 640 480 10 10) as [Hpoint Hbatch].
  split.
  - apply Hpoint. lra.
  - destruct (Hbatch [(3, 4, 2); (1, 1, 1)]) as (uvs & Huvs & Hlen & Hrow).
    + repeat constructor; simpl; lra.
    + exists uvs. split; [exact Huvs|]. split; [exact Hlen|].
      apply Hrow. reflexivity.
Defined.

Ltac mat_eq :=
  repeat (apply pair_equal_spec; split); ring.

Lemma rotation_matrix_x (a : R) :
  rotation_matrix a x_axis = embed3 (elemental_x a).
Proof. unfold rotation_matrix, elemental_x, x_axis, embed3. mat_eq. Qed.

Lemma rotation_matrix_y (a : R) :
  rotation_matrix a y_axis = embed3 (elemental_y a).
Proof. unfold rotation_matrix, elemental_y, y_axis, embed3. mat_eq. Qed.

Lemma rotation_matrix_z (a : R) :
  rotation_matrix a z_axis = embed3 (elemental_z a).
Proof. unfold rotation_matrix, elemental_z, z_axis, embed3. mat_eq. Qed.

Lemma mat4_mul_embed3 (m n : mat3) :
  mat4_mul (embed3 m) (embed3 n) = embed3 (mat3_mul m n).
Proof.
  destruct m as [[[[a0 a1] a2] [[b0 b1] b2]] [[c0 c1] c2]].
  destruct n as [[[[d0 d1] d2] [[e0 e1] e2]] [[f0 f1] f2]].
  cbv [mat4_mul embed3 mat3_mul mat4_T mat3_T dot4 dot3]. mat_eq.
Qed.

Lemma mat4_mul_identity_l (m : mat4) : mat4_mul identity4 m = m.
Proof.
  destruct m as [[[[[[a0 a1] a2] a3] [[[b0 b1] b2] b3]]
                   [[[c0 c1] c2] c3]] [[[d0 d1] d2] d3]].
  cbv [mat4_mul identity4 mat4_T dot4]. mat_eq.
Qed.

Lemma block3_embed3 (m : mat3) : block3 (embed3 m) = m.
Proof. destruct m as [[[[a0 a1] a2] [[b0 b1] b2]] [[c0 c1] c2]]. reflexivity. Qed.

(** C7: [target_frame] returns the frame whose origin is the base position
    turned about the world Z axis by alpha and whose rotation is the
    transpose of the product, in the order Z, X, Y, of the elemental
    rotations by alpha + rot_z, rot_x and rot_y. *)
Theorem target_frame_origin_rotation
    (pos_x pos_y pos_z rot_x rot_y rot_z alpha : R) :
  let f := CalibrationCamera.target_frame
             pos_x pos_y pos_z rot_x rot_y rot_z alpha in
  origin f = (pos_x * cos alpha - pos_y * sin alpha,
              pos_x * sin alpha + pos_y * cos alpha,
              pos_z) /\
  rot f = mat3_T (mat3_mul (mat3_mul (elemental_z (alpha + rot_z))
                                     (elemental_x rot_x))
                           (elemental_y rot_y)).
Proof.
  cbv zeta. unfold CalibrationCamera.target_frame. cbn [origin rot].
  split; [reflexivity|]. f_equal.
  unfold concatenate_matrices. cbn [foldl].
  rewrite rotation_matrix_x, rotation_matrix_y, rotation_matrix_z.
  rewrite mat4_mul_identity_l, !mat4_mul_embed3.
  apply block3_embed3.
Qed.

(* ===================================================================== *)
(** * Facts on the projection function *)
(* ===================================================================== *)

Lemma rotation_matrix_0 (d : vec3) : rotation_matrix 0 d = identity4.
Proof.
  destruct d as [[dx dy] dz]. unfold rotation_matrix, embed3, identity4.
  rewrite cos_0, sin_0. mat_eq.
Qed.

Lemma camera_frame_identity (x y z : R) :
  CalibrationCamera.camera_frame x y z 0 0 0 identity4
  = mkFrame ((1, 0, 0), (0, 1, 0), (0, 0, 1)) (x, y, z).
Proof.
  unfold CalibrationCamera.camera_frame, concatenate_matrices.
  rewrite !rotation_matrix_0. cbn [foldl].
  rewrite !mat4_mul_identity_l. reflexivity.
Qed.

Lemma radians_90 : radians (90 * 1) = PI / 2.
Proof. unfold radians. field. Qed.

Lemma Pixel_eq (u v u' v' : R) : u = u' -> v = v' -> Pixel (u, v) = Pixel (u', v').
Proof. intros -> ->. reflexivity. Qed.

(** C2: at alpha = 90 and angle factor 1, the function returned by
    [get_projection] sends the world point (1, 0, 1) to the pixel (1, 1):
    the y of the turned point is computed from the x already turned.  The
    point turned about Z is (0, 1, 1), whose pixel is (1, 2). *)
Theorem get_projection_turns_y_from_new_x :
  exists projection,
    CalibrationCamera.get_projection unit_camera 90 = Ok projection /\
    projection (Point (1, 0, 1)) = Ok (Pixel (1, 1)) /\
    projection_spec unit_camera 90 (1, 0, 1) = Ok (Pixel (1, 2)).
Proof.
  eexists. split; [|split].
  - unfold CalibrationCamera.get_projection, CalibrationCamera.get_camera_frame.
    cbn [unit_camera CalibrationCamera._cam_pos_x CalibrationCamera._cam_pos_y
         CalibrationCamera._cam_pos_z CalibrationCamera._cam_rot_x
         CalibrationCamera._cam_rot_y CalibrationCamera._cam_rot_z
         CalibrationCamera._angle_factor CalibrationCamera._cam_origin_axis
         CalibrationCamera.origin_axis_of num mbind result_bind].
    reflexivity.
  - cbn beta. rewrite camera_frame_identity, radians_90, cos_PI2, sin_PI2.
    cbn [unit_camera CalibrationCamera._cam_width_image
         CalibrationCamera._cam_height_image
         CalibrationCamera._cam_focal_length_x
         CalibrationCamera._cam_focal_length_y num mbind result_bind].
    f_equal.
    cbv [local_point local_point1 CalibrationCamera.pixel_coordinates
         mat3_vec mat3_T vec3_sub dot3 rot origin].
    apply Pixel_eq; field.
  - unfold projection_spec, CalibrationCamera.get_camera_frame.
    cbn [unit_camera CalibrationCamera._cam_pos_x CalibrationCamera._cam_pos_y
         CalibrationCamera._cam_pos_z CalibrationCamera._cam_rot_x
         CalibrationCamera._cam_rot_y CalibrationCamera._cam_rot_z
         CalibrationCamera._angle_factor CalibrationCamera._cam_origin_axis
         CalibrationCamera._cam_width_image
         CalibrationCamera._cam_height_image
         CalibrationCamera._cam_focal_length_x
         CalibrationCamera._cam_focal_length_y
         CalibrationCamera.origin_axis_of num mbind result_bind].
    rewrite camera_frame_identity, radians_90, cos_PI2, sin_PI2.
    f_equal.
    cbv [local_point local_point1 CalibrationCamera.pixel_coordinates
         mat3_vec mat3_T vec3_sub dot3 rot origin].
    apply Pixel_eq; field.
Qed.

(* ===================================================================== *)
(** * Facts on the multi-start search *)
(* ===================================================================== *)

Section SearchFacts.
Variable minimize : (list R -> result R) -> list R -> result (list R).
Variable fit_function : list R -> result R.
Variable initial_guess : nat -> list R * nat.

(** What the search keeps is what the optimizer returned from a first
    guess. *)
Lemma repeat_attempts_from_start (count : nat) (st st' : search)
    (best : list R) :
  (forall b, best_parameters st = Some b ->
     exists k, minimize fit_function (initial_guess k).1 = Ok b) ->
  repeat_attempts minimize fit_function initial_guess count st = Ok st' ->
  best_parameters st' = Some best ->
  exists k, minimize fit_function (initial_guess k).1 = Ok best.
Proof.
  revert st. induction count as [|count IH]; intros st Hst Hrun Hbest.
  - injection Hrun as <-. by apply Hst.
  - cbn [repeat_attempts] in Hrun.
    destruct (attempt minimize fit_function initial_guess st) as [st1|]
      eqn:Hstep; cbn [mbind result_bind] in Hrun; [|discriminate Hrun].
    apply (IH st1); [|exact Hrun|exact Hbest].
    intros b Hb. unfold attempt in Hstep.
    destruct (initial_guess (rng_pos st)) as [x0 pos'] eqn:Hguess.
    destruct (minimize fit_function x0) as [p|] eqn:Hmin;
      cbn [mbind result_bind] in Hstep; [|discriminate Hstep].
    destruct (fit_function p) as [e|];
      cbn [mbind result_bind] in Hstep; [|discriminate Hstep].
    destruct (match min_err st with
              | Some m => bool_decide (e < m)
              | None => true
              end); injection Hstep as <-; cbn [best_parameters] in Hb.
    + injection Hb as <-. exists (rng_pos st). by rewrite Hguess.
    + by apply Hst.
Qed.

Lemma search_parameters_from_start (number_of_repetition pos : nat)
    (st : search) (best : list R) :
  search_parameters minimize fit_function initial_guess
    number_of_repetition pos = Ok st ->
  best_parameters st = Some best ->
  exists k, minimize fit_function (initial_guess k).1 = Ok best.
Proof.
  unfold search_parameters. apply repeat_attempts_from_start.
  intros b Hb. discriminate Hb.
Qed.

(** Every attempt converges to a point where the objective has a value. *)
Hypothesis converges : forall pos, exists p e,
  minimize fit_function (initial_guess pos).1 = Ok p /\ fit_function p = Ok e.

Lemma attempt_inv (seen : list (list R)) (st : search) :
  search_inv fit_function seen st ->
  exists p st',
    minimize fit_function (initial_guess (rng_pos st)).1 = Ok p /\
    attempt minimize fit_function initial_guess st = Ok st' /\
    search_inv fit_function (seen ++ [p]) st' /\
    rng_pos st' = (initial_guess (rng_pos st)).2.
Proof.
  intros Hinv. unfold attempt.
  destruct (converges (rng_pos st)) as (p & e & Hmin & Hfit).
  destruct (initial_guess (rng_pos st)) as [x0 pos'] eqn:Hguess.
  cbn [fst snd] in *. rewrite Hmin. cbn [mbind result_bind].
  rewrite Hfit. cbn [mbind result_bind].
  exists p. unfold search_inv in Hinv.
  destruct st as [[best|] [m|] pos]; cbn [best_parameters min_err]
    in *; try contradiction.
  - destruct Hinv as (Hin & Hbest & Hall).
    destruct (bool_decide (e < m)) eqn:Hlt.
    + apply bool_decide_eq_true in Hlt.
      eexists. split; [reflexivity|]. split; [reflexivity|].
      unfold search_inv. cbn [best_parameters min_err rng_pos].
      split; [|reflexivity].
      split; [set_solver|]. split; [exact Hfit|].
      intros q Hq. apply elem_of_app in Hq as [Hq|Hq].
      * destruct (Hall q Hq) as (e' & He' & Hle). exists e'. split; [done|lra].
      * apply list_elem_of_singleton in Hq as ->. exists e. split; [done|lra].
    + apply bool_decide_eq_false in Hlt.
      eexists. split; [reflexivity|]. split; [reflexivity|].
      unfold search_inv. cbn [best_parameters min_err rng_pos].
      split; [|reflexivity].
      split; [set_solver|]. split; [exact Hbest|].
      intros q Hq. apply elem_of_app in Hq as [Hq|Hq].
      * exact (Hall q Hq).
      * apply list_elem_of_singleton in Hq as ->. exists e. split; [done|lra].
  - subst seen. eexists. split; [reflexivity|]. split; [reflexivity|].
    unfold search_inv. cbn [best_parameters min_err rng_pos app].
    split; [|reflexivity].
    split; [set_solver|]. split; [exact Hfit|].
    intros q Hq. apply list_elem_of_singleton in Hq as ->.
    exists e. split; [done|lra].
Qed.

Lemma repeat_attempts_inv (count : nat) (seen : list (list R)) (st : search) :
  search_inv fit_function seen st ->
  exists results st',
    mapM (minimize fit_function) (starts initial_guess count (rng_pos st))
    = Ok results /\
    length results = count /\
    repeat_attempts minimize fit_function initial_guess count st = Ok st' /\
    search_inv fit_function (seen ++ results) st'.
Proof.
  revert seen st. induction count as [|count IH]; intros seen st Hinv.
  - exists [], st. rewrite app_nil_r. by repeat split.
  - destruct (attempt_inv seen st Hinv) as (p & st1 & Hmin & Hstep & Hinv1 & Hpos).
    destruct (IH _ st1 Hinv1) as (results & st' & Hres & Hlen & Hrest & Hinv').
    exists (p :: results), st'. cbn [starts repeat_attempts].
    destruct (initial_guess (rng_pos st)) as [x0 pos'] eqn:Hguess.
    cbn [fst snd] in *. rewrite Hpos in Hres.
    cbn [mapM]. rewrite Hmin. cbn [mbind result_bind]. rewrite Hres.
    cbn [mbind result_bind]. rewrite Hstep. cbn [mbind result_bind].
    split; [reflexivity|]. split; [cbn [length]; by rewrite Hlen|].
    split; [exact Hrest|]. by rewrite cons_middle, app_assoc.
Qed.

Lemma search_parameters_best (number_of_repetition pos : nat) :
  exists results st best err,
    mapM (minimize fit_function)
         (starts initial_guess (number_of_repetition + 1) pos) = Ok results /\
    length results = (number_of_repetition + 1)%nat /\
    search_parameters minimize fit_function initial_guess
      number_of_repetition pos = Ok st /\
    best_parameters st = Some best /\
    best ∈ results /\
    fit_function best = Ok err /\
    forall p, p ∈ results ->
      exists e, fit_function p = Ok e /\ err <= e.
Proof.
  unfold search_parameters.
  destruct (repeat_attempts_inv (number_of_repetition + 1) []
              (mkSearch None None pos))
    as (results & st & Hres & Hlen & Hrun & Hinv).
  { reflexivity. }
  cbn [rng_pos app] in *.
  unfold search_inv in Hinv.
  destruct (best_parameters st) as [best|] eqn:Hbest;
    destruct (min_err st) as [m|] eqn:Hm; try contradiction.
  - destruct Hinv as (Hin & Hfit & Hall).
    exists results, st, best, m. repeat split; try done.
  - rewrite Hinv in Hlen. cbn in Hlen. lia.
Qed.
End SearchFacts.

Lemma mat4_mul_identity_r (m : mat4) : mat4_mul m identity4 = m.
Proof.
  destruct m as [[[[[[a0 a1] a2] a3] [[[b0 b1] b2] b3]]
                   [[[c0 c1] c2] c3]] [[[d0 d1] d2] d3]].
  cbv [mat4_mul identity4 mat4_T dot4]. mat_eq.
Qed.

(** A camera that is not turned from its origin axis. *)
Lemma camera_frame_unrotated (x y z : R) (axes : mat3) :
  CalibrationCamera.camera_frame x y z 0 0 0 (cam_origin_axis axes)
  = mkFrame (mat3_T axes) (x, y, z).
Proof.
  unfold CalibrationCamera.camera_frame, concatenate_matrices.
  rewrite !rotation_matrix_0. cbn [foldl].
  rewrite mat4_mul_identity_l, !mat4_mul_identity_r.
  unfold cam_origin_axis, rotation_to_global. cbn [rot].
  by rewrite block3_embed3.
Qed.

(** C6: [find_parameters] of [CalibrationCameraTop] runs the optimizer
    number_of_repetition + 1 times, each time from a first guess newly
    drawn, and returns one of the results, whose objective value is at most
    that of every result; this when every attempt converges to a point
    where the objective has a value and no corner has the depth 0 (the
    objective is then a number). *)
Theorem find_parameters_keeps_best
    (minimize : (list R -> result R) -> list R -> result (list R))
    (random_sample : nat -> R)
    (self : CalibrationCameraTop.t) (number_of_repetition pos : nat) :
  (forall k, exists p e,
     minimize (CalibrationCameraTop.fit_function self)
       (CalibrationCameraTop.initial_guess random_sample k).1 = Ok p /\
     CalibrationCameraTop.fit_function self p = Ok e /\
     top_depths self p) ->
  exists results best err,
    mapM (minimize (CalibrationCameraTop.fit_function self))
         (starts (CalibrationCameraTop.initial_guess random_sample)
                 (number_of_repetition + 1) pos) = Ok results /\
    length results = (number_of_repetition + 1)%nat /\
    CalibrationCameraTop.find_parameters minimize random_sample
      self number_of_repetition pos = Ok (Some best) /\
    best ∈ results /\
    CalibrationCameraTop.fit_function self best = Ok err /\
    forall p, p ∈ results ->
      exists e, CalibrationCameraTop.fit_function self p = Ok e /\ err <= e.
Proof.
  intros Hconv.
  destruct (search_parameters_best minimize
              (CalibrationCameraTop.fit_function self)
              (CalibrationCameraTop.initial_guess random_sample))
    with (number_of_repetition := number_of_repetition) (pos := pos)
    as (results & st & best & err & Hres & Hlen & Hrun & Hbest & Hin
        & Hfit & Hall).
  { intros k. destruct (Hconv k) as (p & e & Hmin & He & _). by exists p, e. }
  exists results, best, err.
  unfold CalibrationCameraTop.find_parameters,
    CalibrationCameraTop.find_parameters_search.
  rewrite Hrun. cbn [mbind result_bind]. rewrite Hbest.
  repeat split; try done.
Qed.

Lemma find_parameters_keeps_best_witness :
  exists results best err,
    mapM (lazy_minimize (CalibrationCameraTop.fit_function sample_top))
         (starts (CalibrationCameraTop.initial_guess sample_stream)
                 (2 + 1) 0) = Ok results /\
    length results = (2 + 1)%nat /\
    CalibrationCameraTop.find_parameters lazy_minimize sample_stream
      sample_top 2 0 = Ok (Some best) /\
    best ∈ results /\
    CalibrationCameraTop.fit_function sample_top best = Ok err /\
    forall p, p ∈ results ->
      exists e, CalibrationCameraTop.fit_function sample_top p = Ok e /\
                err <= e.
Proof.
  apply (find_parameters_keeps_best lazy_minimize sample_stream sample_top 2 0).
  intros k. eexists. eexists. split; [reflexivity|]. split; [reflexivity|].
  intros focal_x focal_y pos_x pos_y pos_z rot_x rot_y rot_z
         origin_axis ref_3d points_3d pt Hx0 Haxis Href Hpoints Hpt.
  cbn [CalibrationCameraTop.initial_guess uniform fst] in Hx0.
  injection Hx0 as <- <- <- <- <- <- <- <-.
  injection Haxis as <-. injection Href as <-.
  apply list_elem_of_singleton in Hpoints as ->.
  apply list_elem_of_singleton in Hpt as ->.
  rewrite camera_frame_unrotated.
  cbv [depth local_point1 mat3_vec mat3_T vec3_sub dot3 rot origin
       CalibrationCameraTop.axes sample_stream].
  cbn [fst snd]. rewrite !S_INR. pose proof (pos_INR k). lra.
Defined.

(* ===================================================================== *)
(** * Facts on persistence *)
(* ===================================================================== *)

Lemma Ok_inj {A : Type} (a b : A) : Ok a = Ok b -> a = b.
Proof. by intros [= ->]. Qed.

Lemma getitem_dict (d : gmap string json) (key : string) :
  getitem (JDict d) key
  = match d !! key with Some v => Ok v | None => Raise (KeyError key) end.
Proof. reflexivity. Qed.

Ltac in_list :=
  repeat first [ apply list_elem_of_here | apply list_elem_of_further ].

(** Reads the next key of [load]: either it is absent, and the goal is
    closed with that key, or the proof goes on with its value. *)
Ltac read_key d :=
  match goal with
  | |- context [getitem (JDict d) ?key] =>
      rewrite (getitem_dict d key);
      let v := fresh "v" in
      let Hv := fresh "Hv" in
      destruct (d !! key) as [v|] eqn:Hv;
      [ cbn [mbind result_bind]
      | exists key; split; [unfold required_keys; in_list|];
        split; [exact Hv|reflexivity] ]
  end.

(** C9: when a required key is absent from the record, [load] raises the
    [KeyError] of an absent required key (the first one in the order of
    reading) and returns no object. *)
Theorem load_missing_key (float32 : R -> R) (fs : files) (filename : string)
    (d : gmap string json) :
  fs !! filename = Some (JDict d) ->
  (exists key, key ∈ required_keys /\ d !! key = None) ->
  exists key,
    key ∈ required_keys /\ d !! key = None /\
    CalibrationCamera.load float32 fs filename = Raise (KeyError key).
Proof.
  intros Hfile (missing & Hin & Hmissing).
  unfold CalibrationCamera.load, json_load. rewrite Hfile.
  cbn [mbind result_bind].
  do 12 (read_key d).
  exfalso. unfold required_keys in Hin.
  repeat (apply elem_of_cons in Hin as [->|Hin]; [congruence|]).
  by apply elem_of_nil in Hin.
Qed.

Lemma load_missing_key_witness :
  exists key,
    key ∈ required_keys /\ record_without_pos_z !! key = None /\
    CalibrationCamera.load (fun x => x)
      {["camera.json" := JDict record_without_pos_z]} "camera.json"
    = Raise (KeyError key).
Proof.
  apply (load_missing_key (fun x => x)
           {["camera.json" := JDict record_without_pos_z]} "camera.json"
           record_without_pos_z).
  - apply lookup_singleton_eq.
  - exists "cam_pos_z". split; [unfold required_keys; in_list|]. reflexivity.
Defined.

Lemma json_load_dump (doc : json) (fs : files) (filename : string) :
  json_load (json_dump doc fs filename) filename = Ok doc.
Proof. unfold json_load, json_dump. by rewrite lookup_insert_eq. Qed.

Lemma np_cells_numbers (l : list R) :
  np_cells (JList (map JNum l))
  = Ok ([length l], l).
Proof.
  cbn [np_cells].
  match goal with
  | |- mbind _ (?rows (map JNum l)) = _ =>
      assert (rows (map JNum l) = Ok (map (fun r => ([], [r])) l)) as ->
  end.
  { induction l as [|r l IH]; [reflexivity|].
    cbn [map num mbind result_bind]. rewrite IH. reflexivity. }
  cbn [mbind result_bind].
  destruct l as [|r l]; [reflexivity|].
  cbn [map fst]. rewrite (proj2 (forallb_forall _ _)).
  - cbn [length]. rewrite length_map. do 3 f_equal.
    cbn [snd concat app]. f_equal.
    induction l as [|r' l IH]; [reflexivity|].
    cbn [map snd concat app]. by rewrite IH.
  - intros row Hrow. apply bool_decide_eq_true.
    destruct Hrow as [<-|Hrow]; [reflexivity|].
    apply in_map_iff in Hrow as (r0 & <- & _). reflexivity.
Qed.

Lemma np_array_numbers (l : list R) : np_array (JList (map JNum l)) = Ok l.
Proof. unfold np_array. by rewrite np_cells_numbers. Qed.

Lemma reshape44_reshape16 (m : mat4) : reshape44 (reshape16 m) = Ok m.
Proof.
  destruct m as [[[[[[a0 a1] a2] a3] [[[b0 b1] b2] b3]]
                   [[[c0 c1] c2] c3]] [[[d0 d1] d2] d3]].
  reflexivity.
Qed.

Lemma load_origin_axis_saved (float32 : R -> R) (m : mat4) :
  mat4_map float32 m = m ->
  CalibrationCamera.load_origin_axis float32 (JList (map JNum (reshape16 m)))
  = Ok m.
Proof.
  intros Hm. unfold CalibrationCamera.load_origin_axis.
  rewrite np_array_numbers. cbn [mbind result_bind].
  rewrite reshape44_reshape16. cbn [mbind result_bind]. by rewrite Hm.
Qed.

Lemma save_camera_holds (c : CalibrationCamera.t) (m : mat4) :
  CalibrationCamera._cam_origin_axis c = Some m ->
  exists d, CalibrationCamera.save_camera c ∅ = Ok d /\ holds_camera d c m.
Proof.
  intros Hm. unfold CalibrationCamera.save_camera. rewrite Hm.
  eexists. split; [reflexivity|].
  unfold holds_camera. repeat split; by simplify_map_eq.
Qed.

Lemma holds_camera_insert (d : gmap string json) (c : CalibrationCamera.t)
    (m : mat4) (key : string) (v : json) :
  key ∉ required_keys -> holds_camera d c m ->
  holds_camera (<[key := v]> d) c m.
Proof.
  intros Hkey H. unfold holds_camera in *.
  repeat match goal with H : _ /\ _ |- _ => destruct H end.
  repeat split;
    (rewrite lookup_insert_ne;
     [assumption|intros ->; apply Hkey; unfold required_keys; in_list]).
Qed.

Lemma load_camera_holds (float32 : R -> R) (fs : files) (filename : string)
    (d : gmap string json) (c : CalibrationCamera.t) (m : mat4) :
  fs !! filename = Some (JDict d) ->
  holds_camera d c m ->
  CalibrationCamera._cam_origin_axis c = Some m ->
  mat4_map float32 m = m ->
  CalibrationCamera.load float32 fs filename = Ok c.
Proof.
  intros Hfile H Hc Hm. unfold holds_camera in H.
  repeat match goal with H : _ /\ _ |- _ => destruct H end.
  unfold CalibrationCamera.load, json_load. rewrite Hfile.
  cbn [mbind result_bind]. rewrite !getitem_dict.
  repeat match goal with H : d !! _ = Some _ |- _ => rewrite H; clear H end.
  cbn [mbind result_bind]. rewrite (load_origin_axis_saved float32 m Hm).
  cbn [mbind result_bind]. destruct c. cbn in *. by subst.
Qed.

Ltac not_required :=
  let Hin := fresh "Hin" in
  intros Hin; unfold required_keys in Hin;
  repeat (apply elem_of_cons in Hin as [Hin|Hin]; [discriminate Hin|]);
  by apply elem_of_nil in Hin.

Lemma camera_roundtrip (float32 : R -> R) (fs : files) (filename : string)
    (c : CalibrationCamera.t) (m : mat4) :
  CalibrationCamera._cam_origin_axis c = Some m ->
  mat4_map float32 m = m ->
  exists fs',
    CalibrationCamera.dump c fs filename = Ok fs' /\
    CalibrationCamera.load float32 fs' filename = Ok c.
Proof.
  intros Hc Hm. unfold CalibrationCamera.dump.
  destruct (save_camera_holds c m Hc) as (d & -> & Hd).
  cbn [mbind result_bind]. eexists. split; [reflexivity|].
  apply (load_camera_holds float32 _ _ d c m);
    [apply lookup_insert_eq|exact Hd|exact Hc|exact Hm].
Qed.

Lemma side_roundtrip (float32 : R -> R) (fs : files) (filename : string)
    (c : CalibrationCameraSideWith2TargetYXZ.t) (m : mat4) :
  CalibrationCamera._cam_origin_axis
    (CalibrationCameraSideWith2TargetYXZ.base c) = Some m ->
  mat4_map float32 m = m ->
  exists fs',
    CalibrationCameraSideWith2TargetYXZ.dump c fs filename = Ok fs' /\
    CalibrationCameraSideWith2TargetYXZ.load float32 fs' filename
    = Ok (CalibrationCameraSideWith2TargetYXZ.mk
            (CalibrationCameraSideWith2TargetYXZ.base c)
            None None None None None
            (CalibrationCameraSideWith2TargetYXZ._target_1_pos_x c)
            (CalibrationCameraSideWith2TargetYXZ._target_1_pos_y c)
            (CalibrationCameraSideWith2TargetYXZ._target_1_pos_z c)
            (CalibrationCameraSideWith2TargetYXZ._target_1_rot_x c)
            (CalibrationCameraSideWith2TargetYXZ._target_1_rot_y c)
            (CalibrationCameraSideWith2TargetYXZ._target_1_rot_z c)
            (CalibrationCameraSideWith2TargetYXZ._target_2_pos_x c)
            (CalibrationCameraSideWith2TargetYXZ._target_2_pos_y c)
            (CalibrationCameraSideWith2TargetYXZ._target_2_pos_z c)
            (CalibrationCameraSideWith2TargetYXZ._target_2_rot_x c)
            (CalibrationCameraSideWith2TargetYXZ._target_2_rot_y c)
            (CalibrationCameraSideWith2TargetYXZ._target_2_rot_z c)).
Proof.
  intros Hc Hm. unfold CalibrationCameraSideWith2TargetYXZ.dump.
  destruct (save_camera_holds _ m Hc) as (d & -> & Hd).
  cbn [mbind result_bind]. eexists. split; [reflexivity|].
  unfold CalibrationCameraSideWith2TargetYXZ.load.
  erewrite (load_camera_holds float32 _ _ _ _ m);
    [ | apply lookup_insert_eq
      | repeat (apply holds_camera_insert; [not_required|]); exact Hd
      | exact Hc | exact Hm ].
  cbn [mbind result_bind]. rewrite json_load_dump.
  cbn [mbind result_bind]. rewrite !getitem_dict.
  by simplify_map_eq.
Qed.

Lemma target_dict_roundtrip (t : TargetParameters.t) :
  Calibration.load_target (JDict (TargetParameters.dict t)) = Ok t.
Proof.
  unfold Calibration.load_target, TargetParameters.dict.
  rewrite !getitem_dict. simplify_map_eq. by destruct t.
Qed.

Lemma targets_roundtrip (ts : list TargetParameters.t) :
  mapM Calibration.load_target
    (map (fun t => JDict (TargetParameters.dict t)) ts) = Ok ts.
Proof.
  induction ts as [|t ts IH]; [reflexivity|].
  cbn [map mapM]. rewrite target_dict_roundtrip. cbn [mbind result_bind].
  rewrite IH. reflexivity.
Qed.

Lemma calibration_roundtrip (float32 : R -> R) (fs : files)
    (filename : string) (c : Calibration.t) (m : mat4) :
  CalibrationCamera._cam_origin_axis (Calibration.base c) = Some m ->
  mat4_map float32 m = m ->
  exists fs',
    Calibration.dump c fs filename = Ok fs' /\
    Calibration.load float32 fs' filename
    = Ok (Calibration.mk
            (Calibration.base c)
            Calibration.default_cameras_origin_axis
            Calibration.default_targets_origin_axis true
            None None None
            (length (Calibration._targets_parameters c))
            (Calibration._targets_parameters c)
            0 [] None).
Proof.
  intros Hc Hm. unfold Calibration.dump.
  destruct (save_camera_holds _ m Hc) as (d & -> & Hd).
  cbn [mbind result_bind]. eexists. split; [reflexivity|].
  unfold Calibration.load. rewrite json_load_dump.
  cbn [mbind result_bind]. rewrite getitem_dict, lookup_insert_eq.
  cbn [mbind result_bind py_len py_iter].
  erewrite (load_camera_holds float32 _ _ _ _ m);
    [ | apply lookup_insert_eq
      | apply holds_camera_insert; [not_required|]; exact Hd
      | exact Hc | exact Hm ].
  cbn [mbind result_bind]. rewrite targets_roundtrip.
  cbn [mbind result_bind]. by rewrite length_map.
Qed.

(** X24: for an object whose origin axis is set to single-precision values
    (as the constructors of the classes of one camera and [load] leave it),
    [load] after [dump] gives back every attribute of the camera (image
    size, focal lengths, position, rotations, angle factor, origin axis) and
    every pose parameter of every target; the object loaded by
    [Calibration.load] has no other camera. *)
Theorem dump_load_roundtrip (float32 : R -> R) (fs : files)
    (filename : string) :
  (forall (c : CalibrationCamera.t) (m : mat4),
     CalibrationCamera._cam_origin_axis c = Some m ->
     mat4_map float32 m = m ->
     exists fs',
       CalibrationCamera.dump c fs filename = Ok fs' /\
       CalibrationCamera.load float32 fs' filename = Ok c) /\
  (forall (c : CalibrationCameraTop.t) (m : mat4),
     CalibrationCamera._cam_origin_axis (CalibrationCameraTop.base c)
     = Some m ->
     mat4_map float32 m = m ->
     exists fs' c',
       CalibrationCameraTop.dump c fs filename = Ok fs' /\
       CalibrationCameraTop.load float32 fs' filename = Ok c' /\
       CalibrationCameraTop.base c' = CalibrationCameraTop.base c) /\
  (forall (c : CalibrationCameraSideWith2TargetYXZ.t) (m : mat4),
     CalibrationCamera._cam_origin_axis
       (CalibrationCameraSideWith2TargetYXZ.base c) = Some m ->
     mat4_map float32 m = m ->
     exists fs' c',
       CalibrationCameraSideWith2TargetYXZ.dump c fs filename = Ok fs' /\
       CalibrationCameraSideWith2TargetYXZ.load float32 fs' filename = Ok c' /\
       CalibrationCameraSideWith2TargetYXZ.base c'
       = CalibrationCameraSideWith2TargetYXZ.base c /\
       [CalibrationCameraSideWith2TargetYXZ._target_1_pos_x c';
        CalibrationCameraSideWith2TargetYXZ._target_1_pos_y c';
        CalibrationCameraSideWith2TargetYXZ._target_1_pos_z c';
        CalibrationCameraSideWith2TargetYXZ._target_1_rot_x c';
        CalibrationCameraSideWith2TargetYXZ._target_1_rot_y c';
        CalibrationCameraSideWith2TargetYXZ._target_1_rot_z c';
        CalibrationCameraSideWith2TargetYXZ._target_2_pos_x c';
        CalibrationCameraSideWith2TargetYXZ._target_2_pos_y c';
        CalibrationCameraSideWith2TargetYXZ._target_2_pos_z c';
        CalibrationCameraSideWith2TargetYXZ._target_2_rot_x c';
        CalibrationCameraSideWith2TargetYXZ._target_2_rot_y c';
        CalibrationCameraSideWith2TargetYXZ._target_2_rot_z c']
       = [CalibrationCameraSideWith2TargetYXZ._target_1_pos_x c;
          CalibrationCameraSideWith2TargetYXZ._target_1_pos_y c;
          CalibrationCameraSideWith2TargetYXZ._target_1_pos_z c;
          CalibrationCameraSideWith2TargetYXZ._target_1_rot_x c;
          CalibrationCameraSideWith2TargetYXZ._target_1_rot_y c;
          CalibrationCameraSideWith2TargetYXZ._target_1_rot_z c;
          CalibrationCameraSideWith2TargetYXZ._target_2_pos_x c;
          CalibrationCameraSideWith2TargetYXZ._target_2_pos_y c;
          CalibrationCameraSideWith2TargetYXZ._target_2_pos_z c;
          CalibrationCameraSideWith2TargetYXZ._target_2_rot_x c;
          CalibrationCameraSideWith2TargetYXZ._target_2_rot_y c;
          CalibrationCameraSideWith2TargetYXZ._target_2_rot_z c]) /\
  (forall (c : Calibration.t) (m : mat4),
     CalibrationCamera._cam_origin_axis (Calibration.base c) = Some m ->
     mat4_map float32 m = m ->
     exists fs' c',
       Calibration.dump c fs filename = Ok fs' /\
       Calibration.load float32 fs' filename = Ok c' /\
       Calibration.base c' = Calibration.base c /\
       Calibration._targets_parameters c' = Calibration._targets_parameters c /\
       Calibration._nb_targets c'
       = length (Calibration._targets_parameters c) /\
       Calibration._others c' = []).
Proof.
  split; [|split; [|split]].
  - intros c m Hc Hm. exact (camera_roundtrip float32 fs filename c m Hc Hm).
  - intros c m Hc Hm.
    destruct (camera_roundtrip float32 fs filename _ m Hc Hm)
      as (fs' & Hdump & Hload).
    exists fs'. eexists. unfold CalibrationCameraTop.dump.
    split; [exact Hdump|]. unfold CalibrationCameraTop.load.
    rewrite Hload. cbn [mbind result_bind]. split; reflexivity.
  - intros c m Hc Hm.
    destruct (side_roundtrip float32 fs filename c m Hc Hm)
      as (fs' & Hdump & Hload).
    exists fs'. eexists. split; [exact Hdump|]. split; [exact Hload|].
    split; reflexivity.
  - intros c m Hc Hm.
    destruct (calibration_roundtrip float32 fs filename c m Hc Hm)
      as (fs' & Hdump & Hload).
    exists fs'. eexists. split; [exact Hdump|]. split; [exact Hload|].
    repeat split; reflexivity.
Qed.

Lemma to_integer_identity4 : mat4_map to_integer identity4 = identity4.
Proof. unfold mat4_map, identity4, to_integer. by rewrite !ZfloorZ. Qed.

Lemma to_integer_top_axes :
  mat4_map to_integer (cam_origin_axis CalibrationCameraTop.axes)
  = cam_origin_axis CalibrationCameraTop.axes.
Proof.
  unfold cam_origin_axis, CalibrationCameraTop.axes, rotation_to_global.
  cbn [rot embed3 mat4_map]. unfold to_integer. by rewrite !ZfloorZ.
Qed.

Lemma dump_load_roundtrip_witness :
  (exists fs',
     CalibrationCamera.dump unit_camera ∅ "camera.json" = Ok fs' /\
     CalibrationCamera.load to_integer fs' "camera.json" = Ok unit_camera) /\
  (exists fs' c',
     CalibrationCameraTop.dump sample_top ∅ "camera.json" = Ok fs' /\
     CalibrationCameraTop.load to_integer fs' "camera.json" = Ok c' /\
     CalibrationCameraTop.base c' = CalibrationCameraTop.base sample_top) /\
  (exists fs' c',
     CalibrationCameraSideWith2TargetYXZ.dump sample_side ∅ "camera.json"
     = Ok fs' /\
     CalibrationCameraSideWith2TargetYXZ.load to_integer fs' "camera.json"
     = Ok c' /\
     CalibrationCameraSideWith2TargetYXZ._target_2_pos_z c' = JNum 40) /\
  (exists fs' c',
     Calibration.dump loaded_rig ∅ "camera.json" = Ok fs' /\
     Calibration.load to_integer fs' "camera.json" = Ok c' /\
     Calibration.base c' = unit_camera /\
     Calibration._targets_parameters c'
     = Calibration._targets_parameters loaded_rig /\
     Calibration._nb_targets c' = 1%nat /\
     Calibration._others c' = []).
Proof.
  destruct (dump_load_roundtrip to_integer ∅ "camera.json")
    as (Hcamera & Htop & Hside & Hrig).
  split; [|split; [|split]].
  - apply (Hcamera unit_camera identity4); [reflexivity|].
    exact to_integer_identity4.
  - apply (Htop sample_top (cam_origin_axis CalibrationCameraTop.axes));
      [reflexivity|]. exact to_integer_top_axes.
  - destruct (Hside sample_side identity4) as (fs' & c' & Hd & Hl & Hb & Ht);
      [reflexivity|exact to_integer_identity4|].
    exists fs', c'. split; [exact Hd|]. split; [exact Hl|].
    injection Ht as _ _ _ _ _ _ _ _ H _ _ _. exact H.
  - destruct (Hrig loaded_rig identity4)
      as (fs' & c' & Hd & Hl & Hb & Ht & Hn & Ho);
      [reflexivity|exact to_integer_identity4|].
    exists fs', c'. repeat split; assumption.
Defined.

(* ===================================================================== *)
(** * Facts on the layout of the parameter vector *)
(* ===================================================================== *)

Section Blocks.
Context {A : Type} (f : A -> list R) (n : nat).
Hypothesis block_length : forall a, length (f a) = n.

Lemma length_flat_map_blocks (l : list A) :
  length (flat_map f l) = (length l * n)%nat.
Proof.
  induction l as [|a l IH]; [reflexivity|].
  cbn [flat_map length]. rewrite length_app, block_length, IH. lia.
Qed.

Lemma drop_blocks (l : list A) (i : nat) (a : A) (rest : list R) :
  l !! i = Some a ->
  drop (i * n) (flat_map f l ++ rest)
  = f a ++ (flat_map f (drop (S i) l) ++ rest).
Proof.
  revert i. induction l as [|b l IH]; intros i Hi; [discriminate|].
  destruct i as [|i].
  - injection Hi as ->. cbn [flat_map Nat.mul drop]. by rewrite <- app_assoc.
  - cbn [flat_map]. rewrite <- app_assoc.
    replace (S i * n)%nat with (length (f b) + i * n)%nat
      by (rewrite block_length; lia).
    rewrite drop_app_add. exact (IH i Hi).
Qed.

Lemma slice_blocks (x0 pre : list R) (l : list A) (i : nat) (a : A)
    (rest : list R) (lo hi : nat) :
  x0 = pre ++ flat_map f l ++ rest ->
  lo = (length pre + i * n)%nat ->
  hi = (lo + n)%nat ->
  l !! i = Some a ->
  slice x0 lo hi = f a.
Proof.
  intros -> -> -> Hi. unfold slice.
  replace (length pre + i * n + n - (length pre + i * n))%nat with n by lia.
  rewrite drop_app_add, (drop_blocks l i a rest Hi).
  apply take_app_length'. by rewrite block_length.
Qed.
End Blocks.

Lemma slice_lookup {A : Type} (l : list A) (lo hi k : nat) :
  (k < hi - lo)%nat -> slice l lo hi !! k = l !! (lo + k)%nat.
Proof.
  intros Hk. unfold slice. by rewrite lookup_take_lt, lookup_drop.
Qed.

Lemma target_values_length t : length (target_values t) = 6%nat.
Proof. by destruct t as [[[[[? ?] ?] ?] ?] ?]. Qed.

Lemma camera_values_length c : length (camera_values c) = 8%nat.
Proof. by destruct c as [[[[[[[? ?] ?] ?] ?] ?] ?] ?]. Qed.

Lemma reference_values_length r : length (reference_values r) = 7%nat.
Proof. by destruct r as [[[[[[? ?] ?] ?] ?] ?] ?]. Qed.

Lemma layout_vector_length r targets others :
  length (layout_vector r targets others)
  = (7 + length targets * 6 + length others * 8)%nat.
Proof.
  unfold layout_vector.
  rewrite !length_app, reference_values_length.
  rewrite (length_flat_map_blocks target_values 6 target_values_length).
  rewrite (length_flat_map_blocks camera_values 8 camera_values_length).
  lia.
Qed.

Lemma reference_slot_layout r targets others :
  Calibration.reference_slot (layout_vector r targets others) = Ok r.
Proof.
  unfold Calibration.reference_slot, layout_vector, slice.
  rewrite drop_0. cbn [Nat.sub].
  rewrite take_app_length' by (by rewrite reference_values_length).
  by destruct r as [[[[[[? ?] ?] ?] ?] ?] ?].
Qed.

Lemma target_slot_layout r targets others i t :
  targets !! i = Some t ->
  Calibration.target_slot (layout_vector r targets others) i = Ok t.
Proof.
  intros Hi. unfold Calibration.target_slot.
  rewrite (slice_blocks target_values 6 target_values_length
             _ (reference_values r) targets i t
             (flat_map camera_values others)); try done.
  - by destruct t as [[[[[? ?] ?] ?] ?] ?].
  - rewrite reference_values_length. lia.
  - lia.
Qed.

Lemma camera_slot_layout (self : Calibration.t) r targets others j c :
  Calibration._nb_targets self = length targets ->
  others !! j = Some c ->
  Calibration.camera_slot self (layout_vector r targets others) j = Ok c.
Proof.
  intros HT Hj. unfold Calibration.camera_slot. cbv zeta.
  rewrite (slice_blocks camera_values 8 camera_values_length
             _ (reference_values r ++ flat_map target_values targets)
             others j c []); try done.
  - by destruct c as [[[[[[[? ?] ?] ?] ?] ?] ?] ?].
  - unfold layout_vector. by rewrite app_nil_r, <- app_assoc.
  - rewrite length_app, reference_values_length, HT.
    rewrite (length_flat_map_blocks target_values 6 target_values_length).
    lia.
Qed.

Lemma slice_Some {A : Type} (l : list A) (lo hi k : nat) (v : A) :
  slice l lo hi !! k = Some v -> l !! (lo + k)%nat = Some v.
Proof.
  unfold slice. intros H. apply lookup_take_Some in H as [H _].
  by rewrite lookup_drop in H.
Qed.

(** [calibrate] reads a target from the slots that [fit_function] reads. *)
Lemma target_lookups (x0 : list R) (i : nat) pos_x pos_y pos_z rot_x rot_y rot_z :
  Calibration.target_slot x0 i = Ok (pos_x, pos_y, pos_z, rot_x, rot_y, rot_z) ->
  x0 !! (7 + i * 6)%nat = Some pos_x /\
  x0 !! (8 + i * 6)%nat = Some pos_y /\
  x0 !! (9 + i * 6)%nat = Some pos_z /\
  x0 !! (10 + i * 6)%nat = Some rot_x /\
  x0 !! (11 + i * 6)%nat = Some rot_y /\
  x0 !! (12 + i * 6)%nat = Some rot_z.
Proof.
  unfold Calibration.target_slot. intros H.
  destruct (slice x0 (7 + i * 6) (13 + i * 6)) as [|v0 [|v1 [|v2 [|v3
    [|v4 [|v5 [|v6 vs]]]]]]] eqn:E; try discriminate H.
  injection H as -> -> -> -> -> ->.
  pose proof (fun k v => slice_Some x0 (7 + i * 6) (13 + i * 6) k v) as L.
  rewrite E in L.
  repeat split.
  - rewrite <- (L 0%nat pos_x eq_refl). f_equal. lia.
  - rewrite <- (L 1%nat pos_y eq_refl). f_equal. lia.
  - rewrite <- (L 2%nat pos_z eq_refl). f_equal. lia.
  - rewrite <- (L 3%nat rot_x eq_refl). f_equal. lia.
  - rewrite <- (L 4%nat rot_y eq_refl). f_equal. lia.
  - rewrite <- (L 5%nat rot_z eq_refl). f_equal. lia.
Qed.

(** [calibrate] reads a camera from the slots that [fit_function] reads. *)
Lemma camera_lookups (self : Calibration.t) (x0 : list R) (i : nat)
    focal_x focal_y pos_x pos_y pos_z rot_x rot_y rot_z :
  Calibration.camera_slot self x0 i
  = Ok (focal_x, focal_y, pos_x, pos_y, pos_z, rot_x, rot_y, rot_z) ->
  let offset := (7 + Calibration._nb_targets self * 6)%nat in
  x0 !! (offset + i * 8)%nat = Some focal_x /\
  x0 !! (offset + i * 8 + 1)%nat = Some focal_y /\
  x0 !! (offset + i * 8 + 2)%nat = Some pos_x /\
  x0 !! (offset + i * 8 + 3)%nat = Some pos_y /\
  x0 !! (offset + i * 8 + 4)%nat = Some pos_z /\
  x0 !! (offset + i * 8 + 5)%nat = Some rot_x /\
  x0 !! (offset + i * 8 + 6)%nat = Some rot_y /\
  x0 !! (offset + i * 8 + 7)%nat = Some rot_z.
Proof.
  unfold Calibration.camera_slot. cbv zeta.
  set (offset := (7 + Calibration._nb_targets self * 6)%nat). intros H.
  destruct (slice x0 (offset + i * 8) (offset + i * 8 + 8))
    as [|v0 [|v1 [|v2 [|v3 [|v4 [|v5 [|v6 [|v7 [|v8 vs]]]]]]]]] eqn:E;
    try discriminate H.
  injection H as -> -> -> -> -> -> -> ->.
  pose proof (fun k v => slice_Some x0 (offset + i * 8) (offset + i * 8 + 8) k v)
    as L.
  rewrite E in L.
  repeat split.
  - rewrite <- (L 0%nat focal_x eq_refl). f_equal. lia.
  - exact (L 1%nat focal_y eq_refl).
  - exact (L 2%nat pos_x eq_refl).
  - exact (L 3%nat pos_y eq_refl).
  - exact (L 4%nat pos_z eq_refl).
  - exact (L 5%nat rot_x eq_refl).
  - exact (L 6%nat rot_y eq_refl).
  - exact (L 7%nat rot_z eq_refl).
Qed.

Lemma plain_lookup (x0 : list R) (i : nat) (v : R) :
  x0 !! i = Some v -> Calibration.plain x0 i = Ok (JNum v).
Proof. intros H. unfold Calibration.plain, list_getitem. by rewrite H. Qed.

Lemma wrapped_lookup (x0 : list R) (i : nat) (v : R) :
  x0 !! i = Some v ->
  Calibration.wrapped x0 i = Ok (JNum (py_mod v PI * 2)).
Proof. intros H. unfold Calibration.wrapped, list_getitem. by rewrite H. Qed.

Lemma mapM_seq_ok {A B : Type} (F : nat -> result B) (g : A -> B)
    (l : list A) (k : nat) :
  (forall i a, l !! i = Some a -> F (k + i)%nat = Ok (g a)) ->
  mapM F (seq k (length l)) = Ok (map g l).
Proof.
  revert k. induction l as [|a l IH]; intros k HF; [reflexivity|].
  cbn [length seq mapM map].
  rewrite <- (Nat.add_0_r k) at 1. rewrite (HF 0%nat a eq_refl).
  cbn [mbind result_bind]. rewrite (IH (S k)).
  - reflexivity.
  - intros i b Hi. rewrite <- (HF (S i) b Hi). f_equal. lia.
Qed.

Lemma mapM_zip_seq_ok {A B C : Type} (F : nat * C -> result B)
    (g : C -> A -> B) (cams : list C) (l : list A) (k : nat) :
  length cams = length l ->
  (forall i cam a, cams !! i = Some cam -> l !! i = Some a ->
     F ((k + i)%nat, cam) = Ok (g cam a)) ->
  mapM F (zip (seq k (length cams)) cams) = Ok (zip_with g cams l).
Proof.
  revert l k. induction cams as [|cam cams IH]; intros l k Hlen HF.
  - reflexivity.
  - destruct l as [|a l]; [discriminate|].
    cbn [length seq zip zip_with mapM].
    rewrite <- (Nat.add_0_r k) at 1. rewrite (HF 0%nat cam a eq_refl eq_refl).
    cbn [mbind result_bind]. rewrite (IH l (S k)).
    + reflexivity.
    + cbn in Hlen. lia.
    + intros i c b Hc Hb. rewrite <- (HF (S i) c b Hc Hb). do 2 f_equal. lia.
Qed.

Lemma store_layout (self : Calibration.t) r targets others :
  Calibration._nb_targets self = length targets ->
  length (Calibration._targets_parameters self) = length targets ->
  length (Calibration._others self) = length others ->
  Calibration.store self (layout_vector r targets others)
  = Ok (stored self r targets others).
Proof.
  intros HT HP HA. unfold Calibration.store.
  set (x0 := layout_vector r targets others).
  assert (Href : x0 = reference_values r ++ flat_map target_values targets
                        ++ flat_map camera_values others) by reflexivity.
  destruct r as [[[[[[focal_x focal_y] pos_y] rot_x] rot_y] rot_z] af].
  rewrite (plain_lookup x0 0 focal_x), (plain_lookup x0 1 focal_y),
    (plain_lookup x0 2 pos_y), (wrapped_lookup x0 3 rot_x),
    (wrapped_lookup x0 4 rot_y), (wrapped_lookup x0 5 rot_z),
    (plain_lookup x0 6 af) by (rewrite Href; reflexivity).
  cbn [mbind result_bind].
  rewrite HP.
  rewrite (mapM_seq_ok _ stored_target targets 0); cycle 1.
  { intros i t Hi. cbv beta. change (0 + i)%nat with i.
    pose proof (target_slot_layout
                  (focal_x, focal_y, pos_y, rot_x, rot_y, rot_z, af)
                  targets others i t Hi) as Hslot.
    fold x0 in Hslot.
    destruct t as [[[[[tx ty] tz] trx] try_] trz].
    destruct (target_lookups x0 i _ _ _ _ _ _ Hslot)
      as (H0 & H1 & H2 & H3 & H4 & H5).
    rewrite (plain_lookup _ _ _ H0), (plain_lookup _ _ _ H1),
      (plain_lookup _ _ _ H2), (wrapped_lookup _ _ _ H3),
      (wrapped_lookup _ _ _ H4), (wrapped_lookup _ _ _ H5).
    reflexivity. }
  cbn [mbind result_bind].
  rewrite (mapM_zip_seq_ok _ (stored_camera af) (Calibration._others self)
             others 0 HA); cycle 1.
  { intros j cam c Hcam Hj. cbv beta iota. change (0 + j)%nat with j.
    pose proof (camera_slot_layout self
                  (focal_x, focal_y, pos_y, rot_x, rot_y, rot_z, af)
                  targets others j c HT Hj) as Hslot.
    fold x0 in Hslot.
    destruct c as [[[[[[[cfx cfy] cx] cy] cz] crx] cry] crz].
    destruct (camera_lookups self x0 j _ _ _ _ _ _ _ _ Hslot)
      as (H0 & H1 & H2 & H3 & H4 & H5 & H6 & H7).
    rewrite (plain_lookup _ _ _ H0), (plain_lookup _ _ _ H1),
      (plain_lookup _ _ _ H2), (plain_lookup _ _ _ H3),
      (plain_lookup _ _ _ H4), (wrapped_lookup _ _ _ H5),
      (wrapped_lookup _ _ _ H6), (wrapped_lookup _ _ _ H7).
    reflexivity. }
  reflexivity.
Qed.

Lemma guess_targets_layout (random_sample : nat -> R) (count pos : nat) :
  exists targets,
    (Calibration.guess_targets random_sample count pos).1
    = flat_map target_values targets /\
    length targets = count /\
    Forall (fun t => exists x y z, t = (x, y, z, PI / 2, 0, 0)) targets.
Proof.
  revert pos. induction count as [|count IH]; intros pos.
  - exists []. repeat split. apply List.Forall_nil.
  - cbn [Calibration.guess_targets uniform].
    destruct (IH (S (S (S pos)))) as (targets & Hrest & Hlen & Hall).
    destruct (Calibration.guess_targets random_sample count (S (S (S pos))))
      as [rest pos'].
    cbn [fst] in *. subst rest.
    eexists ((_, _, _, _, _, _) :: targets).
    split; [reflexivity|]. split; [cbn [length]; by rewrite Hlen|].
    apply List.Forall_cons; [|exact Hall]. by eexists _, _, _.
Qed.

Lemma guess_others_layout (random_sample : nat -> R) (count pos : nat) :
  exists others,
    (Calibration.guess_others random_sample count pos).1
    = flat_map camera_values others /\
    length others = count /\
    Forall (fun c => exists focal_x focal_y x y z,
                       c = (focal_x, focal_y, x, y, z, 0, 0, 0)) others.
Proof.
  revert pos. induction count as [|count IH]; intros pos.
  - exists []. repeat split. apply List.Forall_nil.
  - cbn [Calibration.guess_others uniform].
    destruct (IH (S (S (S (S (S pos)))))) as (others & Hrest & Hlen & Hall).
    destruct (Calibration.guess_others random_sample count
                (S (S (S (S (S pos)))))) as [rest pos'].
    cbn [fst] in *. subst rest.
    eexists ((_, _, _, _, _, _, _, _) :: others).
    split; [reflexivity|]. split; [cbn [length]; by rewrite Hlen|].
    apply List.Forall_cons; [|exact Hall]. by eexists _, _, _, _, _.
Qed.

Lemma initial_guess_layout (random_sample : nat -> R) (self : Calibration.t)
    (pos : nat) :
  exists targets others,
    (Calibration.initial_guess random_sample self pos).1
    = layout_vector (5500, 5500, - 5500, 0, 0, 0, 1) targets others /\
    length targets = Calibration._nb_targets self /\
    length others = Calibration._nb_others self /\
    Forall (fun t => exists x y z, t = (x, y, z, PI / 2, 0, 0)) targets /\
    Forall (fun c => exists focal_x focal_y x y z,
                       c = (focal_x, focal_y, x, y, z, 0, 0, 0)) others.
Proof.
  unfold Calibration.initial_guess. cbv zeta.
  destruct (guess_targets_layout random_sample
              (Calibration._nb_targets self) pos)
    as (targets & Ht & Hlt & Hat).
  destruct (Calibration.guess_targets random_sample
              (Calibration._nb_targets self) pos) as [tv pos1].
  destruct (guess_others_layout random_sample
              (Calibration._nb_others self) pos1)
    as (others & Ho & Hlo & Hao).
  destruct (Calibration.guess_others random_sample
              (Calibration._nb_others self) pos1) as [ov pos2].
  cbn [fst] in *. subst tv ov.
  exists targets, others.
  split; [|repeat split; assumption].
  unfold layout_vector. by rewrite <- app_assoc.
Qed.

(* ===================================================================== *)
(** * Facts on the objective of [Calibration] *)
(* ===================================================================== *)

Lemma target_frame_0 :
  CalibrationCamera.target_frame 0 0 0 0 0 0 0 = mkFrame identity3 (0, 0, 0).
Proof.
  unfold CalibrationCamera.target_frame, concatenate_matrices.
  rewrite Rplus_0_r, !rotation_matrix_0. cbn [foldl].
  rewrite !mat4_mul_identity_l, cos_0, sin_0. unfold identity3.
  cbn [block3 identity4 mat3_T]. f_equal. mat_eq.
Qed.

Lemma cam_origin_axis_identity3 : cam_origin_axis identity3 = identity4.
Proof. reflexivity. Qed.

Lemma sqrt_25 (x : R) : x = 5 * 5 -> sqrt x = 5.
Proof. intros ->. apply sqrt_square. lra. Qed.

Ltac eval_geometry :=
  cbv [global_point local_point map global_point1 local_point1 identity3
       mat3_vec mat3_T dot3 vec3_add vec3_sub rot origin
       CalibrationCamera.pixel_coordinates zip_with zip np_rows flat_map app
       residual np_sum foldr norm2 sub2 fst snd mbind result_bind].

(** C5: for the other camera 0 and the target 1, [fit_function] takes the
    corners of target 0 (the index of the camera), not those of target 1:
    on [crossed_rig], where the observation of target 1 is exact, the
    objective is 5, the distance from the pixel (1, 1) of the corner of
    target 0 to the pixel (4, 5) observed; with the corners of target 1 the
    same residual is 0. *)
Theorem fit_function_other_camera_layout :
  Calibration.fit_function crossed_rig crossed_vector = Ok 5 /\
  Calibration.observed_error crossed_rig
    (CalibrationCamera.camera_frame 0 0 0 0 0 0 (cam_origin_axis identity3))
    (JNum 2) (JNum 2) 1 1 1 (0, 0, 0, 0, 0, 0) 1 0 [(4, 5)] 0 = Ok 0.
Proof.
  split.
  - unfold Calibration.fit_function, crossed_vector.
    rewrite reference_slot_layout. cbn [mbind result_bind].
    cbn [crossed_rig Calibration._nb_targets Calibration._others
         Calibration._ref_targets_points_2d
         Calibration._others_targets_points_2d
         length seq for_each attr list_getitem lookup list_lookup
         mbind result_bind].
    erewrite camera_slot_layout; [|reflexivity|reflexivity].
    erewrite !target_slot_layout; [|reflexivity|reflexivity].
    cbn [mbind result_bind].
    unfold Calibration.observed_error.
    cbn [crossed_rig Calibration.clockwise Calibration._cameras_origin_axis
         Calibration._targets_points_local_3d].
    replace (radians (0 * 1 * -1)) with 0 by (unfold radians; ring).
    rewrite cam_origin_axis_identity3, camera_frame_identity, target_frame_0.
    cbn [attr list_getitem lookup list_lookup mbind result_bind num
         Calibration.set_image_size CalibrationCamera._cam_width_image
         CalibrationCamera._cam_height_image fst snd].
    eval_geometry.
    f_equal. rewrite Rplus_0_l, Rplus_0_r. apply sqrt_25. field.
  - unfold Calibration.observed_error.
    cbn [crossed_rig Calibration.clockwise Calibration._cameras_origin_axis
         Calibration._targets_points_local_3d].
    replace (radians (0 * 1 * -1)) with 0 by (unfold radians; ring).
    rewrite cam_origin_axis_identity3, camera_frame_identity, target_frame_0.
    cbn [attr list_getitem lookup list_lookup mbind result_bind num].
    eval_geometry.
    f_equal. rewrite Rplus_0_l, Rplus_0_r.
    transitivity (sqrt 0); [f_equal; field|apply sqrt_0].
Qed.

(* ===================================================================== *)
(** * Facts on the rotations that [calibrate] keeps *)
(* ===================================================================== *)

Lemma py_mod_minus_1 : py_mod (-1) (PI * 2) = 2 * PI - 1.
Proof.
  unfold py_mod. pose proof PI2_3_2 as Hpi.
  assert (Zfloor (-1 / (PI * 2)) = (-1)%Z) as ->.
  { apply Zfloor_eq. split.
    - apply Rmult_le_reg_r with (r := PI * 2); [lra|].
      replace (-1 / (PI * 2) * (PI * 2)) with (-1) by (field; lra). lra.
    - apply Rmult_lt_reg_r with (r := PI * 2); [lra|].
      replace (-1 / (PI * 2) * (PI * 2)) with (-1) by (field; lra). lra. }
  lra.
Qed.

Lemma not_congruent_2_1 : ~ congruent_2pi 2 1.
Proof.
  intros [k Hk]. pose proof PI2_3_2 as Hpi.
  assert (0 < IZR k) as H0 by nra.
  assert (IZR k < 1) as H1 by nra.
  apply lt_IZR in H0. apply lt_IZR in H1. lia.
Qed.

(** The rotations of [CalibrationCameraTop] are at the indices 5, 6 and 7,
    which are the indices wrapped. *)
Lemma wrap_top (p0 p1 p2 p3 p4 p5 p6 p7 : R) :
  for_each wrap_index [5; 6; 7]%nat [p0; p1; p2; p3; p4; p5; p6; p7]
  = Ok [p0; p1; p2; p3; p4;
        py_mod p5 (PI * 2); py_mod p6 (PI * 2); py_mod p7 (PI * 2)].
Proof. reflexivity. Qed.

(** [CalibrationCameraTop.calibrate] keeps the focal lengths and the
    position as the optimizer found them and each rotation wrapped into
    [0, 2pi). *)
Lemma top_calibrate_rotations
    (minimize : (list R -> result R) -> list R -> result (list R))
    (random_sample : nat -> R) (self self' : CalibrationCameraTop.t)
    (ref_2d : list (list (R * R))) (ref_3d : list (list vec3))
    (size_image : R * R) (angle_factor err : R) (n pos : nat) :
  CalibrationCameraTop.calibrate minimize random_sample self
    ref_2d ref_3d size_image angle_factor n pos = Ok (self', err) ->
  exists p0 p1 p2 p3 p4 p5 p6 p7,
    CalibrationCameraTop.find_parameters minimize random_sample
      (CalibrationCameraTop.prepare self ref_2d ref_3d size_image angle_factor)
      n pos
    = Ok (Some [p0; p1; p2; p3; p4; p5; p6; p7]) /\
    let c := CalibrationCameraTop.base self' in
    [CalibrationCamera._cam_focal_length_x c;
     CalibrationCamera._cam_focal_length_y c;
     CalibrationCamera._cam_pos_x c;
     CalibrationCamera._cam_pos_y c;
     CalibrationCamera._cam_pos_z c;
     CalibrationCamera._angle_factor c]
    = [JNum p0; JNum p1; JNum p2; JNum p3; JNum p4; JNum angle_factor] /\
    [CalibrationCamera._cam_rot_x c;
     CalibrationCamera._cam_rot_y c;
     CalibrationCamera._cam_rot_z c]
    = [JNum (py_mod p5 (2 * PI)); JNum (py_mod p6 (2 * PI));
       JNum (py_mod p7 (2 * PI))] /\
    Forall (fun p => 0 <= py_mod p (2 * PI) < 2 * PI /\
                     congruent_2pi (py_mod p (2 * PI)) p) [p5; p6; p7].
Proof.
  unfold CalibrationCameraTop.calibrate. cbv zeta.
  set (self0 := CalibrationCameraTop.prepare self ref_2d ref_3d size_image
                  angle_factor).
  destruct (CalibrationCameraTop.find_parameters minimize random_sample
              self0 n pos) as [[best|]|e] eqn:Hfind;
    cbn [mbind result_bind attr]; try discriminate.
  intros H.
  destruct best as [|p0 [|p1 [|p2 [|p3 [|p4 [|p5 [|p6 [|p7 [|p8 best]]]]]]]]];
    try (cbn in H; discriminate H).
  exists p0, p1, p2, p3, p4, p5, p6, p7.
  split; [reflexivity|].
  cbn [for_each wrap_index list_getitem lookup list_lookup mbind result_bind
       list_insert insert] in H.
  destruct (CalibrationCameraTop.fit_function _ _) in H;
    cbn [mbind result_bind] in H; [|discriminate H].
  destruct (decide (length ref_2d = 0%nat)); [discriminate H|].
  injection H as <- _.
  cbn [CalibrationCameraTop.base self0 CalibrationCameraTop.prepare
       CalibrationCamera._cam_focal_length_x
       CalibrationCamera._cam_focal_length_y CalibrationCamera._cam_pos_x
       CalibrationCamera._cam_pos_y CalibrationCamera._cam_pos_z
       CalibrationCamera._cam_rot_x CalibrationCamera._cam_rot_y
       CalibrationCamera._cam_rot_z CalibrationCamera._angle_factor].
  replace (PI * 2) with (2 * PI) by ring.
  split; [reflexivity|]. split; [reflexivity|].
  repeat (apply List.Forall_cons;
          [split; [apply py_mod_range, two_pi_pos|apply py_mod_congruent]|]).
  apply List.Forall_nil.
Qed.

(** The rotations of [CalibrationCameraSideWith2TargetYXZ] are at the
    indices 4, 5, 10, 11, 12, 16, 17 and 18; the indices wrapped are 4, 6,
    10, 11, 12, 16, 17 and 18. *)
Lemma wrap_side (p0 p1 p2 p3 p4 p5 p6 p7 p8 p9 : R)
    (p10 p11 p12 p13 p14 p15 p16 p17 p18 : R) :
  for_each wrap_index [4; 6; 10; 11; 12; 16; 17; 18]%nat
    [p0; p1; p2; p3; p4; p5; p6; p7; p8; p9;
     p10; p11; p12; p13; p14; p15; p16; p17; p18]
  = Ok [p0; p1; p2; p3; py_mod p4 (PI * 2); p5; py_mod p6 (PI * 2);
        p7; p8; p9;
        py_mod p10 (PI * 2); py_mod p11 (PI * 2); py_mod p12 (PI * 2);
        p13; p14; p15;
        py_mod p16 (PI * 2); py_mod p17 (PI * 2); py_mod p18 (PI * 2)].
Proof. reflexivity. Qed.

(** C1: two calls of [calibrate] after which a rotation kept is not the
    optimizer's value wrapped into [0, 2pi).  For the side camera the
    optimizer returns cam_rot_z = -1 and the angle factor -1: [calibrate]
    keeps cam_rot_z = -1 and the angle factor 2pi - 1.  For the rig the
    optimizer returns cam_rot_x = 1: [calibrate] keeps cam_rot_x = 2, which
    is not 1 modulo 2pi. *)
Theorem calibrate_rotations_not_wrapped :
  (exists self' err,
     CalibrationCameraSideWith2TargetYXZ.calibrate
       (found side_result) sample_stream
       CalibrationCameraSideWith2TargetYXZ.init
       [(0, [(0, 0)])] [(0, 0, 0)] [] [] (2, 2) 0 0 = Ok (self', err) /\
     CalibrationCamera._cam_rot_z
       (CalibrationCameraSideWith2TargetYXZ.base self') = JNum (-1) /\
     CalibrationCamera._angle_factor
       (CalibrationCameraSideWith2TargetYXZ.base self')
     = JNum (py_mod (-1) (PI * 2)) /\
     py_mod (-1) (PI * 2) = 2 * PI - 1) /\
  (exists self' err,
     Calibration.calibrate (found rig_result) sample_stream
       (Calibration.init 1 1 Calibration.default_cameras_origin_axis
          Calibration.default_targets_origin_axis true)
       [([(0, [(0, 0)])], [(0, 0, 1)])] (2, 2) [] 0 0 = Ok (self', err) /\
     CalibrationCamera._cam_rot_x (Calibration.base self') = JNum 2 /\
     ~ congruent_2pi 2 1).
Proof.
  split.
  - eexists. eexists. split; [reflexivity|].
    split; [reflexivity|]. split; [reflexivity|]. exact py_mod_minus_1.
  - eexists. eexists. split; [reflexivity|]. split.
    + cbn [Calibration.base CalibrationCamera._cam_rot_x]. f_equal.
      rewrite py_mod_small; [lra|]. pose proof PI2_3_2. lra.
    + exact not_congruent_2_1.
Qed.

(* ===================================================================== *)
(** * More facts on the pinhole model and the frames *)
(* ===================================================================== *)

Lemma pixel_coordinates_2_batch (cx cy fx fy : R) (pts : list vec3) :
  CalibrationCamera.pixel_coordinates_2 (Batch pts) cx cy fx fy
  = Pixels (map (fun '(x, y, z) => (x / z * fx + cx, y / z * fy + cy)) pts).
Proof.
  unfold CalibrationCamera.pixel_coordinates_2. f_equal.
  induction pts as [|[[x y] z] pts IH]; [reflexivity|].
  cbn [map zip_with zip fst snd] in *. rewrite IH. reflexivity.
Qed.

(** X1: [pixel_coordinates] is [pixel_coordinates_2] with the optical
    centre at the middle of the image, on a point and on a batch, and
    [pixel_coordinates_2] on a batch gives row by row what it gives on each
    point. *)
Theorem pixel_coordinates_2_centre (w h cx cy fx fy : R) :
  (forall pts : points,
     CalibrationCamera.pixel_coordinates pts w h fx fy
     = CalibrationCamera.pixel_coordinates_2 pts (w / 2) (h / 2) fx fy) /\
  (forall (pts : list vec3),
     exists uvs,
       CalibrationCamera.pixel_coordinates_2 (Batch pts) cx cy fx fy
       = Pixels uvs /\
       length uvs = length pts /\
       forall k p, pts !! k = Some p ->
         exists uv, uvs !! k = Some uv /\
           CalibrationCamera.pixel_coordinates_2 (Point p) cx cy fx fy
           = Pixel uv).
Proof.
  split.
  - intros [[[x y] z]|pts]; reflexivity.
  - intros pts. eexists. split; [apply pixel_coordinates_2_batch|].
    split; [apply length_map|].
    intros k [[x y] z] Hk. eexists. rewrite lookup_map. unfold vec3 in *.
    rewrite Hk. split; reflexivity.
Qed.

Lemma block3_mul_embed3 (m : mat4) (n : mat3) :
  block3 (mat4_mul m (embed3 n)) = mat3_mul (block3 m) n.
Proof.
  destruct m as [[[[[[a0 a1] a2] a3] [[[b0 b1] b2] b3]]
                   [[[c0 c1] c2] c3]] [[[d0 d1] d2] d3]].
  destruct n as [[[[e0 e1] e2] [[f0 f1] f2]] [[g0 g1] g2]].
  cbv [mat4_mul embed3 mat3_mul mat4_T mat3_T dot4 dot3 block3]. mat_eq.
Qed.

(** X2: [camera_frame] returns the frame whose origin is the position
    given and whose rotation is the transpose of the 3x3 block of the
    origin axis multiplied by the elemental rotations about X, then Y,
    then Z. *)
Theorem camera_frame_origin_rotation
    (pos_x pos_y pos_z rot_x rot_y rot_z : R) (origin_axis : mat4) :
  let f := CalibrationCamera.camera_frame
             pos_x pos_y pos_z rot_x rot_y rot_z origin_axis in
  origin f = (pos_x, pos_y, pos_z) /\
  rot f = mat3_T (mat3_mul (mat3_mul (mat3_mul (block3 origin_axis)
                                               (elemental_x rot_x))
                                     (elemental_y rot_y))
                           (elemental_z rot_z)).
Proof.
  cbv zeta. unfold CalibrationCamera.camera_frame. cbn [origin rot].
  split; [reflexivity|]. f_equal.
  unfold concatenate_matrices. cbn [foldl].
  rewrite rotation_matrix_x, rotation_matrix_y, rotation_matrix_z.
  by rewrite mat4_mul_identity_l, !block3_mul_embed3.
Qed.

Lemma batch_turn_as_coded (a : R) (pt : list vec3) :
  let x := map (fun p => p.1.1) pt in
  let y := map (fun p => p.1.2) pt in
  let z := map (fun p => p.2) pt in
  let x := zip_with (fun x y => x * cos a - y * sin a) x y in
  let y := zip_with (fun x y => x * sin a + y * cos a) x y in
  zip (zip x y) z = map (turn_as_coded a) pt.
Proof.
  cbv zeta. induction pt as [|[[x y] z] pt IH]; [reflexivity|].
  cbn [map zip_with zip fst snd turn_as_coded] in *. by rewrite IH.
Qed.

Lemma pixel_coordinates_local_batch (fr : Frame) (w h fx fy : R)
    (pts : list vec3) :
  CalibrationCamera.pixel_coordinates (local_point fr (Batch pts)) w h fx fy
  = Pixels (map (fun p => pinhole w h fx fy (local_point1 fr p)) pts).
Proof.
  cbn [local_point]. rewrite pixel_coordinates_batch. f_equal.
  induction pts as [|p pts IH]; [reflexivity|]. cbn [map]. by rewrite IH.
Qed.

Lemma pixel_coordinates_local_point (fr : Frame) (w h fx fy : R) (p : vec3) :
  CalibrationCamera.pixel_coordinates (local_point fr (Point p)) w h fx fy
  = Pixel (pinhole w h fx fy (local_point1 fr p)).
Proof.
  cbn [local_point]. by destruct (local_point1 fr p) as [[x y] z].
Qed.

(** X3: on a batch of points the function returned by [get_projection]
    fails as it fails on every point, or returns one row for each point,
    the pixel that it returns on that point. *)
Theorem get_projection_rows (self : CalibrationCamera.t) (alpha : R)
    (projection : points -> result pixels) (pts : list vec3) :
  CalibrationCamera.get_projection self alpha = Ok projection ->
  match projection (Batch pts) with
  | Raise e => forall p, projection (Point p) = Raise e
  | Ok r =>
      exists uvs,
        r = Pixels uvs /\ length uvs = length pts /\
        forall k p, pts !! k = Some p ->
          exists uv, uvs !! k = Some uv /\
                     projection (Point p) = Ok (Pixel uv)
  end.
Proof.
  unfold CalibrationCamera.get_projection.
  destruct (CalibrationCamera.get_camera_frame self) as [fr_cam|e];
    cbn [mbind result_bind]; [|discriminate].
  destruct (num (CalibrationCamera._angle_factor self)) as [af|e];
    cbn [mbind result_bind]; [|discriminate].
  intros [= <-].
  destruct (num (CalibrationCamera._cam_width_image self)) as [w|e];
    cbn [mbind result_bind]; [|by intros [[x y] z]].
  destruct (num (CalibrationCamera._cam_height_image self)) as [h|e];
    cbn [mbind result_bind]; [|by intros [[x y] z]].
  destruct (num (CalibrationCamera._cam_focal_length_x self)) as [fx|e];
    cbn [mbind result_bind]; [|by intros [[x y] z]].
  destruct (num (CalibrationCamera._cam_focal_length_y self)) as [fy|e];
    cbn [mbind result_bind]; [|by intros [[x y] z]].
  rewrite (batch_turn_as_coded (radians (alpha * af)) pts).
  rewrite pixel_coordinates_local_batch.
  eexists. split; [reflexivity|]. split; [by rewrite !length_map|].
  intros k [[x y] z] Hk. eexists. rewrite !lookup_map. unfold vec3 in *.
  rewrite Hk. split; [reflexivity|].
  by rewrite pixel_coordinates_local_point.
Qed.

Lemma get_projection_rows_witness :
  exists projection,
    CalibrationCamera.get_projection unit_camera 90 = Ok projection /\
    match projection (Batch [(1, 0, 1); (0, 1, 1)]) with
    | Raise e => forall p, projection (Point p) = Raise e
    | Ok r =>
        exists uvs,
          r = Pixels uvs /\ length uvs = 2%nat /\
          forall k p, [(1, 0, 1); (0, 1, 1)] !! k = Some p ->
            exists uv, uvs !! k = Some uv /\
                       projection (Point p) = Ok (Pixel uv)
    end.
Proof.
  eexists. split; [reflexivity|].
  exact (get_projection_rows unit_camera 90 _ [(1, 0, 1); (0, 1, 1)] eq_refl).
Defined.

(* ===================================================================== *)
(** * More facts on the objectives *)
(* ===================================================================== *)

Lemma np_sum_nonneg (l : list R) : Forall (fun r => 0 <= r) l -> 0 <= np_sum l.
Proof.
  induction 1 as [|r l Hr _ IH]; cbn [np_sum foldr]; [lra|].
  unfold np_sum in IH. lra.
Qed.

Lemma norm2_nonneg (d : R * R) : 0 <= norm2 d.
Proof. apply sqrt_pos. Qed.

Lemma residual_nonneg (pts ref_pts : list (R * R)) (r : R) :
  residual pts ref_pts = Ok r -> 0 <= r.
Proof.
  assert (Hmap : forall (f : R * R -> R * R) l,
             0 <= np_sum (map (fun q => norm2 (f q)) l)).
  { intros f l. apply np_sum_nonneg. induction l; constructor; auto.
    apply norm2_nonneg. }
  assert (Hzip : forall l k,
             0 <= np_sum (zip_with (fun p q => norm2 (sub2 p q)) l k)).
  { intros l k. apply np_sum_nonneg. revert k.
    induction l as [|p l IH]; intros [|q k]; cbn [zip_with]; constructor; auto.
    apply norm2_nonneg. }
  unfold residual.
  destruct pts as [|p [|p' pts]]; destruct ref_pts as [|q [|q' ref_pts]];
    cbv beta iota; try case_decide; intros Hres; try discriminate Hres;
    injection Hres as <-.
  all: try pose proof (norm2_nonneg (sub2 p q)).
  all: try pose proof (norm2_nonneg (sub2 p q')).
  all: try pose proof (norm2_nonneg (sub2 p' q)).
  all: try pose proof (norm2_nonneg (sub2 p' q')).
  all: try pose proof (Hmap (fun q0 => sub2 p q0) ref_pts).
  all: try pose proof (Hmap (fun p0 => sub2 p0 q) pts).
  all: try pose proof (Hzip pts ref_pts).
  all: cbv beta in *; lra.
Qed.

Lemma residual_of_points_nonneg (pts : list pixels) (ref_pts : list (R * R))
    (r : R) :
  residual_of_points pts ref_pts = Ok r -> 0 <= r.
Proof.
  unfold residual_of_points. destruct pts; [discriminate|].
  apply residual_nonneg.
Qed.

Lemma for_each_ge {A : Type} (body : A -> R -> result R) (items : list A) :
  (forall a e e', body a e = Ok e' -> e <= e') ->
  forall s s', for_each body items s = Ok s' -> s <= s'.
Proof.
  intros Hbody. induction items as [|a items IH]; intros s s' H.
  - injection H as ->. lra.
  - cbn [for_each] in H. destruct (body a s) as [s1|] eqn:Ha;
      cbn [mbind result_bind] in H; [|discriminate H].
    apply Hbody in Ha. apply IH in H. lra.
Qed.

(** Takes apart a sequence of statements that has returned. *)
Ltac inv_bind H :=
  repeat match type of H with
         | mbind _ ?m = Ok _ =>
             let E := fresh "E" in
             destruct m eqn:E; cbn [mbind result_bind] in H;
             [|discriminate H]
         | match ?m with _ => _ end = Ok _ =>
             let E := fresh "E" in
             destruct m eqn:E; try discriminate H
         end.

Lemma top_fit_function_nonneg (self : CalibrationCameraTop.t) (x0 : list R)
    (err : R) :
  CalibrationCameraTop.fit_function self x0 = Ok err -> 0 <= err.
Proof.
  unfold CalibrationCameraTop.fit_function. intros H.
  inv_bind H.
  eapply for_each_ge in H; [exact H|].
  clear. intros i e e' H. inv_bind H. injection H as <-.
  match goal with
  | E : residual_of_points _ _ = Ok _ |- _ =>
      apply residual_of_points_nonneg in E
  end.
  lra.
Qed.

Lemma side_target_terms_ge (self : CalibrationCameraSideWith2TargetYXZ.t)
    fr_cam fx fy af px py pz rx ry rz obs pts (err err' : R) :
  CalibrationCameraSideWith2TargetYXZ.target_terms self fr_cam fx fy af
    px py pz rx ry rz obs pts err = Ok err' -> err <= err'.
Proof.
  unfold CalibrationCameraSideWith2TargetYXZ.target_terms. intros H.
  inv_bind H. eapply for_each_ge in H; [exact H|].
  clear. intros [alpha ref_pts] e e' H. inv_bind H. injection H as <-.
  match goal with
  | E : residual_of_points _ _ = Ok _ |- _ =>
      apply residual_of_points_nonneg in E
  end.
  lra.
Qed.

Lemma side_fit_function_nonneg (self : CalibrationCameraSideWith2TargetYXZ.t)
    (x0 : list R) (err : R) :
  CalibrationCameraSideWith2TargetYXZ.fit_function self x0 = Ok err ->
  0 <= err.
Proof.
  unfold CalibrationCameraSideWith2TargetYXZ.fit_function. intros H.
  inv_bind H. apply side_target_terms_ge in H.
  match goal with
  | E : CalibrationCameraSideWith2TargetYXZ.target_terms _ _ _ _ _ _ _ _ _ _ _
          _ _ _ = Ok _ |- _ => apply side_target_terms_ge in E
  end.
  lra.
Qed.

Lemma observed_error_ge (self : Calibration.t) fr_cam w h fx fy af pose i
    alpha ref_pts (err err' : R) :
  Calibration.observed_error self fr_cam w h fx fy af pose i alpha ref_pts err
  = Ok err' -> err <= err'.
Proof.
  unfold Calibration.observed_error.
  destruct pose as [[[[[px py] pz] rx] ry] rz]. intros H.
  inv_bind H. injection H as <-.
  match goal with E : residual _ _ = Ok _ |- _ => apply residual_nonneg in E end.
  lra.
Qed.

Lemma rig_fit_function_nonneg (self : Calibration.t) (x0 : list R) (err : R) :
  Calibration.fit_function self x0 = Ok err -> 0 <= err.
Proof.
  unfold Calibration.fit_function. cbv zeta. intros H.
  destruct (Calibration.reference_slot x0) as [r|] eqn:Er;
    cbn [mbind result_bind] in H; [|discriminate H].
  destruct r as [[[[[[fx fy] py] rx] ry] rz] af].
  match type of H with
  | mbind _ ?m = Ok _ => destruct m as [err1|] eqn:E1;
                         cbn [mbind result_bind] in H; [|discriminate H]
  end.
  eapply for_each_ge in E1; cycle 1.
  { clear. intros i e e' H. inv_bind H.
    eapply for_each_ge in H; [exact H|].
    clear. intros [alpha ref_pts] e e' H. inv_bind H.
    by apply observed_error_ge in H. }
  eapply for_each_ge in H; cycle 1.
  { clear. intros i e e' H.
    destruct (Calibration.camera_slot self x0 i) as [c|] eqn:Ec;
      cbn [mbind result_bind] in H; [|discriminate H].
    destruct c as [[[[[[[cfx cfy] cx] cy] cz] crx] cry] crz].
    eapply for_each_ge in H; [exact H|].
    clear. intros j e e' H. inv_bind H.
    eapply for_each_ge in H; [exact H|].
    clear. intros [alpha ref_pts] e e' H. inv_bind H.
    by apply observed_error_ge in H. }
  lra.
Qed.

Lemma view_error_nonneg calib fr_cam px py pz angle observed (e : R) :
  view_error calib fr_cam px py pz angle observed = Ok e -> 0 <= e.
Proof.
  unfold view_error. intros H. inv_bind H. injection H as <-.
  apply sqrt_pos.
Qed.

Lemma triangulation_fit_function_nonneg pt2d calibrations x0 (err : R) :
  find_position_3d_points.fit_function pt2d calibrations x0 = Ok err ->
  0 <= err.
Proof.
  unfold find_position_3d_points.fit_function. intros H.
  eapply for_each_ge in H; [exact H|].
  clear. intros [id_camera of_camera] e e' H.
  eapply for_each_ge in H; [exact H|].
  clear. intros [angle observed] e e' H.
  destruct (calibrations !! id_camera) as [calib|]; [|injection H as <-; lra].
  inv_bind H. injection H as <-.
  match goal with
  | E : view_error _ _ _ _ _ _ _ = Ok _ |- _ => apply view_error_nonneg in E
  end.
  lra.
Qed.

Lemma soil_err_projection_nonneg pts calibrations x0 (err : R) :
  find_position_3d_points_soil.err_projection pts calibrations x0 = Ok err ->
  0 <= err.
Proof.
  unfold find_position_3d_points_soil.err_projection. intros H.
  inv_bind H.
  eapply for_each_ge in H; [exact H|].
  clear. intros i e e' H. inv_bind H.
  eapply for_each_ge in H; [exact H|].
  clear. intros [id_camera of_camera] e e' H.
  eapply for_each_ge in H; [exact H|].
  clear. intros [angle observed] e e' H.
  destruct (calibrations !! id_camera) as [calib|]; [|injection H as <-; lra].
  inv_bind H. injection H as <-.
  match goal with
  | E : view_error _ _ _ _ _ _ _ = Ok _ |- _ => apply view_error_nonneg in E
  end.
  lra.
Qed.

(* ===================================================================== *)
(** * Facts on the depths of the sample data *)
(* ===================================================================== *)

Lemma radians_0 (f : R) : radians (0 * f) = 0.
Proof. unfold radians. ring. Qed.

(** The depth of a point given by its coordinates, in a frame given by its
    rows. *)
Ltac unit_depth :=
  cbv [depth local_point1 global_point1 mat3_vec mat3_T vec3_sub vec3_add
       dot3 rot origin identity3 CalibrationCameraTop.axes];
  cbn [fst snd]; lra.

Lemma sample_top_depths : top_depths sample_top [1; 1; 0; 0; 1; 0; 0; 0].
Proof.
  intros fx fy px py pz rx ry rz oa ref_3d points_3d pt
         Hx0 Haxis Href Hpoints Hpt.
  injection Hx0 as <- <- <- <- <- <- <- <-.
  injection Haxis as <-. injection Href as <-.
  apply list_elem_of_singleton in Hpoints as ->.
  apply list_elem_of_singleton in Hpt as ->.
  rewrite camera_frame_unrotated. unit_depth.
Qed.

Lemma exact_side_depths : side_depths exact_side exact_side_vector.
Proof.
  intros fx fy px py rx rz af t1x t1y t1z t1rx t1ry t1rz
         t2x t2y t2z t2rx t2ry t2rz pz ry oa Hx0 Hpz Hry Haxis.
  injection Hx0 as <- <- <- <- <- <- <- <- <- <- <- <- <- <- <- <- <- <- <-.
  injection Hpz as <-. injection Hry as <-. injection Haxis as <-.
  cbv zeta.
  split; intros obs local alpha ref_pts pt Hobs Hlocal Hin Hpt;
    injection Hobs as <-; injection Hlocal as <-;
    apply list_elem_of_singleton in Hin; injection Hin as -> ->;
    apply list_elem_of_singleton in Hpt as ->;
    rewrite camera_frame_identity, radians_0, target_frame_0; unit_depth.
Qed.

Lemma one_target_rig_depths : rig_depths one_target_rig one_target_vector.
Proof.
  intros fx fy py rx ry rz af fr_cam j tpx tpy tpz trx try_ trz
         alpha local_3d layout pt Href Hframe Hj Hslot Hangle Hlocal
         Hlayout Hpt.
  unfold one_target_vector in *.
  rewrite reference_slot_layout in Href.
  injection Href as <- <- <- <- <- <- <-.
  destruct Hframe as [(fx & fy & py & rx & ry & rz & af & Href & ->)
                     |(i & fx & fy & px & py & pz & rx & ry & rz & Hi & _)];
    [|cbn in Hi; lia].
  rewrite reference_slot_layout in Href.
  injection Href as <- <- <- <- <- <- <-.
  assert (j = 0%nat) as -> by (cbn in Hj; lia).
  rewrite (target_slot_layout (1, 1, 0, 0, 0, 0, 1) [(0, 0, 0, 0, 0, 0)] []
             0 (0, 0, 0, 0, 0, 0) eq_refl) in Hslot.
  injection Hslot as <- <- <- <- <- <-.
  assert (alpha = 0) as ->.
  { destruct Hangle as [(ref_2d & items & ref_pts & Href & Hitems & Hin)
                       |(others_2d & of_camera & items & ref_pts & Ho & Hof
                         & _)].
    - injection Href as <-.
      apply list_elem_of_singleton in Hitems as ->.
      apply list_elem_of_singleton in Hin. by injection Hin as ->.
    - injection Ho as <-. by apply elem_of_nil in Hof. }
  injection Hlocal as <-.
  apply list_elem_of_singleton in Hlayout as ->.
  apply list_elem_of_singleton in Hpt as ->.
  cbv zeta. cbn [one_target_rig Calibration.clockwise
                 Calibration._cameras_origin_axis].
  replace (radians (0 * 1 * -1)) with 0 by (unfold radians; ring).
  rewrite cam_origin_axis_identity3, camera_frame_identity, target_frame_0.
  unit_depth.
Qed.

(** A point at the height 1 seen by the camera [unit_camera] at the angle
    0. *)
Lemma unit_views_depths (pt2d : views) (p : vec3) :
  p.2 = 1 ->
  (forall id_camera of_camera angle observed,
     (id_camera, of_camera) ∈ pt2d -> (angle, observed) ∈ of_camera ->
     angle = 0) ->
  views_depths pt2d {["side" := unit_camera]} p.
Proof.
  intros Hz Hangles id_camera of_camera angle observed calib fr_cam af
         Hcam Hview Hcalib Hfr Haf.
  rewrite (Hangles _ _ _ _ Hcam Hview).
  apply lookup_singleton_Some in Hcalib as [_ <-].
  injection Haf as <-.
  unfold CalibrationCamera.get_camera_frame in Hfr.
  cbn [unit_camera CalibrationCamera._cam_pos_x CalibrationCamera._cam_pos_y
       CalibrationCamera._cam_pos_z CalibrationCamera._cam_rot_x
       CalibrationCamera._cam_rot_y CalibrationCamera._cam_rot_z
       CalibrationCamera._cam_origin_axis
       CalibrationCamera.origin_axis_of num mbind result_bind] in Hfr.
  rewrite camera_frame_identity in Hfr. apply Ok_inj in Hfr. subst fr_cam.
  cbv zeta. rewrite radians_0, cos_0, sin_0.
  destruct p as [[x y] z]. cbn [fst snd] in *. subst z. unit_depth.
Qed.

Lemma soil_frame_unrotated (x y z : R) :
  find_position_3d_points_soil.soil_frame x y z 0 0 0
  = mkFrame identity3 (x, y, z).
Proof.
  unfold find_position_3d_points_soil.soil_frame, concatenate_matrices.
  rewrite !rotation_matrix_0. cbn [foldl].
  rewrite !mat4_mul_identity_l. reflexivity.
Qed.

Lemma sample_soil_depths :
  soil_depths [[("side", [(0, (1, 1))])]] {["side" := unit_camera]}
    [1; 0; 0; 0; 0; 0].
Proof.
  intros x0_0 x0_1 x0_2 x0_3 i pt2d u v H0 H1 H2 H3 Hi Hu Hv.
  injection H0 as <-. injection H1 as <-. injection H2 as <-.
  injection H3 as <-.
  destruct i as [|i]; [|discriminate Hi].
  injection Hi as <-. injection Hu as <-. injection Hv as <-.
  rewrite soil_frame_unrotated. apply unit_views_depths.
  - cbv [global_point1 mat3_vec vec3_add dot3 rot origin identity3].
    cbn [fst snd]. lra.
  - intros id_camera of_camera angle observed Hcam Hview.
    apply list_elem_of_singleton in Hcam. injection Hcam as -> ->.
    apply list_elem_of_singleton in Hview. by injection Hview as ->.
Qed.

(** X4: at parameters where no point that it projects has the depth 0,
    every objective that returns returns a number that is not negative. *)
Theorem objectives_nonnegative :
  (forall self x0 err,
     top_depths self x0 ->
     CalibrationCameraTop.fit_function self x0 = Ok err -> 0 <= err) /\
  (forall self x0 err,
     side_depths self x0 ->
     CalibrationCameraSideWith2TargetYXZ.fit_function self x0 = Ok err ->
     0 <= err) /\
  (forall self x0 err,
     rig_depths self x0 ->
     Calibration.fit_function self x0 = Ok err -> 0 <= err) /\
  (forall pt2d calibrations pos_x pos_y pos_z err,
     views_depths pt2d calibrations (pos_x, pos_y, pos_z) ->
     find_position_3d_points.fit_function pt2d calibrations
       [pos_x; pos_y; pos_z] = Ok err ->
     0 <= err) /\
  (forall pts calibrations x0 err,
     soil_depths pts calibrations x0 ->
     find_position_3d_points_soil.fit_function pts calibrations x0 = Ok err ->
     0 <= err).
Proof.
  repeat split; intros.
  - by eapply top_fit_function_nonneg.
  - by eapply side_fit_function_nonneg.
  - by eapply rig_fit_function_nonneg.
  - by eapply triangulation_fit_function_nonneg.
  - by eapply soil_err_projection_nonneg.
Qed.

Lemma objectives_nonnegative_witness :
  (exists e,
     CalibrationCameraTop.fit_function sample_top [1; 1; 0; 0; 1; 0; 0; 0]
     = Ok e /\ 0 <= e) /\
  (exists e,
     CalibrationCameraSideWith2TargetYXZ.fit_function
       exact_side exact_side_vector = Ok e /\ 0 <= e) /\
  (exists e,
     Calibration.fit_function one_target_rig one_target_vector = Ok e /\
     0 <= e) /\
  (exists e,
     find_position_3d_points.fit_function
       [("side", [(0, (1, 1))])] {["side" := unit_camera]} [0; 0; 1]
     = Ok e /\ 0 <= e) /\
  (exists e,
     find_position_3d_points_soil.fit_function
       [[("side", [(0, (1, 1))])]] {["side" := unit_camera]}
       [1; 0; 0; 0; 0; 0]
     = Ok e /\ 0 <= e).
Proof.
  split; [|split; [|split; [|split]]].
  - assert (exists e, CalibrationCameraTop.fit_function sample_top
                        [1; 1; 0; 0; 1; 0; 0; 0] = Ok e) as [e E]
      by (eexists; reflexivity).
    exists e. split; [exact E|].
    exact (proj1 (objectives_nonnegative) _ _ _ sample_top_depths E).
  - match goal with
    | |- exists e, ?f = Ok e /\ _ =>
        assert (exists e, f = Ok e) as [e E] by (eexists; reflexivity)
    end.
    exists e. split; [exact E|].
    exact (proj1 (proj2 objectives_nonnegative) _ _ _ exact_side_depths E).
  - match goal with
    | |- exists e, ?f = Ok e /\ _ =>
        assert (exists e, f = Ok e) as [e E] by (eexists; reflexivity)
    end.
    exists e. split; [exact E|].
    exact (proj1 (proj2 (proj2 objectives_nonnegative)) _ _ _
             one_target_rig_depths E).
  - match goal with
    | |- exists e, ?f = Ok e /\ _ =>
        assert (exists e, f = Ok e) as [e E] by (eexists; reflexivity)
    end.
    exists e. split; [exact E|].
    refine (proj1 (proj2 (proj2 (proj2 objectives_nonnegative)))
              _ _ _ _ _ _ _ E).
    apply unit_views_depths; [reflexivity|].
    intros id_camera of_camera angle observed Hcam Hview.
    apply list_elem_of_singleton in Hcam. injection Hcam as -> ->.
    apply list_elem_of_singleton in Hview. by injection Hview as ->.
  - match goal with
    | |- exists e, ?f = Ok e /\ _ =>
        assert (exists e, f = Ok e) as [e E] by (eexists; reflexivity)
    end.
    exists e. split; [exact E|].
    exact (proj2 (proj2 (proj2 (proj2 objectives_nonnegative))) _ _ _ _
             sample_soil_depths E).
Defined.

Lemma norm2_self (p : R * R) : norm2 (sub2 p p) = 0.
Proof.
  unfold norm2, sub2. cbn [fst snd].
  replace ((p.1 - p.1) * (p.1 - p.1) + (p.2 - p.2) * (p.2 - p.2)) with 0
    by ring.
  apply sqrt_0.
Qed.

Lemma np_sum_zip_self (l : list (R * R)) :
  np_sum (zip_with (fun p q => norm2 (sub2 p q)) l l) = 0.
Proof.
  induction l as [|p l IH]; [reflexivity|].
  cbn [zip_with np_sum foldr]. rewrite norm2_self.
  unfold np_sum in IH. rewrite IH. lra.
Qed.

(** The residual of an array of rows with itself is 0. *)
Lemma residual_self (l : list (R * R)) : l <> [] -> residual l l = Ok 0.
Proof.
  intros Hl. unfold residual. destruct l as [|p [|q l]]; [done| |].
  - cbn [map np_sum foldr]. rewrite norm2_self. f_equal. lra.
  - rewrite decide_True by reflexivity. by rewrite np_sum_zip_self.
Qed.

Lemma mapM_ext_ok {A B : Type} (f : A -> result B) (g : A -> B) (l : list A) :
  (forall a, f a = Ok (g a)) -> mapM f l = Ok (map g l).
Proof.
  intros H. induction l as [|a l IH]; [reflexivity|].
  cbn [map mapM]. rewrite H. cbn [mbind result_bind]. by rewrite IH.
Qed.

(** The pixels of points, seen from a frame, are rows. *)
Lemma np_rows_projected (fr : Frame) (w h fx fy : R) (l : list points) :
  l <> [] -> (forall pt, pt ∈ l -> exists p, pt = Point p) ->
  np_rows (map (fun pt => CalibrationCamera.pixel_coordinates
                            (local_point fr pt) w h fx fy) l) <> [].
Proof.
  intros Hl Hpoints. destruct l as [|pt l]; [done|].
  destruct (Hpoints pt) as [p ->]; [apply list_elem_of_here|].
  cbn [map np_rows flat_map]. rewrite pixel_coordinates_local_point.
  discriminate.
Qed.

Lemma residual_of_points_self (pts : list pixels) :
  np_rows pts <> [] -> residual_of_points pts (np_rows pts) = Ok 0.
Proof.
  intros Hrows. unfold residual_of_points.
  destruct pts; [done|]. by apply residual_self.
Qed.

Lemma for_each_zero {A : Type} (body : A -> R -> result R) (items : list A) :
  (forall a, a ∈ items -> body a 0 = Ok 0) ->
  for_each body items 0 = Ok 0.
Proof.
  induction items as [|a items IH]; intros H; [reflexivity|].
  cbn [for_each]. rewrite (H a) by apply list_elem_of_here.
  cbn [mbind result_bind]. apply IH. intros b Hb. apply H.
  by apply list_elem_of_further.
Qed.

(** X5: when the attributes of a top camera are the parameters x0, no
    corner has the depth 0 in the frame of the camera, and the corners
    observed in every image are the pixels that [project_points_3d] gives
    for the points of that image, the objective is 0 at x0. *)
Theorem top_fit_function_exact (self : CalibrationCameraTop.t)
    (focal_x focal_y pos_x pos_y pos_z rot_x rot_y rot_z : R)
    (origin_axis : mat4)
    (ref_2d : list (list (R * R))) (ref_3d : list (list vec3)) :
  let c := CalibrationCameraTop.base self in
  [CalibrationCamera._cam_focal_length_x c;
   CalibrationCamera._cam_focal_length_y c;
   CalibrationCamera._cam_pos_x c;
   CalibrationCamera._cam_pos_y c;
   CalibrationCamera._cam_pos_z c;
   CalibrationCamera._cam_rot_x c;
   CalibrationCamera._cam_rot_y c;
   CalibrationCamera._cam_rot_z c]
  = map JNum [focal_x; focal_y; pos_x; pos_y; pos_z; rot_x; rot_y; rot_z] ->
  CalibrationCamera._cam_origin_axis c = Some origin_axis ->
  CalibrationCameraTop._ref_target_points_2d self = Some ref_2d ->
  CalibrationCameraTop._ref_target_points_3d self = Some ref_3d ->
  top_depths self
    [focal_x; focal_y; pos_x; pos_y; pos_z; rot_x; rot_y; rot_z] ->
  (forall i, (i < length ref_2d)%nat ->
     exists points_3d pts,
       ref_3d !! i = Some points_3d /\ points_3d <> [] /\
       CalibrationCameraTop.project_points_3d self points_3d = Ok pts /\
       ref_2d !! i = Some (np_rows pts)) ->
  CalibrationCameraTop.fit_function self
    [focal_x; focal_y; pos_x; pos_y; pos_z; rot_x; rot_y; rot_z] = Ok 0.
Proof.
  cbv zeta. intros Hc Hoa H2d H3d _ Hexact.
  injection Hc as Hfx Hfy Hpx Hpy Hpz Hrx Hry Hrz.
  unfold CalibrationCameraTop.fit_function.
  unfold CalibrationCamera.origin_axis_of. rewrite Hoa, H2d.
  cbn [mbind result_bind attr].
  apply for_each_zero. intros i Hi.
  apply elem_of_seq in Hi as [_ Hi]. cbn [Nat.add] in Hi.
  destruct (Hexact i Hi) as (points_3d & pts & H3 & Hne & Hproj & H2).
  rewrite H3d. cbn [attr mbind result_bind]. unfold list_getitem.
  rewrite H3, H2. cbn [mbind result_bind].
  unfold CalibrationCameraTop.project_points_3d,
    CalibrationCamera.get_camera_frame, CalibrationCamera.origin_axis_of
    in Hproj.
  rewrite Hpx, Hpy, Hpz, Hrx, Hry, Hrz, Hoa, Hfx, Hfy in Hproj.
  cbn [num mbind result_bind] in Hproj. rewrite Hproj.
  cbn [mbind result_bind].
  destruct (num (CalibrationCamera._cam_width_image
                   (CalibrationCameraTop.base self))) as [w|];
    cbn [mbind result_bind] in Hproj;
    [|destruct points_3d; [done|discriminate Hproj]].
  destruct (num (CalibrationCamera._cam_height_image
                   (CalibrationCameraTop.base self))) as [h|];
    cbn [mbind result_bind] in Hproj;
    [|destruct points_3d; [done|discriminate Hproj]].
  rewrite (mapM_ext_ok _
             (fun pt => CalibrationCamera.pixel_coordinates
                          (local_point
                             (CalibrationCamera.camera_frame pos_x pos_y pos_z
                                rot_x rot_y rot_z origin_axis) (Point pt))
                          w h focal_x focal_y)) in Hproj by reflexivity.
  apply Ok_inj in Hproj. subst pts.
  rewrite residual_of_points_self.
  - cbn [mbind result_bind]. f_equal. lra.
  - rewrite <- (map_map Point
                  (fun pt => CalibrationCamera.pixel_coordinates
                               (local_point
                                  (CalibrationCamera.camera_frame
                                     pos_x pos_y pos_z rot_x rot_y rot_z
                                     origin_axis) pt)
                               w h focal_x focal_y)).
    apply np_rows_projected.
    + by destruct points_3d.
    + intros pt Hpt. apply list_elem_of_In, in_map_iff in Hpt as (p & <- & _).
      by exists p.
Qed.

Lemma project_unit_top :
  CalibrationCameraTop.project_points_3d
    (CalibrationCameraTop.mk unit_camera None
       (Some [[(1, 1); (2, 1)]]) (Some [[(0, 0, 1); (1, 0, 1)]]) (Some 1%nat))
    [(0, 0, 1); (1, 0, 1)]
  = Ok [Pixel (1, 1); Pixel (2, 1)].
Proof.
  unfold CalibrationCameraTop.project_points_3d,
    CalibrationCamera.get_camera_frame.
  cbn [CalibrationCameraTop.base unit_camera CalibrationCamera._cam_pos_x
       CalibrationCamera._cam_pos_y CalibrationCamera._cam_pos_z
       CalibrationCamera._cam_rot_x CalibrationCamera._cam_rot_y
       CalibrationCamera._cam_rot_z CalibrationCamera._cam_origin_axis
       CalibrationCamera._cam_width_image CalibrationCamera._cam_height_image
       CalibrationCamera._cam_focal_length_x
       CalibrationCamera._cam_focal_length_y
       CalibrationCamera.origin_axis_of num mbind result_bind].
  rewrite camera_frame_identity.
  cbn [mapM mbind result_bind mret result_ret].
  cbv [local_point local_point1 CalibrationCamera.pixel_coordinates
       mat3_vec mat3_T vec3_sub dot3 rot origin].
  do 2 f_equal; [|f_equal]; apply Pixel_eq; field.
Qed.

Lemma top_fit_function_exact_witness :
  CalibrationCameraTop.fit_function
    (CalibrationCameraTop.mk unit_camera None
       (Some [[(1, 1); (2, 1)]]) (Some [[(0, 0, 1); (1, 0, 1)]]) (Some 1%nat))
    [1; 1; 0; 0; 0; 0; 0; 0] = Ok 0.
Proof.
  apply (top_fit_function_exact _ 1 1 0 0 0 0 0 0 identity4
           [[(1, 1); (2, 1)]] [[(0, 0, 1); (1, 0, 1)]]);
    try reflexivity.
  - intros fx fy px py pz rx ry rz oa ref_3d points_3d pt
           Hx0 Haxis Href Hpoints Hpt.
    injection Hx0 as <- <- <- <- <- <- <- <-.
    injection Haxis as <-. injection Href as <-.
    apply list_elem_of_singleton in Hpoints as ->.
    rewrite camera_frame_identity.
    repeat (apply elem_of_cons in Hpt as [->|Hpt]; [unit_depth|]).
    by apply elem_of_nil in Hpt.
  - intros [|i] Hi; [|cbn in Hi; lia].
    exists [(0, 0, 1); (1, 0, 1)], [Pixel (1, 1); Pixel (2, 1)].
    split; [reflexivity|]. split; [discriminate|].
    split; [exact project_unit_top|reflexivity].
Defined.

Lemma projected_rows (fr : Frame) (width height : json) (fx fy : R)
    (l : list vec3) (to_world : vec3 -> vec3) (pts : list pixels) :
  l <> [] ->
  mapM (fun pt =>
          width ← num width;
          height ← num height;
          Ok (CalibrationCamera.pixel_coordinates
                (local_point fr pt) width height fx fy))
       (map (fun pt => Point (to_world pt)) l) = Ok pts ->
  np_rows pts <> [].
Proof.
  intros Hl Hpts.
  destruct (num width) as [w|]; cbn [mbind result_bind] in Hpts;
    [|destruct l; [done|discriminate Hpts]].
  destruct (num height) as [h|]; cbn [mbind result_bind] in Hpts;
    [|destruct l; [done|discriminate Hpts]].
  rewrite (mapM_ext_ok _
             (fun pt => CalibrationCamera.pixel_coordinates
                          (local_point fr pt) w h fx fy)) in Hpts
    by reflexivity.
  apply Ok_inj in Hpts. subst pts. apply np_rows_projected.
  - by destruct l.
  - intros pt Hpt. apply list_elem_of_In, in_map_iff in Hpt as (p & <- & _).
    by eexists.
Qed.

(** X6: when the attributes of a side camera are the parameters x0, no
    corner of a target has the depth 0 in the frame of the camera at an
    angle observed, and, at every angle, the corners observed of each
    target are the pixels that [get_target_1_projected] and
    [get_target_2_projected] give for the corners of that target, the
    objective is 0 at x0. *)
Theorem side_fit_function_exact
    (self : CalibrationCameraSideWith2TargetYXZ.t)
    (focal_x focal_y pos_x pos_y pos_z rot_x rot_y rot_z angle_factor : R)
    (t1x t1y t1z t1rx t1ry t1rz t2x t2y t2z t2rx t2ry t2rz : R)
    (origin_axis : mat4)
    (obs_1 obs_2 : list (R * list (R * R))) (local_1 local_2 : list vec3) :
  let c := CalibrationCameraSideWith2TargetYXZ.base self in
  [CalibrationCamera._cam_focal_length_x c;
   CalibrationCamera._cam_focal_length_y c;
   CalibrationCamera._cam_pos_x c;
   CalibrationCamera._cam_pos_y c;
   CalibrationCamera._cam_pos_z c;
   CalibrationCamera._cam_rot_x c;
   CalibrationCamera._cam_rot_y c;
   CalibrationCamera._cam_rot_z c;
   CalibrationCamera._angle_factor c]
  = map JNum [focal_x; focal_y; pos_x; pos_y; pos_z; rot_x; rot_y; rot_z;
              angle_factor] ->
  [CalibrationCameraSideWith2TargetYXZ._target_1_pos_x self;
   CalibrationCameraSideWith2TargetYXZ._target_1_pos_y self;
   CalibrationCameraSideWith2TargetYXZ._target_1_pos_z self;
   CalibrationCameraSideWith2TargetYXZ._target_1_rot_x self;
   CalibrationCameraSideWith2TargetYXZ._target_1_rot_y self;
   CalibrationCameraSideWith2TargetYXZ._target_1_rot_z self;
   CalibrationCameraSideWith2TargetYXZ._target_2_pos_x self;
   CalibrationCameraSideWith2TargetYXZ._target_2_pos_y self;
   CalibrationCameraSideWith2TargetYXZ._target_2_pos_z self;
   CalibrationCameraSideWith2TargetYXZ._target_2_rot_x self;
   CalibrationCameraSideWith2TargetYXZ._target_2_rot_y self;
   CalibrationCameraSideWith2TargetYXZ._target_2_rot_z self]
  = map JNum [t1x; t1y; t1z; t1rx; t1ry; t1rz;
              t2x; t2y; t2z; t2rx; t2ry; t2rz] ->
  CalibrationCamera._cam_origin_axis c = Some origin_axis ->
  CalibrationCameraSideWith2TargetYXZ._ref_target_1_points_2d self
  = Some obs_1 ->
  CalibrationCameraSideWith2TargetYXZ._ref_target_2_points_2d self
  = Some obs_2 ->
  CalibrationCameraSideWith2TargetYXZ._ref_target_1_points_local_3d self
  = Some local_1 ->
  CalibrationCameraSideWith2TargetYXZ._ref_target_2_points_local_3d self
  = Some local_2 ->
  local_1 <> [] -> local_2 <> [] ->
  side_depths self
    [focal_x; focal_y; pos_x; pos_y; rot_x; rot_z; angle_factor;
     t1x; t1y; t1z; t1rx; t1ry; t1rz; t2x; t2y; t2z; t2rx; t2ry; t2rz] ->
  (forall alpha ref_pts, (alpha, ref_pts) ∈ obs_1 ->
     exists pts,
       CalibrationCameraSideWith2TargetYXZ.get_target_1_projected
         self alpha local_1 = Ok pts /\ ref_pts = np_rows pts) ->
  (forall alpha ref_pts, (alpha, ref_pts) ∈ obs_2 ->
     exists pts,
       CalibrationCameraSideWith2TargetYXZ.get_target_2_projected
         self alpha local_2 = Ok pts /\ ref_pts = np_rows pts) ->
  CalibrationCameraSideWith2TargetYXZ.fit_function self
    [focal_x; focal_y; pos_x; pos_y; rot_x; rot_z; angle_factor;
     t1x; t1y; t1z; t1rx; t1ry; t1rz; t2x; t2y; t2z; t2rx; t2ry; t2rz]
  = Ok 0.
Proof.
  cbv zeta. intros Hc Ht Hoa Ho1 Ho2 Hl1 Hl2 Hne1 Hne2 _ H1 H2.
  injection Hc as Hfx Hfy Hpx Hpy Hpz Hrx Hry Hrz Haf.
  injection Ht as Ht1x Ht1y Ht1z Ht1rx Ht1ry Ht1rz
                  Ht2x Ht2y Ht2z Ht2rx Ht2ry Ht2rz.
  unfold CalibrationCameraSideWith2TargetYXZ.fit_function,
    CalibrationCamera.origin_axis_of.
  rewrite Hpz, Hry, Hoa. cbn [num mbind result_bind].
  unfold CalibrationCameraSideWith2TargetYXZ.target_terms.
  rewrite Ho1, Ho2, Hl1, Hl2. cbn [attr mbind result_bind].
  rewrite for_each_zero; cycle 1.
  { intros [alpha ref_pts] Hin.
    destruct (H1 alpha ref_pts Hin) as (pts & Hproj & ->).
    unfold CalibrationCameraSideWith2TargetYXZ.get_target_1_projected,
      CalibrationCamera.get_camera_frame, CalibrationCamera.origin_axis_of,
      CalibrationCameraSideWith2TargetYXZ.target_frame_of,
      CalibrationCameraSideWith2TargetYXZ.projected in Hproj.
    rewrite Hpx, Hpy, Hpz, Hrx, Hry, Hrz, Hoa, Hfx, Hfy, Haf,
      Ht1x, Ht1y, Ht1z, Ht1rx, Ht1ry, Ht1rz in Hproj.
    cbn [num mbind result_bind] in Hproj. rewrite Hproj.
    cbn [mbind result_bind].
    rewrite residual_of_points_self
      by (by eapply (projected_rows _ _ _ _ _ local_1); [|exact Hproj]).
    cbn [mbind result_bind]. f_equal. lra. }
  cbn [mbind result_bind].
  apply for_each_zero.
  intros [alpha ref_pts] Hin.
  destruct (H2 alpha ref_pts Hin) as (pts & Hproj & ->).
  unfold CalibrationCameraSideWith2TargetYXZ.get_target_2_projected,
    CalibrationCamera.get_camera_frame, CalibrationCamera.origin_axis_of,
    CalibrationCameraSideWith2TargetYXZ.target_frame_of,
    CalibrationCameraSideWith2TargetYXZ.projected in Hproj.
  rewrite Hpx, Hpy, Hpz, Hrx, Hry, Hrz, Hoa, Hfx, Hfy, Haf,
    Ht2x, Ht2y, Ht2z, Ht2rx, Ht2ry, Ht2rz in Hproj.
  cbn [num mbind result_bind] in Hproj. rewrite Hproj.
  cbn [mbind result_bind].
  rewrite residual_of_points_self
    by (by eapply (projected_rows _ _ _ _ _ local_2); [|exact Hproj]).
  cbn [mbind result_bind]. f_equal. lra.
Qed.

Ltac eval_unit_side :=
  unfold CalibrationCamera.get_camera_frame,
    CalibrationCameraSideWith2TargetYXZ.target_frame_of,
    CalibrationCameraSideWith2TargetYXZ.projected;
  cbn [exact_side CalibrationCameraSideWith2TargetYXZ.base unit_camera
       CalibrationCamera._cam_pos_x
       CalibrationCamera._cam_pos_y CalibrationCamera._cam_pos_z
       CalibrationCamera._cam_rot_x CalibrationCamera._cam_rot_y
       CalibrationCamera._cam_rot_z CalibrationCamera._cam_origin_axis
       CalibrationCamera._angle_factor
       CalibrationCamera._cam_width_image CalibrationCamera._cam_height_image
       CalibrationCamera._cam_focal_length_x
       CalibrationCamera._cam_focal_length_y
       CalibrationCameraSideWith2TargetYXZ._target_1_pos_x
       CalibrationCameraSideWith2TargetYXZ._target_1_pos_y
       CalibrationCameraSideWith2TargetYXZ._target_1_pos_z
       CalibrationCameraSideWith2TargetYXZ._target_1_rot_x
       CalibrationCameraSideWith2TargetYXZ._target_1_rot_y
       CalibrationCameraSideWith2TargetYXZ._target_1_rot_z
       CalibrationCameraSideWith2TargetYXZ._target_2_pos_x
       CalibrationCameraSideWith2TargetYXZ._target_2_pos_y
       CalibrationCameraSideWith2TargetYXZ._target_2_pos_z
       CalibrationCameraSideWith2TargetYXZ._target_2_rot_x
       CalibrationCameraSideWith2TargetYXZ._target_2_rot_y
       CalibrationCameraSideWith2TargetYXZ._target_2_rot_z
       CalibrationCamera.origin_axis_of num mbind result_bind];
  rewrite camera_frame_identity, radians_0, target_frame_0;
  cbn [map mapM mbind result_bind mret result_ret];
  cbv [global_point local_point global_point1 local_point1 identity3
       CalibrationCamera.pixel_coordinates
       mat3_vec mat3_T vec3_add vec3_sub dot3 rot origin];
  do 2 f_equal; apply Pixel_eq; field.

Lemma projected_exact_side_1 :
  CalibrationCameraSideWith2TargetYXZ.get_target_1_projected
    exact_side 0 [(0, 0, 1)] = Ok [Pixel (1, 1)].
Proof.
  unfold CalibrationCameraSideWith2TargetYXZ.get_target_1_projected.
  eval_unit_side.
Qed.

Lemma projected_exact_side_2 :
  CalibrationCameraSideWith2TargetYXZ.get_target_2_projected
    exact_side 0 [(1, 0, 1)] = Ok [Pixel (2, 1)].
Proof.
  unfold CalibrationCameraSideWith2TargetYXZ.get_target_2_projected.
  eval_unit_side.
Qed.

Lemma side_fit_function_exact_witness :
  CalibrationCameraSideWith2TargetYXZ.fit_function exact_side
    [1; 1; 0; 0; 0; 0; 1; 0; 0; 0; 0; 0; 0; 0; 0; 0; 0; 0; 0] = Ok 0.
Proof.
  apply (side_fit_function_exact exact_side 1 1 0 0 0 0 0 0 1
           0 0 0 0 0 0 0 0 0 0 0 0 identity4
           [(0, [(1, 1)])] [(0, [(2, 1)])] [(0, 0, 1)] [(1, 0, 1)]);
    try reflexivity; try discriminate.
  - exact exact_side_depths.
  - intros alpha ref_pts Hin. apply list_elem_of_singleton in Hin.
    injection Hin as -> ->. exists [Pixel (1, 1)].
    split; [exact projected_exact_side_1|reflexivity].
  - intros alpha ref_pts Hin. apply list_elem_of_singleton in Hin.
    injection Hin as -> ->. exists [Pixel (2, 1)].
    split; [exact projected_exact_side_2|reflexivity].
Defined.

(* ===================================================================== *)
(** * Facts on the search for a point *)
(* ===================================================================== *)

Lemma norm_rows_self (p : R * R) : norm_rows [sub2 p p] = 0.
Proof.
  unfold norm_rows, sub2. cbn [map np_sum foldr fst snd].
  replace ((p.1 - p.1) * (p.1 - p.1) + (p.2 - p.2) * (p.2 - p.2) + 0) with 0
    by ring.
  apply sqrt_0.
Qed.

(** X7: the objective of [find_position_3d_points] is 0 at a point that
    has not the depth 0 in a view and whose pixel, for every view of a
    calibrated camera, is the pixel observed, where the pixel of a point is
    the one of the point turned about Z from its own x and y, as in
    [projection_spec]; the views of a camera that is not calibrated do not
    count. *)
Theorem find_position_fit_function_exact (pt2d : views)
    (calibrations : gmap string CalibrationCamera.t) (pos_x pos_y pos_z : R) :
  views_depths pt2d calibrations (pos_x, pos_y, pos_z) ->
  (forall id_camera of_camera angle observed calib,
     (id_camera, of_camera) ∈ pt2d -> (angle, observed) ∈ of_camera ->
     calibrations !! id_camera = Some calib ->
     projection_spec calib angle (pos_x, pos_y, pos_z) = Ok (Pixel observed)) ->
  find_position_3d_points.fit_function pt2d calibrations [pos_x; pos_y; pos_z]
  = Ok 0.
Proof.
  intros _ Hexact. unfold find_position_3d_points.fit_function.
  apply for_each_zero. intros [id_camera of_camera] Hcam.
  apply for_each_zero. intros [angle observed] Hview.
  destruct (calibrations !! id_camera) as [calib|] eqn:Hcalib; [|reflexivity].
  specialize (Hexact id_camera of_camera angle observed calib Hcam Hview Hcalib).
  unfold projection_spec in Hexact. unfold view_error.
  destruct (CalibrationCamera.get_camera_frame calib) as [fr_cam|];
    cbn [mbind result_bind] in *; [|discriminate Hexact].
  destruct (num (CalibrationCamera._angle_factor calib)) as [af|];
    cbn [mbind result_bind] in *; [|discriminate Hexact].
  destruct (num (CalibrationCamera._cam_width_image calib)) as [w|];
    cbn [mbind result_bind] in *; [|discriminate Hexact].
  destruct (num (CalibrationCamera._cam_height_image calib)) as [h|];
    cbn [mbind result_bind] in *; [|discriminate Hexact].
  destruct (num (CalibrationCamera._cam_focal_length_x calib)) as [fx|];
    cbn [mbind result_bind] in *; [|discriminate Hexact].
  destruct (num (CalibrationCamera._cam_focal_length_y calib)) as [fy|];
    cbn [mbind result_bind] in *; [|discriminate Hexact].
  rewrite pixel_coordinates_local_point in *. injection Hexact as ->.
  cbn [np_rows flat_map app map]. rewrite norm_rows_self. f_equal. lra.
Qed.

Lemma find_position_fit_function_exact_witness :
  find_position_3d_points.fit_function
    [("side", [(0, (1, 1))]); ("top", [(0, (7, 7))])]
    {["side" := unit_camera]} [0; 0; 1] = Ok 0.
Proof.
  apply (find_position_fit_function_exact
           [("side", [(0, (1, 1))]); ("top", [(0, (7, 7))])]
           {["side" := unit_camera]} 0 0 1).
  { apply unit_views_depths; [reflexivity|].
    intros id_camera of_camera angle observed Hcam Hview.
    apply elem_of_cons in Hcam as [Hcam|Hcam].
    - injection Hcam as -> ->.
      apply list_elem_of_singleton in Hview. by injection Hview as ->.
    - apply list_elem_of_singleton in Hcam. injection Hcam as -> ->.
      apply list_elem_of_singleton in Hview. by injection Hview as ->. }
  intros id_camera of_camera angle observed calib Hcam Hview Hcalib.
  apply elem_of_cons in Hcam as [Hcam|Hcam].
  - injection Hcam as -> ->.
    apply list_elem_of_singleton in Hview. injection Hview as -> ->.
    rewrite lookup_singleton_eq in Hcalib. injection Hcalib as <-.
    unfold projection_spec, CalibrationCamera.get_camera_frame.
    cbn [unit_camera CalibrationCamera._cam_pos_x CalibrationCamera._cam_pos_y
         CalibrationCamera._cam_pos_z CalibrationCamera._cam_rot_x
         CalibrationCamera._cam_rot_y CalibrationCamera._cam_rot_z
         CalibrationCamera._angle_factor CalibrationCamera._cam_origin_axis
         CalibrationCamera._cam_width_image
         CalibrationCamera._cam_height_image
         CalibrationCamera._cam_focal_length_x
         CalibrationCamera._cam_focal_length_y
         CalibrationCamera.origin_axis_of num mbind result_bind].
    rewrite camera_frame_identity, radians_0, cos_0, sin_0.
    f_equal.
    cbv [local_point local_point1 CalibrationCamera.pixel_coordinates
         mat3_vec mat3_T vec3_sub dot3 rot origin].
    apply Pixel_eq; field.
  - apply list_elem_of_singleton in Hcam. injection Hcam as -> ->.
    rewrite lookup_singleton_ne in Hcalib by discriminate.
    discriminate Hcalib.
Defined.

(* ===================================================================== *)
(** * Facts on the search for the soil *)
(* ===================================================================== *)

Lemma trig_minus_turns (a : R) (k : Z) :
  cos (a - IZR k * (PI * 2)) = cos a /\ sin (a - IZR k * (PI * 2)) = sin a.
Proof.
  destruct (Z_le_gt_dec 0 k) as [Hk|Hk].
  - rewrite <- (Z2Nat.id k Hk), <- INR_IZR_INZ.
    set (n := Z.to_nat k). set (x := a - INR n * (PI * 2)).
    rewrite <- (cos_period x n), <- (sin_period x n).
    by replace (x + 2 * INR n * PI) with a by (unfold x; ring).
  - assert (Hk' : (0 <= - k)%Z) by lia.
    replace (IZR k) with (- IZR (- k)) by (rewrite opp_IZR; ring).
    rewrite <- (Z2Nat.id (- k) Hk'), <- INR_IZR_INZ.
    set (n := Z.to_nat (- k)).
    replace (a - - INR n * (PI * 2)) with (a + 2 * INR n * PI) by ring.
    by rewrite cos_period, sin_period.
Qed.

Lemma rotation_matrix_py_mod (a : R) (d : vec3) :
  rotation_matrix (py_mod a (PI * 2)) d = rotation_matrix a d.
Proof.
  unfold rotation_matrix, py_mod.
  destruct (trig_minus_turns a (Zfloor (a / (PI * 2)))) as [-> ->].
  reflexivity.
Qed.

Lemma py_mod_turn_range (a : R) : 0 <= py_mod a (PI * 2) < 2 * PI.
Proof.
  replace (PI * 2) with (2 * PI) by ring. apply py_mod_range, two_pi_pos.
Qed.

(** X8: [find_position_3d_points_soil] starts the search from zeros, four
    for the soil and two for each point; in what it returns the three
    rotations of the soil are those found wrapped into [0, 2pi), the other
    parameters are those found, and the frame of the soil is the frame of
    the parameters found. *)
Theorem soil_run_wraps_rotations
    (basinhopping : (list R -> result R) -> list R -> result (list R))
    (pts : list views) (calibrations : gmap string CalibrationCamera.t)
    (parameters : list R) (sf : Frame) :
  find_position_3d_points_soil.run basinhopping pts calibrations
  = Ok (parameters, sf) ->
  exists pos_z rot_x rot_y rot_z others,
    basinhopping (find_position_3d_points_soil.fit_function pts calibrations)
      (replicate (4 + 2 * length pts) 0)
    = Ok (pos_z :: rot_x :: rot_y :: rot_z :: others) /\
    parameters = pos_z :: py_mod rot_x (PI * 2) :: py_mod rot_y (PI * 2)
                       :: py_mod rot_z (PI * 2) :: others /\
    Forall (fun r => 0 <= py_mod r (PI * 2) < 2 * PI) [rot_x; rot_y; rot_z] /\
    sf = find_position_3d_points_soil.soil_frame 0 0 pos_z rot_x rot_y rot_z.
Proof.
  unfold find_position_3d_points_soil.run. cbv zeta.
  change ([0; 0; 0; 0] ++ replicate (2 * length pts) 0)
    with (replicate (4 + 2 * length pts) 0).
  destruct (basinhopping _ _) as [found|]; cbn [mbind result_bind];
    [|discriminate].
  destruct found as [|pos_z [|rot_x [|rot_y [|rot_z others]]]];
    try discriminate.
  cbn [for_each wrap_index list_getitem lookup list_lookup mbind result_bind
       list_insert insert].
  intros [= <- <-].
  exists pos_z, rot_x, rot_y, rot_z, others.
  split; [reflexivity|]. split; [reflexivity|]. split.
  - repeat (apply List.Forall_cons; [apply py_mod_turn_range|]).
    apply List.Forall_nil.
  - unfold find_position_3d_points_soil.soil_frame.
    by rewrite !rotation_matrix_py_mod.
Qed.

Lemma soil_run_wraps_rotations_witness :
  exists parameters sf pos_z rot_x rot_y rot_z others,
    find_position_3d_points_soil.run found_soil
      [[("side", [(0, (1, 1))])]] {["side" := unit_camera]}
    = Ok (parameters, sf) /\
    parameters = pos_z :: py_mod rot_x (PI * 2) :: py_mod rot_y (PI * 2)
                       :: py_mod rot_z (PI * 2) :: others /\
    Forall (fun r => 0 <= py_mod r (PI * 2) < 2 * PI) [rot_x; rot_y; rot_z] /\
    sf = find_position_3d_points_soil.soil_frame 0 0 pos_z rot_x rot_y rot_z.
Proof.
  assert (exists r,
            find_position_3d_points_soil.run found_soil
              [[("side", [(0, (1, 1))])]] {["side" := unit_camera]} = Ok r)
    as [[parameters sf] E] by (eexists; reflexivity).
  destruct (soil_run_wraps_rotations found_soil _ _ _ _ E)
    as (pos_z & rot_x & rot_y & rot_z & others & _ & Hp & Hr & Hsf).
  exists parameters, sf, pos_z, rot_x, rot_y, rot_z, others.
  split; [exact E|]. split; [exact Hp|]. split; [exact Hr|exact Hsf].
Defined.

(* ===================================================================== *)
(** * More facts on the search and on [calibrate] *)
(* ===================================================================== *)

Lemma camera_frame_py_mod (pos_x pos_y pos_z rot_x rot_y rot_z : R)
    (origin_axis : mat4) :
  CalibrationCamera.camera_frame pos_x pos_y pos_z
    (py_mod rot_x (PI * 2)) (py_mod rot_y (PI * 2)) (py_mod rot_z (PI * 2))
    origin_axis
  = CalibrationCamera.camera_frame pos_x pos_y pos_z rot_x rot_y rot_z
      origin_axis.
Proof.
  unfold CalibrationCamera.camera_frame.
  by rewrite !rotation_matrix_py_mod.
Qed.

Lemma top_fit_function_py_mod (self : CalibrationCameraTop.t)
    (p0 p1 p2 p3 p4 p5 p6 p7 : R) :
  CalibrationCameraTop.fit_function self
    [p0; p1; p2; p3; p4;
     py_mod p5 (PI * 2); py_mod p6 (PI * 2); py_mod p7 (PI * 2)]
  = CalibrationCameraTop.fit_function self [p0; p1; p2; p3; p4; p5; p6; p7].
Proof.
  unfold CalibrationCameraTop.fit_function.
  destruct (CalibrationCamera.origin_axis_of _) as [origin_axis|];
    cbn [mbind result_bind]; [|reflexivity].
  by rewrite camera_frame_py_mod.
Qed.

(** X9: the objective of [CalibrationCameraTop] has the same value, or
    raises the same exception, at a parameter vector and at the vector
    whose entries 5, 6 and 7, the rotations of the camera, are wrapped into
    [0, 2pi) as [calibrate] wraps them. *)
Theorem top_wrap_keeps_objective (self : CalibrationCameraTop.t)
    (x0 x1 : list R) :
  for_each wrap_index [5; 6; 7]%nat x0 = Ok x1 ->
  CalibrationCameraTop.fit_function self x1
  = CalibrationCameraTop.fit_function self x0.
Proof.
  intros H.
  do 8 (destruct x0 as [|? x0]; [discriminate H|]).
  cbn [for_each wrap_index list_getitem lookup list_lookup mbind result_bind
       list_insert insert] in H.
  injection H as <-.
  destruct x0 as [|? x0]; [|reflexivity].
  apply top_fit_function_py_mod.
Qed.

Lemma top_wrap_keeps_objective_witness :
  exists x1,
    for_each wrap_index [5; 6; 7]%nat [1; 1; 0; 0; 5; 7; -1; 0] = Ok x1 /\
    CalibrationCameraTop.fit_function sample_top x1
    = CalibrationCameraTop.fit_function sample_top [1; 1; 0; 0; 5; 7; -1; 0].
Proof.
  assert (exists x1,
            for_each wrap_index [5; 6; 7]%nat [1; 1; 0; 0; 5; 7; -1; 0]
            = Ok x1) as [x1 E] by (eexists; reflexivity).
  exists x1. split; [exact E|].
  exact (top_wrap_keeps_objective sample_top _ x1 E).
Defined.

(** X10: when [calibrate] of [CalibrationCameraTop] returns, there is at
    least one image, and the error returned is the objective at the
    parameters that the search returned, as the optimizer found them,
    divided by the number of images; it is not negative. *)
Theorem top_calibrate_error
    (minimize : (list R -> result R) -> list R -> result (list R))
    (random_sample : nat -> R) (self self' : CalibrationCameraTop.t)
    (ref_2d : list (list (R * R))) (ref_3d : list (list vec3))
    (size_image : R * R) (angle_factor err : R) (n pos : nat) :
  CalibrationCameraTop.calibrate minimize random_sample self
    ref_2d ref_3d size_image angle_factor n pos = Ok (self', err) ->
  exists best e,
    CalibrationCameraTop.find_parameters minimize random_sample
      (CalibrationCameraTop.prepare self ref_2d ref_3d size_image angle_factor)
      n pos = Ok (Some best) /\
    CalibrationCameraTop.fit_function
      (CalibrationCameraTop.prepare self ref_2d ref_3d size_image angle_factor)
      best = Ok e /\
    ref_2d <> [] /\
    err = e / INR (length ref_2d) /\
    0 <= err.
Proof.
  unfold CalibrationCameraTop.calibrate. cbv zeta.
  set (self0 := CalibrationCameraTop.prepare self ref_2d ref_3d size_image
                  angle_factor).
  destruct (CalibrationCameraTop.find_parameters minimize random_sample
              self0 n pos) as [[best|]|ex] eqn:Hfind;
    cbn [mbind result_bind attr]; try discriminate.
  intros H.
  destruct best as [|p0 [|p1 [|p2 [|p3 [|p4 [|p5 [|p6 [|p7 [|p8 best]]]]]]]]];
    try (cbn in H; discriminate H).
  cbn [for_each wrap_index list_getitem lookup list_lookup mbind result_bind
       list_insert insert] in H.
  match type of H with
  | mbind _ (CalibrationCameraTop.fit_function ?s ?x) = _ =>
      change (CalibrationCameraTop.fit_function s x)
        with (CalibrationCameraTop.fit_function self0 x) in H
  end.
  rewrite top_fit_function_py_mod in H.
  destruct (CalibrationCameraTop.fit_function self0 _) as [e|] eqn:Hfit;
    cbn [mbind result_bind] in H; [|discriminate H].
  destruct (decide (length ref_2d = 0%nat)) as [|Hn]; [discriminate H|].
  injection H as _ <-.
  exists [p0; p1; p2; p3; p4; p5; p6; p7], e.
  split; [reflexivity|]. split; [exact Hfit|].
  split; [by destruct ref_2d|]. split; [reflexivity|].
  apply top_fit_function_nonneg in Hfit.
  assert (0 < INR (length ref_2d)) by (apply lt_0_INR; lia).
  apply Rmult_le_reg_r with (r := INR (length ref_2d)); [assumption|].
  replace (e / INR (length ref_2d) * INR (length ref_2d)) with e
    by (field; lra).
  lra.
Qed.

Lemma top_calibrate_error_witness :
  exists self' err best e,
    CalibrationCameraTop.calibrate lazy_minimize sample_stream
      CalibrationCameraTop.init [[(1, 1)]] [[(0, 0, 0)]] (2, 2) 1 0 0
    = Ok (self', err) /\
    CalibrationCameraTop.find_parameters lazy_minimize sample_stream
      (CalibrationCameraTop.prepare CalibrationCameraTop.init
         [[(1, 1)]] [[(0, 0, 0)]] (2, 2) 1) 0 0 = Ok (Some best) /\
    CalibrationCameraTop.fit_function
      (CalibrationCameraTop.prepare CalibrationCameraTop.init
         [[(1, 1)]] [[(0, 0, 0)]] (2, 2) 1) best = Ok e /\
    [[(1, 1)]] <> ([] : list (list (R * R))) /\
    err = e / INR (length [[(1, 1)]]) /\
    0 <= err.
Proof.
  assert (exists r,
            CalibrationCameraTop.calibrate lazy_minimize sample_stream
              CalibrationCameraTop.init [[(1, 1)]] [[(0, 0, 0)]] (2, 2) 1 0 0
            = Ok r) as [[self' err] E] by (eexists; reflexivity).
  destruct (top_calibrate_error _ _ _ _ _ _ _ _ _ _ _ E)
    as (best & e & H).
  exists self', err, best, e. split; [exact E|exact H].
Defined.

(** X11: when the random numbers drawn are in [0, 1), the first guess of an
    attempt of [find_parameters] of [CalibrationCameraSideWith2TargetYXZ]
    has 19 entries and draws 7 numbers: the focal lengths are in
    [1000, 10000), the camera is at x = 0 and y in [-10000, -1000), its
    rotations are 0 and the angle factor is 1; target 1 is in
    [-1000, 1000) on each axis, target 2 is opposite to it in x and y and in
    [-1000, 1000) in z, and the rotations of both targets are 0. *)
Theorem side_initial_guess_shape (random_sample : nat -> R) (pos : nat) :
  (forall k, (pos <= k < pos + 7)%nat -> 0 <= random_sample k < 1) ->
  exists focal_x focal_y cam_y t1_x t1_y t1_z t2_z,
    CalibrationCameraSideWith2TargetYXZ.initial_guess random_sample pos
    = ([focal_x; focal_y; 0; cam_y; 0; 0; 1;
        t1_x; t1_y; t1_z; 0; 0; 0;
        - t1_x; - t1_y; t2_z; 0; 0; 0], (pos + 7)%nat) /\
    1000 <= focal_x < 10000 /\ 1000 <= focal_y < 10000 /\
    -10000 <= cam_y < -1000 /\
    Forall (fun v => -1000 <= v < 1000) [t1_x; t1_y; t1_z; t2_z].
Proof.
  intros Hu.
  unfold CalibrationCameraSideWith2TargetYXZ.initial_guess, uniform.
  do 7 eexists. split.
  { do 2 f_equal. lia. }
  pose proof (Hu pos ltac:(lia)).
  pose proof (Hu (S pos) ltac:(lia)).
  pose proof (Hu (S (S pos)) ltac:(lia)).
  pose proof (Hu (S (S (S pos))) ltac:(lia)).
  pose proof (Hu (S (S (S (S pos)))) ltac:(lia)).
  pose proof (Hu (S (S (S (S (S pos))))) ltac:(lia)).
  pose proof (Hu (S (S (S (S (S (S pos)))))) ltac:(lia)).
  split; [lra|]. split; [lra|]. split; [lra|].
  repeat (apply List.Forall_cons; [lra|]). apply List.Forall_nil.
Qed.

Lemma sample_stream_range (k : nat) :
  (k < 100)%nat -> 0 <= sample_stream k < 1.
Proof.
  intros Hk. unfold sample_stream.
  pose proof (pos_INR k). apply lt_INR in Hk.
  rewrite (INR_IZR_INZ 100) in Hk. change (Z.of_nat 100) with 100%Z in Hk.
  lra.
Qed.

Lemma side_initial_guess_shape_witness :
  exists focal_x focal_y cam_y t1_x t1_y t1_z t2_z,
    CalibrationCameraSideWith2TargetYXZ.initial_guess sample_stream 0
    = ([focal_x; focal_y; 0; cam_y; 0; 0; 1;
        t1_x; t1_y; t1_z; 0; 0; 0;
        - t1_x; - t1_y; t2_z; 0; 0; 0], (0 + 7)%nat) /\
    1000 <= focal_x < 10000 /\ 1000 <= focal_y < 10000 /\
    -10000 <= cam_y < -1000 /\
    Forall (fun v => -1000 <= v < 1000) [t1_x; t1_y; t1_z; t2_z].
Proof.
  apply (side_initial_guess_shape sample_stream 0).
  intros k Hk. apply sample_stream_range. lia.
Defined.

(** X12: [find_parameters] of [CalibrationCameraSideWith2TargetYXZ] runs
    the optimizer number_of_repetition + 1 times, each time from a first
    guess newly drawn, and returns one of the results, whose objective
    value is at most that of every result; this when every attempt
    converges to a point where the objective has a value and no corner has
    the depth 0 (the objective is then a number). *)
Theorem side_find_parameters_keeps_best
    (minimize : (list R -> result R) -> list R -> result (list R))
    (random_sample : nat -> R)
    (self : CalibrationCameraSideWith2TargetYXZ.t)
    (number_of_repetition pos : nat) :
  (forall k, exists p e,
     minimize (CalibrationCameraSideWith2TargetYXZ.fit_function self)
       (CalibrationCameraSideWith2TargetYXZ.initial_guess random_sample k).1
     = Ok p /\
     CalibrationCameraSideWith2TargetYXZ.fit_function self p = Ok e /\
     side_depths self p) ->
  exists results best err,
    mapM (minimize (CalibrationCameraSideWith2TargetYXZ.fit_function self))
         (starts (CalibrationCameraSideWith2TargetYXZ.initial_guess
                    random_sample)
                 (number_of_repetition + 1) pos) = Ok results /\
    length results = (number_of_repetition + 1)%nat /\
    CalibrationCameraSideWith2TargetYXZ.find_parameters minimize random_sample
      self number_of_repetition pos = Ok (Some best) /\
    best ∈ results /\
    CalibrationCameraSideWith2TargetYXZ.fit_function self best = Ok err /\
    forall p, p ∈ results ->
      exists e, CalibrationCameraSideWith2TargetYXZ.fit_function self p = Ok e
                /\ err <= e.
Proof.
  intros Hconv.
  destruct (search_parameters_best minimize
              (CalibrationCameraSideWith2TargetYXZ.fit_function self)
              (CalibrationCameraSideWith2TargetYXZ.initial_guess random_sample))
    with (number_of_repetition := number_of_repetition) (pos := pos)
    as (results & st & best & err & Hres & Hlen & Hrun & Hbest & Hin
        & Hfit & Hall).
  { intros k. destruct (Hconv k) as (p & e & Hmin & He & _). by exists p, e. }
  exists results, best, err.
  unfold CalibrationCameraSideWith2TargetYXZ.find_parameters.
  rewrite Hrun. cbn [mbind result_bind]. rewrite Hbest.
  repeat split; try done.
Qed.

Lemma side_find_parameters_keeps_best_witness :
  exists results best err,
    mapM (found exact_side_vector
            (CalibrationCameraSideWith2TargetYXZ.fit_function exact_side))
         (starts (CalibrationCameraSideWith2TargetYXZ.initial_guess
                    sample_stream) (2 + 1) 0) = Ok results /\
    length results = (2 + 1)%nat /\
    CalibrationCameraSideWith2TargetYXZ.find_parameters
      (found exact_side_vector) sample_stream exact_side 2 0
    = Ok (Some best) /\
    best ∈ results /\
    CalibrationCameraSideWith2TargetYXZ.fit_function exact_side best = Ok err /\
    forall p, p ∈ results ->
      exists e, CalibrationCameraSideWith2TargetYXZ.fit_function exact_side p
                = Ok e /\ err <= e.
Proof.
  apply (side_find_parameters_keeps_best (found exact_side_vector)
           sample_stream exact_side 2 0).
  intros k. eexists. eexists. split; [reflexivity|].
  split; [reflexivity|exact exact_side_depths].
Defined.

(** X13: [find_parameters] of [Calibration] runs the optimizer
    number_of_repetition + 1 times, each time from a first guess newly
    drawn, and returns one of the results, whose objective value is at most
    that of every result; this when every attempt converges to a point
    where the objective has a value and no corner has the depth 0 (the
    objective is then a number). *)
Theorem rig_find_parameters_keeps_best
    (minimize : (list R -> result R) -> list R -> result (list R))
    (random_sample : nat -> R) (self : Calibration.t)
    (number_of_repetition pos : nat) :
  (forall k, exists p e,
     minimize (Calibration.fit_function self)
       (Calibration.initial_guess random_sample self k).1 = Ok p /\
     Calibration.fit_function self p = Ok e /\
     rig_depths self p) ->
  exists results best err,
    mapM (minimize (Calibration.fit_function self))
         (starts (Calibration.initial_guess random_sample self)
                 (number_of_repetition + 1) pos) = Ok results /\
    length results = (number_of_repetition + 1)%nat /\
    Calibration.find_parameters minimize random_sample
      self number_of_repetition pos = Ok (Some best) /\
    best ∈ results /\
    Calibration.fit_function self best = Ok err /\
    forall p, p ∈ results ->
      exists e, Calibration.fit_function self p = Ok e /\ err <= e.
Proof.
  intros Hconv.
  destruct (search_parameters_best minimize
              (Calibration.fit_function self)
              (Calibration.initial_guess random_sample self))
    with (number_of_repetition := number_of_repetition) (pos := pos)
    as (results & st & best & err & Hres & Hlen & Hrun & Hbest & Hin
        & Hfit & Hall).
  { intros k. destruct (Hconv k) as (p & e & Hmin & He & _). by exists p, e. }
  exists results, best, err.
  unfold Calibration.find_parameters.
  rewrite Hrun. cbn [mbind result_bind]. rewrite Hbest.
  repeat split; try done.
Qed.

Lemma rig_find_parameters_keeps_best_witness :
  exists results best err,
    mapM (found one_target_vector (Calibration.fit_function one_target_rig))
         (starts (Calibration.initial_guess sample_stream one_target_rig)
                 (2 + 1) 0) = Ok results /\
    length results = (2 + 1)%nat /\
    Calibration.find_parameters (found one_target_vector) sample_stream
      one_target_rig 2 0 = Ok (Some best) /\
    best ∈ results /\
    Calibration.fit_function one_target_rig best = Ok err /\
    forall p, p ∈ results ->
      exists e, Calibration.fit_function one_target_rig p = Ok e /\ err <= e.
Proof.
  apply (rig_find_parameters_keeps_best (found one_target_vector)
           sample_stream one_target_rig 2 0).
  intros k. eexists. eexists. split; [reflexivity|].
  split; [reflexivity|exact one_target_rig_depths].
Defined.

(* ===================================================================== *)
(** * More facts on persistence *)
(* ===================================================================== *)

Lemma load_camera_rounded (float32 : R -> R) (fs : files) (filename : string)
    (d : gmap string json) (c : CalibrationCamera.t) (m : mat4) :
  fs !! filename = Some (JDict d) ->
  holds_camera d c m ->
  CalibrationCamera.load float32 fs filename
  = Ok (CalibrationCamera.mk
          (CalibrationCamera._cam_width_image c)
          (CalibrationCamera._cam_height_image c)
          (CalibrationCamera._cam_focal_length_x c)
          (CalibrationCamera._cam_focal_length_y c)
          (CalibrationCamera._cam_pos_x c)
          (CalibrationCamera._cam_pos_y c)
          (CalibrationCamera._cam_pos_z c)
          (CalibrationCamera._cam_rot_x c)
          (CalibrationCamera._cam_rot_y c)
          (CalibrationCamera._cam_rot_z c)
          (CalibrationCamera._angle_factor c)
          (Some (mat4_map float32 m))).
Proof.
  intros Hfile H. unfold holds_camera in H.
  repeat match goal with H : _ /\ _ |- _ => destruct H end.
  unfold CalibrationCamera.load, json_load. rewrite Hfile.
  cbn [mbind result_bind]. rewrite !getitem_dict.
  repeat match goal with H : d !! _ = Some _ |- _ => rewrite H; clear H end.
  cbn [mbind result_bind]. unfold CalibrationCamera.load_origin_axis.
  rewrite np_array_numbers. cbn [mbind result_bind].
  rewrite reshape44_reshape16. reflexivity.
Qed.

(** X14: [dump] of a camera whose origin axis is set writes the file and
    leaves every other file as it was; [load] of that file returns the
    camera with every attribute as it was, but for the origin axis, whose
    entries are rounded to single precision. *)
Theorem camera_dump_load_rounds_axis (float32 : R -> R) (fs : files)
    (filename : string) (c : CalibrationCamera.t) (m : mat4) :
  CalibrationCamera._cam_origin_axis c = Some m ->
  exists fs',
    CalibrationCamera.dump c fs filename = Ok fs' /\
    (forall other, other <> filename -> fs' !! other = fs !! other) /\
    CalibrationCamera.load float32 fs' filename
    = Ok (CalibrationCamera.mk
            (CalibrationCamera._cam_width_image c)
            (CalibrationCamera._cam_height_image c)
            (CalibrationCamera._cam_focal_length_x c)
            (CalibrationCamera._cam_focal_length_y c)
            (CalibrationCamera._cam_pos_x c)
            (CalibrationCamera._cam_pos_y c)
            (CalibrationCamera._cam_pos_z c)
            (CalibrationCamera._cam_rot_x c)
            (CalibrationCamera._cam_rot_y c)
            (CalibrationCamera._cam_rot_z c)
            (CalibrationCamera._angle_factor c)
            (Some (mat4_map float32 m))).
Proof.
  intros Hc. unfold CalibrationCamera.dump.
  destruct (save_camera_holds c m Hc) as (d & -> & Hd).
  cbn [mbind result_bind]. eexists. split; [reflexivity|]. split.
  - intros other Hother. unfold json_dump. by rewrite lookup_insert_ne.
  - apply (load_camera_rounded float32 _ _ d c m);
      [apply lookup_insert_eq|exact Hd].
Qed.

Lemma camera_dump_load_rounds_axis_witness :
  exists fs',
    CalibrationCamera.dump unit_camera {["other.json" := JNull]} "camera.json"
    = Ok fs' /\
    (forall other, other <> "camera.json" ->
       fs' !! other = ({["other.json" := JNull]} : files) !! other) /\
    CalibrationCamera.load (fun x => x / 2) fs' "camera.json"
    = Ok (CalibrationCamera.mk (JNum 2) (JNum 2) (JNum 1) (JNum 1)
            (JNum 0) (JNum 0) (JNum 0) (JNum 0) (JNum 0) (JNum 0) (JNum 1)
            (Some (mat4_map (fun x => x / 2) identity4))).
Proof.
  apply (camera_dump_load_rounds_axis (fun x => x / 2)
           {["other.json" := JNull]} "camera.json" unit_camera identity4).
  reflexivity.
Defined.

(** X15: a file written by [dump] of [CalibrationCameraSideWith2TargetYXZ]
    or of [Calibration] is read by [load] of [CalibrationCamera] and by
    [load] of [CalibrationCameraTop], which return the camera of the object
    written, its origin axis rounded to single precision. *)
Theorem load_reads_camera_of_every_dump (float32 : R -> R) (fs : files)
    (filename : string) (m : mat4) :
  (forall c : CalibrationCameraSideWith2TargetYXZ.t,
     CalibrationCamera._cam_origin_axis
       (CalibrationCameraSideWith2TargetYXZ.base c) = Some m ->
     exists fs' camera,
       CalibrationCameraSideWith2TargetYXZ.dump c fs filename = Ok fs' /\
       CalibrationCamera.load float32 fs' filename = Ok camera /\
       CalibrationCameraTop.load float32 fs' filename
       = Ok (CalibrationCameraTop.mk camera None None None None) /\
       holds_camera_but_axis camera (CalibrationCameraSideWith2TargetYXZ.base c)
       /\ CalibrationCamera._cam_origin_axis camera
          = Some (mat4_map float32 m)) /\
  (forall c : Calibration.t,
     CalibrationCamera._cam_origin_axis (Calibration.base c) = Some m ->
     exists fs' camera,
       Calibration.dump c fs filename = Ok fs' /\
       CalibrationCamera.load float32 fs' filename = Ok camera /\
       CalibrationCameraTop.load float32 fs' filename
       = Ok (CalibrationCameraTop.mk camera None None None None) /\
       holds_camera_but_axis camera (Calibration.base c) /\
       CalibrationCamera._cam_origin_axis camera
       = Some (mat4_map float32 m)).
Proof.
  split.
  - intros c Hc. unfold CalibrationCameraSideWith2TargetYXZ.dump.
    destruct (save_camera_holds _ m Hc) as (d & -> & Hd).
    cbn [mbind result_bind]. eexists. eexists.
    split; [reflexivity|].
    unfold CalibrationCameraTop.load.
    erewrite (load_camera_rounded float32 _ _ _ _ m);
      [ | apply lookup_insert_eq
        | repeat (apply holds_camera_insert; [not_required|]); exact Hd ].
    split; [reflexivity|]. split; [reflexivity|].
    split; [|reflexivity]. unfold holds_camera_but_axis. repeat split.
  - intros c Hc. unfold Calibration.dump.
    destruct (save_camera_holds _ m Hc) as (d & -> & Hd).
    cbn [mbind result_bind]. eexists. eexists.
    split; [reflexivity|].
    unfold CalibrationCameraTop.load.
    erewrite (load_camera_rounded float32 _ _ _ _ m);
      [ | apply lookup_insert_eq
        | apply holds_camera_insert; [not_required|]; exact Hd ].
    split; [reflexivity|]. split; [reflexivity|].
    split; [|reflexivity]. unfold holds_camera_but_axis. repeat split.
Qed.

Lemma load_reads_camera_of_every_dump_witness :
  (exists fs' camera,
     CalibrationCameraSideWith2TargetYXZ.dump sample_side ∅ "side.json"
     = Ok fs' /\
     CalibrationCamera.load to_integer fs' "side.json" = Ok camera /\
     CalibrationCamera._cam_origin_axis camera
     = Some (mat4_map to_integer identity4)) /\
  (exists fs' camera,
     Calibration.dump sample_rig ∅ "side.json" = Ok fs' /\
     CalibrationCamera.load to_integer fs' "side.json" = Ok camera /\
     CalibrationCamera._cam_origin_axis camera
     = Some (mat4_map to_integer identity4)).
Proof.
  destruct (load_reads_camera_of_every_dump to_integer ∅ "side.json" identity4)
    as [Hside Hrig].
  split.
  - destruct (Hside sample_side eq_refl) as (fs' & camera & Hd & Hl & _ & _ & Ha).
    by exists fs', camera.
  - destruct (Hrig sample_rig eq_refl) as (fs' & camera & Hd & Hl & _ & _ & Ha).
    by exists fs', camera.
Defined.

Lemma save_camera_keys (c : CalibrationCamera.t) (d : gmap string json)
    (key : string) :
  CalibrationCamera.save_camera c ∅ = Ok d ->
  key ∉ required_keys -> d !! key = None.
Proof.
  unfold CalibrationCamera.save_camera. intros H Hkey.
  destruct (CalibrationCamera._cam_origin_axis c); [|discriminate H].
  apply Ok_inj in H. subst d.
  repeat (rewrite lookup_insert_ne;
          [|intros <-; apply Hkey; unfold required_keys; in_list]).
  apply lookup_empty.
Qed.

(** X16: a file written by [dump] of one class does not load as an object
    of a class that keeps its targets otherwise.  [load] of
    [CalibrationCameraSideWith2TargetYXZ] raises KeyError('target_1_pos_x')
    on a file written by [dump] of [CalibrationCamera] (which
    [CalibrationCameraTop] inherits) or of [Calibration]; [load] of
    [Calibration] raises KeyError('targets_parameters') on a file written
    by [dump] of [CalibrationCamera] or of
    [CalibrationCameraSideWith2TargetYXZ]. *)
Theorem load_of_other_class_key_error (float32 : R -> R) (fs : files)
    (filename : string) (m : mat4) :
  (forall c : CalibrationCamera.t,
     CalibrationCamera._cam_origin_axis c = Some m ->
     exists fs',
       CalibrationCamera.dump c fs filename = Ok fs' /\
       CalibrationCameraSideWith2TargetYXZ.load float32 fs' filename
       = Raise (KeyError "target_1_pos_x") /\
       Calibration.load float32 fs' filename
       = Raise (KeyError "targets_parameters")) /\
  (forall c : CalibrationCameraSideWith2TargetYXZ.t,
     CalibrationCamera._cam_origin_axis
       (CalibrationCameraSideWith2TargetYXZ.base c) = Some m ->
     exists fs',
       CalibrationCameraSideWith2TargetYXZ.dump c fs filename = Ok fs' /\
       Calibration.load float32 fs' filename
       = Raise (KeyError "targets_parameters")) /\
  (forall c : Calibration.t,
     CalibrationCamera._cam_origin_axis (Calibration.base c) = Some m ->
     exists fs',
       Calibration.dump c fs filename = Ok fs' /\
       CalibrationCameraSideWith2TargetYXZ.load float32 fs' filename
       = Raise (KeyError "target_1_pos_x")).
Proof.
  split; [|split].
  - intros c Hc. unfold CalibrationCamera.dump.
    destruct (save_camera_holds c m Hc) as (d & Hsave & Hd).
    rewrite Hsave. cbn [mbind result_bind]. eexists.
    split; [reflexivity|]. split.
    + unfold CalibrationCameraSideWith2TargetYXZ.load.
      erewrite (load_camera_rounded float32 _ _ _ _ m);
        [ | apply lookup_insert_eq | exact Hd ].
      cbn [mbind result_bind]. rewrite json_load_dump.
      cbn [mbind result_bind]. rewrite (getitem_dict d "target_1_pos_x").
      rewrite (save_camera_keys c d "target_1_pos_x" Hsave) by not_required.
      reflexivity.
    + unfold Calibration.load. rewrite json_load_dump.
      cbn [mbind result_bind]. rewrite getitem_dict.
      rewrite (save_camera_keys c d _ Hsave) by not_required.
      reflexivity.
  - intros c Hc. unfold CalibrationCameraSideWith2TargetYXZ.dump.
    destruct (save_camera_holds _ m Hc) as (d & Hsave & Hd).
    rewrite Hsave. cbn [mbind result_bind]. eexists.
    split; [reflexivity|].
    unfold Calibration.load. rewrite json_load_dump.
    cbn [mbind result_bind]. rewrite getitem_dict.
    rewrite !lookup_insert_ne by discriminate.
    rewrite (save_camera_keys _ d _ Hsave) by not_required.
    reflexivity.
  - intros c Hc. unfold Calibration.dump.
    destruct (save_camera_holds _ m Hc) as (d & Hsave & Hd).
    rewrite Hsave. cbn [mbind result_bind]. eexists.
    split; [reflexivity|].
    unfold CalibrationCameraSideWith2TargetYXZ.load.
    erewrite (load_camera_rounded float32 _ _ _ _ m);
      [ | apply lookup_insert_eq
        | apply holds_camera_insert; [not_required|]; exact Hd ].
    cbn [mbind result_bind]. rewrite json_load_dump.
    cbn [mbind result_bind]. rewrite (getitem_dict _ "target_1_pos_x").
    rewrite lookup_insert_ne by discriminate.
    rewrite (save_camera_keys _ d "target_1_pos_x" Hsave) by not_required.
    reflexivity.
Qed.

Lemma load_of_other_class_key_error_witness :
  (exists fs',
     CalibrationCamera.dump unit_camera ∅ "camera.json" = Ok fs' /\
     CalibrationCameraSideWith2TargetYXZ.load to_integer fs' "camera.json"
     = Raise (KeyError "target_1_pos_x") /\
     Calibration.load to_integer fs' "camera.json"
     = Raise (KeyError "targets_parameters")) /\
  (exists fs',
     CalibrationCameraSideWith2TargetYXZ.dump sample_side ∅ "camera.json"
     = Ok fs' /\
     Calibration.load to_integer fs' "camera.json"
     = Raise (KeyError "targets_parameters")) /\
  (exists fs',
     Calibration.dump sample_rig ∅ "camera.json" = Ok fs' /\
     CalibrationCameraSideWith2TargetYXZ.load to_integer fs' "camera.json"
     = Raise (KeyError "target_1_pos_x")).
Proof.
  destruct (load_of_other_class_key_error to_integer ∅ "camera.json" identity4)
    as (Hcamera & Hside & Hrig).
  split; [|split].
  - exact (Hcamera unit_camera eq_refl).
  - exact (Hside sample_side eq_refl).
  - exact (Hrig sample_rig eq_refl).
Defined.

(** X17: a record that has the eleven scalar keys and whose origin axis is
    a list of numbers whose length is not 16 does not load: [load] of
    [CalibrationCamera] and [load] of [CalibrationCameraTop] raise
    ValueError. *)
Theorem load_origin_axis_length (float32 : R -> R) (fs : files)
    (filename : string) (d : gmap string json) (axis : list R) :
  fs !! filename = Some (JDict d) ->
  (forall key, key ∈ required_keys -> is_Some (d !! key)) ->
  d !! "cam_origin_axis" = Some (JList (map JNum axis)) ->
  length axis <> 16%nat ->
  CalibrationCamera.load float32 fs filename = Raise ValueError /\
  CalibrationCameraTop.load float32 fs filename = Raise ValueError.
Proof.
  intros Hfile Hkeys Haxis Hlen.
  assert (CalibrationCamera.load float32 fs filename = Raise ValueError) as H.
  { unfold CalibrationCamera.load, json_load. rewrite Hfile.
    cbn [mbind result_bind]. rewrite !getitem_dict.
    repeat match goal with
           | |- context [d !! ?key] =>
               lazymatch key with
               | "cam_origin_axis" => fail
               | _ =>
                   let v := fresh "v" in
                   let Hv := fresh "Hv" in
                   destruct (Hkeys key) as [v Hv];
                   [unfold required_keys; in_list|];
                   rewrite Hv; clear Hv; cbn [mbind result_bind]
               end
           end.
    rewrite Haxis. cbn [mbind result_bind].
    unfold CalibrationCamera.load_origin_axis.
    rewrite np_array_numbers. cbn [mbind result_bind].
    do 17 (destruct axis as [|? axis]; try reflexivity).
    - by exfalso.
  }
  split; [exact H|]. unfold CalibrationCameraTop.load. by rewrite H.
Qed.

Lemma load_origin_axis_length_witness :
  CalibrationCamera.load (fun x => x)
    {["camera.json" :=
        JDict (<["cam_pos_z" := JNum 0]>
                 (<["cam_origin_axis" := JList (map JNum [1; 0; 0; 1])]>
                    record_without_pos_z))]} "camera.json"
  = Raise ValueError /\
  CalibrationCameraTop.load (fun x => x)
    {["camera.json" :=
        JDict (<["cam_pos_z" := JNum 0]>
                 (<["cam_origin_axis" := JList (map JNum [1; 0; 0; 1])]>
                    record_without_pos_z))]} "camera.json"
  = Raise ValueError.
Proof.
  apply (load_origin_axis_length (fun x => x) _ "camera.json"
           (<["cam_pos_z" := JNum 0]>
              (<["cam_origin_axis" := JList (map JNum [1; 0; 0; 1])]>
                 record_without_pos_z)) [1; 0; 0; 1]).
  - apply lookup_singleton_eq.
  - intros key Hkey. unfold required_keys in Hkey.
    repeat (apply elem_of_cons in Hkey as [->|Hkey]; [by eexists|]).
    by apply elem_of_nil in Hkey.
  - reflexivity.
  - cbn [length]. lia.
Defined.

(* ===================================================================== *)
(** * More facts on [calibrate] *)
(* ===================================================================== *)

Lemma rig_store_base (self self' : Calibration.t) (parameters : list R) :
  Calibration.store self parameters = Ok self' ->
  CalibrationCamera._cam_origin_axis (Calibration.base self')
  = CalibrationCamera._cam_origin_axis (Calibration.base self) /\
  CalibrationCamera._cam_pos_x (Calibration.base self')
  = CalibrationCamera._cam_pos_x (Calibration.base self) /\
  CalibrationCamera._cam_pos_z (Calibration.base self')
  = CalibrationCamera._cam_pos_z (Calibration.base self) /\
  Calibration._nb_corners self' = Calibration._nb_corners self.
Proof.
  unfold Calibration.store. intros H. inv_bind H.
  apply Ok_inj in H. subst self'. repeat split.
Qed.

(** X18: [calibrate] of [Calibration] sets neither the origin axis nor the
    x and z positions of the reference camera: on an object made by the
    constructor they are None after [calibrate] has returned, and [dump]
    of the calibrated object raises AttributeError. *)
Theorem rig_calibrate_then_dump
    (minimize : (list R -> result R) -> list R -> result (list R))
    (random_sample : nat -> R) (nb_targets nb_cameras : nat)
    (cameras_origin_axis targets_origin_axis : mat3) (clockwise : bool)
    (targets : list (Calibration.observations * list vec3))
    (size_image : R * R)
    (other_cameras : list ((R * R) * list Calibration.observations))
    (n pos : nat) (self' : Calibration.t) (err : R) :
  Calibration.calibrate minimize random_sample
    (Calibration.init nb_targets nb_cameras cameras_origin_axis
       targets_origin_axis clockwise)
    targets size_image other_cameras n pos = Ok (self', err) ->
  CalibrationCamera._cam_origin_axis (Calibration.base self') = None /\
  CalibrationCamera._cam_pos_x (Calibration.base self') = JNull /\
  CalibrationCamera._cam_pos_z (Calibration.base self') = JNull /\
  forall fs filename,
    Calibration.dump self' fs filename = Raise AttributeError.
Proof.
  unfold Calibration.calibrate. cbv zeta. intros H. inv_bind H.
  apply Ok_inj in H. injection H as <- _.
  match goal with
  | E : Calibration.store _ _ = Ok _ |- _ =>
      apply rig_store_base in E; destruct E as (Haxis & Hx & Hz & _)
  end.
  cbn in Haxis, Hx, Hz.
  split; [exact Haxis|]. split; [exact Hx|]. split; [exact Hz|].
  intros fs filename.
  unfold Calibration.dump, CalibrationCamera.save_camera.
  by rewrite Haxis.
Qed.

Lemma rig_calibrate_then_dump_witness :
  exists self' err,
    Calibration.calibrate (found rig_result) sample_stream
      (Calibration.init 1 1 Calibration.default_cameras_origin_axis
         Calibration.default_targets_origin_axis true)
      [([(0, [(0, 0)])], [(0, 0, 1)])] (2, 2) [] 0 0 = Ok (self', err) /\
    CalibrationCamera._cam_origin_axis (Calibration.base self') = None /\
    CalibrationCamera._cam_pos_x (Calibration.base self') = JNull /\
    CalibrationCamera._cam_pos_z (Calibration.base self') = JNull /\
    forall fs filename,
      Calibration.dump self' fs filename = Raise AttributeError.
Proof.
  assert (exists r,
            Calibration.calibrate (found rig_result) sample_stream
              (Calibration.init 1 1 Calibration.default_cameras_origin_axis
                 Calibration.default_targets_origin_axis true)
              [([(0, [(0, 0)])], [(0, 0, 1)])] (2, 2) [] 0 0 = Ok r)
    as [[self' err] E] by (eexists; reflexivity).
  exists self', err. split; [exact E|].
  exact (rig_calibrate_then_dump _ _ _ _ _ _ _ _ _ _ _ _ _ _ E).
Defined.

Lemma foldl_count {A : Type} (f : A -> nat) (l : list A) (a : nat) :
  foldl (fun n x => (n + f x)%nat) a l = (a + sum_list_with f l)%nat.
Proof.
  revert a. induction l as [|x l IH]; intros a; cbn [foldl sum_list_with].
  - lia.
  - rewrite IH. lia.
Qed.

Lemma other_cameras_step_eq (k : nat) (image_size : R * R)
    (obs : list Calibration.observations)
    (others : list CalibrationCamera.t) (a : nat) :
  other_cameras_step (k, (image_size, obs)) (others, a)
  = match others !! k with
    | Some camera =>
        Ok (<[k := Calibration.set_image_size camera image_size]> others,
            foldl (fun n target => (n + length target)%nat) a obs)
    | None => Raise IndexError
    end.
Proof.
  unfold other_cameras_step, list_getitem. by destruct (others !! k).
Qed.


Lemma rig_other_cameras_fail
    (other_cameras : list ((R * R) * list Calibration.observations))
    (k : nat) (others : list CalibrationCamera.t) (a : nat) :
  other_cameras <> [] ->
  (length others < k + length other_cameras)%nat ->
  for_each other_cameras_step
    (zip (seq k (length other_cameras)) other_cameras) (others, a)
  = Raise IndexError.
Proof.
  revert k others a.
  induction other_cameras as [|[image_size obs] other_cameras IH];
    intros k others a Hne Hlen; [done|].
  cbn [length seq zip for_each].
  rewrite other_cameras_step_eq.
  destruct (others !! k) as [camera|] eqn:Hk;
    cbn [mbind result_bind]; [|reflexivity].
  apply lookup_lt_Some in Hk.
  apply IH.
  - intros ->. cbn [length] in Hlen. lia.
  - rewrite length_insert. cbn [length] in Hlen. lia.
Qed.




(** X20: [calibrate] of [Calibration] called with more other cameras than
    the object was made for raises IndexError, before any search. *)
Theorem rig_calibrate_too_many_cameras
    (minimize : (list R -> result R) -> list R -> result (list R))
    (random_sample : nat -> R) (self : Calibration.t)
    (targets : list (Calibration.observations * list vec3))
    (size_image : R * R)
    (other_cameras : list ((R * R) * list Calibration.observations))
    (n pos : nat) :
  (length (Calibration._others self) < length other_cameras)%nat ->
  Calibration.calibrate minimize random_sample self
    targets size_image other_cameras n pos = Raise IndexError.
Proof.
  intros Hlen. unfold Calibration.calibrate. cbv zeta.
  match goal with
  | |- mbind _ ?m = _ =>
      assert (m = Raise IndexError) as ->; [|reflexivity]
  end.
  apply (rig_other_cameras_fail other_cameras 0 (Calibration._others self)).
  - intros ->. cbn [length] in Hlen. lia.
  - lia.
Qed.

Lemma rig_calibrate_too_many_cameras_witness :
  Calibration.calibrate lazy_minimize sample_stream
    (Calibration.init 1 1 Calibration.default_cameras_origin_axis
       Calibration.default_targets_origin_axis true)
    [([(0, [(0, 0)])], [(0, 0, 1)])] (2, 2) [((2, 2), [[(0, [(0, 0)])]])] 0 0
  = Raise IndexError.
Proof.
  apply rig_calibrate_too_many_cameras. cbn. lia.
Defined.

(* ===================================================================== *)
(** * More facts on angles *)
(* ===================================================================== *)

Lemma py_mod_turns (a : R) (k : Z) :
  py_mod (a + IZR k * (2 * PI)) (2 * PI) = py_mod a (2 * PI).
Proof.
  pose proof two_pi_pos. unfold py_mod.
  replace ((a + IZR k * (2 * PI)) / (2 * PI)) with (a / (2 * PI) + IZR k)
    by (field; lra).
  rewrite Zfloor_addz, plus_IZR. ring.
Qed.

Lemma congruent_2pi_sym (a b : R) : congruent_2pi a b -> congruent_2pi b a.
Proof. intros [k ->]. exists (- k)%Z. rewrite opp_IZR. ring. Qed.

Lemma normalise_angle_bounds (a : R) :
  congruent_2pi (normalise_angle a) a /\ - PI < normalise_angle a <= PI.
Proof.
  rewrite normalise_angle_eq.
  pose proof (py_mod_range a _ two_pi_pos) as Hb.
  pose proof (py_mod_congruent a) as Hc.
  destruct (Rlt_dec PI (py_mod a (2 * PI))) as [Hlt|Hge].
  - split; [|lra].
    eapply congruent_2pi_trans; [|exact Hc].
    exists (-1)%Z. simpl. lra.
  - split; [exact Hc|lra].
Qed.

Lemma normalise_angle_fixed (a : R) :
  - PI < a <= PI -> normalise_angle a = a.
Proof.
  intros Ha. pose proof PI_RGT_0. rewrite normalise_angle_eq.
  destruct (Rle_lt_dec 0 a) as [H0|H0].
  - rewrite py_mod_small by lra. destruct (Rlt_dec PI a); lra.
  - rewrite <- (py_mod_turns a 1). rewrite py_mod_small by lra.
    destruct (Rlt_dec PI (a + 1 * (2 * PI))); lra.
Qed.

(** X21: [normalise_angle] picks one angle in each class modulo 2pi: two
    angles have the same normal form exactly when they differ by a whole
    number of turns, the angles that are their own normal form are those of
    (-pi, pi], and normalising twice is normalising once. *)
Theorem normalise_angle_canonical :
  (forall a b : R,
     congruent_2pi a b <-> normalise_angle a = normalise_angle b) /\
  (forall a : R, normalise_angle a = a <-> - PI < a <= PI) /\
  (forall a : R, normalise_angle (normalise_angle a) = normalise_angle a).
Proof.
  split; [|split].
  - intros a b. split.
    + intros [k ->]. by rewrite !normalise_angle_eq, py_mod_turns.
    + intros Heq.
      destruct (normalise_angle_bounds a) as [Ha _].
      destruct (normalise_angle_bounds b) as [Hb _].
      rewrite Heq in Ha.
      exact (congruent_2pi_trans _ _ _ (congruent_2pi_sym _ _ Ha) Hb).
  - intros a. split.
    + intros <-. apply normalise_angle_bounds.
    + apply normalise_angle_fixed.
  - intros a. apply normalise_angle_fixed, normalise_angle_bounds.
Qed.

(** X22: when a target turns, [target_frame] keeps its centre at the same
    height and at the same distance from the axis of rotation: the origin
    of the frame at the angle alpha is (x, y, pos_z) with
    x^2 + y^2 = pos_x^2 + pos_y^2, and at the angle 0 it is the position
    given. *)
Theorem target_frame_turns_about_z
    (pos_x pos_y pos_z rot_x rot_y rot_z alpha : R) :
  (exists x y,
     origin (CalibrationCamera.target_frame
               pos_x pos_y pos_z rot_x rot_y rot_z alpha) = (x, y, pos_z) /\
     x * x + y * y = pos_x * pos_x + pos_y * pos_y) /\
  origin (CalibrationCamera.target_frame pos_x pos_y pos_z rot_x rot_y rot_z 0)
  = (pos_x, pos_y, pos_z).
Proof.
  split.
  - eexists. eexists. split; [reflexivity|].
    pose proof (sin2_cos2 alpha) as H. unfold Rsqr in H. nra.
  - unfold CalibrationCamera.target_frame. cbn [origin].
    rewrite cos_0, sin_0. repeat f_equal; ring.
Qed.

(* ===================================================================== *)
(** * More facts on the projection *)
(* ===================================================================== *)

(** X23: for a camera whose attributes are set, the function returned by
    [get_projection] at an angle alpha with alpha * angle_factor = 0 does
    not turn the point: it returns the pinhole image of the point moved to
    the frame of the camera; [project_points_3d] of [CalibrationCameraTop]
    returns those pixels, for the points in their order. *)
Theorem get_projection_angle_zero (self : CalibrationCameraTop.t)
    (alpha angle_factor width height focal_length_x focal_length_y : R)
    (fr_cam : Frame) (points_3d : list vec3) :
  let c := CalibrationCameraTop.base self in
  CalibrationCamera.get_camera_frame c = Ok fr_cam ->
  CalibrationCamera._angle_factor c = JNum angle_factor ->
  CalibrationCamera._cam_width_image c = JNum width ->
  CalibrationCamera._cam_height_image c = JNum height ->
  CalibrationCamera._cam_focal_length_x c = JNum focal_length_x ->
  CalibrationCamera._cam_focal_length_y c = JNum focal_length_y ->
  alpha * angle_factor = 0 ->
  exists projection,
    CalibrationCamera.get_projection c alpha = Ok projection /\
    (forall p,
       projection (Point p)
       = Ok (CalibrationCamera.pixel_coordinates
               (local_point fr_cam (Point p))
               width height focal_length_x focal_length_y)) /\
    CalibrationCameraTop.project_points_3d self points_3d
    = mapM (fun p => projection (Point p)) points_3d.
Proof.
  intros c Hfr Haf Hw Hh Hfx Hfy Hzero.
  unfold CalibrationCamera.get_projection,
    CalibrationCameraTop.project_points_3d.
  fold c. rewrite Hfr, Haf, Hw, Hh, Hfx, Hfy. cbn [num mbind result_bind].
  rewrite Hzero.
  replace (radians 0) with 0 by (unfold radians; ring).
  rewrite cos_0, sin_0.
  eexists. split; [reflexivity|].
  assert (Hpoint : forall p : vec3,
            (let '(x, y, z) := p in
             Point (x * 1 - y * 0, (x * 1 - y * 0) * 0 + y * 1, z))
            = Point p).
  { intros [[x y] z]. replace (x * 1 - y * 0) with x by ring.
    by replace (x * 0 + y * 1) with y by ring. }
  split.
  - intros p. cbv beta. by rewrite Hpoint.
  - rewrite (mapM_ext_ok _
               (fun p => CalibrationCamera.pixel_coordinates
                           (local_point fr_cam (Point p))
                           width height focal_length_x focal_length_y))
      by reflexivity.
    symmetry. apply mapM_ext_ok. intros p. cbv beta. by rewrite Hpoint.
Qed.

Lemma get_projection_angle_zero_witness :
  exists projection,
    CalibrationCamera.get_projection unit_camera 0 = Ok projection /\
    (forall p,
       projection (Point p)
       = Ok (CalibrationCamera.pixel_coordinates
               (local_point (mkFrame identity3 (0, 0, 0)) (Point p))
               2 2 1 1)) /\
    CalibrationCameraTop.project_points_3d
      (CalibrationCameraTop.mk unit_camera None None None None)
      [(0, 0, 1); (1, 1, 1)]
    = mapM (fun p => projection (Point p)) [(0, 0, 1); (1, 1, 1)].
Proof.
  apply (get_projection_angle_zero
           (CalibrationCameraTop.mk unit_camera None None None None)
           0 1 2 2 1 1 (mkFrame identity3 (0, 0, 0)) [(0, 0, 1); (1, 1, 1)]);
    try reflexivity.
  - unfold CalibrationCamera.get_camera_frame.
    cbn [CalibrationCameraTop.base unit_camera CalibrationCamera._cam_pos_x
         CalibrationCamera._cam_pos_y CalibrationCamera._cam_pos_z
         CalibrationCamera._cam_rot_x CalibrationCamera._cam_rot_y
         CalibrationCamera._cam_rot_z CalibrationCamera._cam_origin_axis
         CalibrationCamera.origin_axis_of num mbind result_bind].
    by rewrite camera_frame_identity.
  - ring.
Defined.

(* ===================================================================== *)
(** * The layout of the parameter vector in the objective and in [calibrate] *)
(* ===================================================================== *)

Lemma result_bind_ext {A B : Type} (m m' : result A) (f f' : A -> result B) :
  m = m' -> (forall a, f a = f' a) -> (m ≫= f) = (m' ≫= f').
Proof. intros <- H. destruct m as [a|e]; [apply H|reflexivity]. Qed.

Lemma for_each_ext {A St : Type} (F G : A -> St -> result St) (l : list A)
    (s : St) :
  (forall a s, F a s = G a s) -> for_each F l s = for_each G l s.
Proof.
  intros H. revert s. induction l as [|a l IH]; intros s; [reflexivity|].
  cbn [for_each]. rewrite H. destruct (G a s); cbn [mbind result_bind];
    [apply IH|reflexivity].
Qed.

Lemma for_each_seq_zip {A St : Type} (F : nat -> St -> result St)
    (G : nat * A -> St -> result St) (l : list A) (k : nat) (s : St) :
  (forall i a s, l !! i = Some a -> F (k + i)%nat s = G ((k + i)%nat, a) s) ->
  for_each F (seq k (length l)) s = for_each G (zip (seq k (length l)) l) s.
Proof.
  revert k s. induction l as [|a l IH]; intros k s H; [reflexivity|].
  cbn [length seq zip zip_with for_each].
  pose proof (H 0%nat a s eq_refl) as H0. rewrite Nat.add_0_r in H0.
  rewrite H0. destruct (G (k, a) s) as [s'|e]; cbn [mbind result_bind];
    [|reflexivity].
  apply IH. intros i b s'' Hi.
  replace (S k + i)%nat with (k + S i)%nat by lia. by apply H.
Qed.

Lemma fit_function_layout (self : Calibration.t) r targets others :
  Calibration._nb_targets self = length targets ->
  length (Calibration._others self) = length others ->
  Calibration.fit_function self (layout_vector r targets others)
  = layout_objective self r targets others.
Proof.
  intros HT HA. unfold Calibration.fit_function, layout_objective. cbv zeta.
  rewrite reference_slot_layout.
  destruct r as [[[[[[focal_x focal_y] pos_y] rot_x] rot_y] rot_z] af].
  cbn [mbind result_bind]. rewrite HT, HA.
  apply result_bind_ext.
  - apply for_each_seq_zip. intros i pose s Hi. cbn [Nat.add].
    apply result_bind_ext; [reflexivity|]. intros ref_2d.
    apply result_bind_ext; [reflexivity|]. intros items.
    apply for_each_ext. intros [alpha ref_pts] err.
    by rewrite (target_slot_layout _ _ _ _ _ Hi).
  - intros err. apply for_each_seq_zip. intros i c s Hi. cbn [Nat.add].
    rewrite (camera_slot_layout self _ _ _ i c HT Hi).
    cbn [mbind result_bind].
    destruct c as [[[[[[[cfx cfy] cx] cy] cz] crx] cry] crz].
    apply for_each_seq_zip. intros j pose s' Hj. cbn [Nat.add].
    by rewrite (target_slot_layout _ _ _ _ _ Hj).
Qed.

Lemma with_image_sizes_nil (others : list CalibrationCamera.t) :
  with_image_sizes others [] = others.
Proof. by destruct others. Qed.

Lemma length_with_image_sizes (others : list CalibrationCamera.t)
    (sizes : list (R * R)) :
  length (with_image_sizes others sizes) = length others.
Proof.
  revert sizes. induction others as [|camera others IH]; intros [|size sizes];
    cbn [with_image_sizes length]; try reflexivity.
  by rewrite IH.
Qed.

Lemma rig_other_cameras_sized
    (other_cameras : list ((R * R) * list Calibration.observations))
    (pre others : list CalibrationCamera.t) (a : nat) :
  (length other_cameras <= length others)%nat ->
  for_each other_cameras_step
    (zip (seq (length pre) (length other_cameras)) other_cameras)
    (pre ++ others, a)
  = Ok (pre ++ with_image_sizes others (map fst other_cameras),
        (a + sum_list_with (fun c => sum_list_with length c.2)
                           other_cameras)%nat).
Proof.
  revert pre others a.
  induction other_cameras as [|[size obs] other_cameras IH];
    intros pre others a Hlen.
  - cbn [length seq zip zip_with for_each map sum_list_with].
    by rewrite with_image_sizes_nil, Nat.add_0_r.
  - destruct others as [|camera others]; [cbn [length] in Hlen; lia|].
    cbn [length seq zip zip_with for_each].
    rewrite other_cameras_step_eq.
    rewrite (list_lookup_middle pre others camera (length pre) eq_refl).
    cbn [mbind result_bind].
    rewrite insert_app_r_alt by lia. rewrite Nat.sub_diag.
    cbn [insert list_insert].
    rewrite (cons_middle _ pre others), app_assoc.
    replace (S (length pre))
      with (length (pre ++ [Calibration.set_image_size camera size]))
      by (rewrite length_app; cbn [length]; lia).
    rewrite IH by (cbn [length] in Hlen; lia).
    rewrite <- app_assoc. cbn [map fst with_image_sizes sum_list_with snd app].
    rewrite foldl_count. do 2 f_equal. lia.
Qed.

Lemma calibrate_layout
    (minimize : (list R -> result R) -> list R -> result (list R))
    (random_sample : nat -> R) (self : Calibration.t)
    (r : R * R * R * R * R * R * R)
    (targets : list (R * R * R * R * R * R))
    (others : list (R * R * R * R * R * R * R * R))
    (obs : list (Calibration.observations * list vec3))
    (size_image : R * R)
    (other_cameras : list ((R * R) * list Calibration.observations))
    (n pos : nat) (e : R) :
  Calibration._nb_targets self = length targets ->
  length (Calibration._targets_parameters self) = length targets ->
  length (Calibration._others self) = length others ->
  (length other_cameras <= length (Calibration._others self))%nat ->
  observations_count obs other_cameras <> 0%nat ->
  let self1 := observing self obs size_image other_cameras in
  Calibration.find_parameters minimize random_sample self1 n pos
  = Ok (Some (layout_vector r targets others)) ->
  layout_objective (stored self1 r targets others) r targets others = Ok e ->
  Calibration.calibrate minimize random_sample self obs size_image
    other_cameras n pos
  = Ok (stored self1 r targets others,
        e / INR (observations_count obs other_cameras)).
Proof.
  intros HT HP HA Hlen Hnb self1 Hfind He.
  unfold Calibration.calibrate. cbv zeta.
  match goal with
  | |- mbind _ ?m = _ =>
      assert (m = Ok (with_image_sizes (Calibration._others self)
                        (map fst other_cameras),
                      observations_count obs other_cameras)) as ->
  end.
  { rewrite (rig_other_cameras_sized other_cameras []
               (Calibration._others self) _ Hlen).
    rewrite foldl_count. reflexivity. }
  cbn [mbind result_bind].
  fold (observing self obs size_image other_cameras). fold self1.
  rewrite Hfind. cbn [mbind result_bind attr].
  rewrite (store_layout self1 r targets others); cycle 1.
  { exact HT. } { exact HP. }
  { unfold self1. cbn [observing Calibration._others].
    by rewrite length_with_image_sizes. }
  cbn [mbind result_bind].
  rewrite fit_function_layout; cycle 1.
  { destruct r as [[[[[[? ?] ?] ?] ?] ?] ?]. exact HT. }
  { destruct r as [[[[[[? ?] ?] ?] ?] ?] af].
    cbn [stored Calibration._others]. rewrite length_zip_with.
    unfold self1. cbn [observing Calibration._others].
    rewrite length_with_image_sizes. lia. }
  rewrite He. cbn [mbind result_bind].
  destruct (decide (observations_count obs other_cameras = 0%nat));
    [contradiction|reflexivity].
Qed.

Lemma two_camera_depths :
  rig_depths
    (observing two_camera_init two_camera_targets (2, 2) two_camera_others)
    two_camera_result.
Proof.
  intros fx fy py rx ry rz af fr_cam j tpx tpy tpz trx try_ trz
         alpha local_3d layout pt Href Hframe Hj Hslot Hangle Hlocal
         Hlayout Hpt.
  unfold two_camera_result in *.
  rewrite reference_slot_layout in Href.
  injection Href as <- <- <- <- <- <- <-.
  assert (j = 0%nat) as -> by (cbn in Hj; lia).
  rewrite (target_slot_layout (1, 1, -5, 0, 0, 0, 1) [(0, 0, 0, 0, 0, 0)]
             [(1, 1, 0, -5, 0, 0, 0, 0)] 0 (0, 0, 0, 0, 0, 0) eq_refl)
    in Hslot.
  injection Hslot as <- <- <- <- <- <-.
  assert (alpha = 0) as ->.
  { destruct Hangle as [(ref_2d & items & ref_pts & Href & Hitems & Hin)
                       |(others_2d & of_camera & items & ref_pts & Ho & Hof
                         & Hitems & Hin)].
    - injection Href as <-.
      apply list_elem_of_singleton in Hitems as ->.
      apply list_elem_of_singleton in Hin. by injection Hin as ->.
    - injection Ho as <-.
      apply list_elem_of_singleton in Hof as ->.
      apply list_elem_of_singleton in Hitems as ->.
      apply list_elem_of_singleton in Hin. by injection Hin as ->. }
  injection Hlocal as <-.
  apply list_elem_of_singleton in Hlayout as ->.
  apply list_elem_of_singleton in Hpt as ->.
  cbv zeta. cbn [observing two_camera_init Calibration.init
                 Calibration.clockwise].
  replace (radians (0 * 1 * -1)) with 0 by (unfold radians; ring).
  rewrite target_frame_0.
  assert (fr_cam = mkFrame (mat3_T Calibration.default_cameras_origin_axis)
                     (0, -5, 0)) as ->.
  { destruct Hframe as [(fx & fy & py & rx & ry & rz & af & Href & ->)
                       |(i & fx & fy & px & py & pz & rx & ry & rz & Hi
                         & Hslot & ->)].
    - rewrite reference_slot_layout in Href.
      injection Href as <- <- <- <- <- <- <-.
      apply camera_frame_unrotated.
    - assert (i = 0%nat) as -> by (cbn in Hi; lia).
      rewrite (camera_slot_layout
                 (observing two_camera_init two_camera_targets (2, 2)
                    two_camera_others) (1, 1, -5, 0, 0, 0, 1)
                 [(0, 0, 0, 0, 0, 0)] [(1, 1, 0, -5, 0, 0, 0, 0)]
                 0 (1, 1, 0, -5, 0, 0, 0, 0) eq_refl eq_refl) in Hslot.
      injection Hslot as <- <- <- <- <- <- <- <-.
      apply camera_frame_unrotated. }
  unfold Calibration.default_cameras_origin_axis. unit_depth.
Qed.

(** C4: the parameter vector of [Calibration] holds the 7 values of the
    reference camera, then the 6 values of target i at the offset 7 + i*6,
    then the 8 values of the other camera j at the offset 7 + T*6 + j*8.
    On a vector in that layout [fit_function] is the objective of the
    reference camera [r], of the poses [targets] and of the other cameras
    [others]; [calibrate], when the search returns that vector at depths
    that are not 0, returns the object that holds these values (the
    rotations wrapped) with that objective divided by the number of
    observations; [find_parameters] builds its first guesses in that layout
    and returns what the optimizer makes of one of them. *)
Theorem parameter_vector_layout (self : Calibration.t)
    (r : R * R * R * R * R * R * R)
    (targets : list (R * R * R * R * R * R))
    (others : list (R * R * R * R * R * R * R * R)) :
  Calibration._nb_targets self = length targets ->
  length (Calibration._targets_parameters self) = length targets ->
  length (Calibration._others self) = length others ->
  let x0 := layout_vector r targets others in
  length x0 = (7 + length targets * 6 + length others * 8)%nat /\
  Calibration.reference_slot x0 = Ok r /\
  (forall i t, targets !! i = Some t ->
     slice x0 (7 + i * 6) (7 + i * 6 + 6) = target_values t /\
     Calibration.target_slot x0 i = Ok t) /\
  (forall j c, others !! j = Some c ->
     slice x0 (7 + length targets * 6 + j * 8)
              (7 + length targets * 6 + j * 8 + 8) = camera_values c /\
     Calibration.camera_slot self x0 j = Ok c) /\
  Calibration.fit_function self x0 = layout_objective self r targets others /\
  Calibration.store self x0 = Ok (stored self r targets others) /\
  (forall minimize random_sample obs size_image other_cameras n pos e,
     (length other_cameras <= length (Calibration._others self))%nat ->
     observations_count obs other_cameras <> 0%nat ->
     let self1 := observing self obs size_image other_cameras in
     rig_depths self1 x0 ->
     Calibration.find_parameters minimize random_sample self1 n pos
     = Ok (Some x0) ->
     layout_objective (stored self1 r targets others) r targets others
     = Ok e ->
     Calibration.calibrate minimize random_sample self obs size_image
       other_cameras n pos
     = Ok (stored self1 r targets others,
           e / INR (observations_count obs other_cameras))) /\
  (forall random_sample pos, exists targets' others',
     (Calibration.initial_guess random_sample self pos).1
     = layout_vector (5500, 5500, - 5500, 0, 0, 0, 1) targets' others' /\
     length targets' = Calibration._nb_targets self /\
     length others' = Calibration._nb_others self /\
     Forall (fun t => exists x y z, t = (x, y, z, PI / 2, 0, 0)) targets' /\
     Forall (fun c => exists focal_x focal_y x y z,
                        c = (focal_x, focal_y, x, y, z, 0, 0, 0)) others') /\
  (forall minimize random_sample n pos,
     (forall k, exists p e,
        minimize (Calibration.fit_function self)
          (Calibration.initial_guess random_sample self k).1 = Ok p /\
        Calibration.fit_function self p = Ok e /\
        rig_depths self p) ->
     exists best k,
       Calibration.find_parameters minimize random_sample self n pos
       = Ok (Some best) /\
       minimize (Calibration.fit_function self)
         (Calibration.initial_guess random_sample self k).1 = Ok best).
Proof.
  intros HT HP HA x0.
  split; [apply layout_vector_length|].
  split; [apply reference_slot_layout|].
  split; [|split; [|split; [|split; [|split; [|split]]]]].
  - intros i t Hi. split; [|by apply target_slot_layout].
    apply (slice_blocks target_values 6 target_values_length
             _ (reference_values r) targets i t
             (flat_map camera_values others)); try done.
    rewrite reference_values_length. lia.
  - intros j c Hj. split; [|by apply camera_slot_layout].
    apply (slice_blocks camera_values 8 camera_values_length
             _ (reference_values r ++ flat_map target_values targets)
             others j c []); try done.
    + unfold x0, layout_vector. by rewrite app_nil_r, <- app_assoc.
    + rewrite length_app, reference_values_length.
      rewrite (length_flat_map_blocks target_values 6 target_values_length).
      lia.
  - by apply fit_function_layout.
  - by apply store_layout.
  - intros minimize random_sample obs size_image other_cameras n pos e
           Hlen Hnb self1 _ Hfind He.
    by apply calibrate_layout.
  - intros random_sample pos. apply initial_guess_layout.
  - intros minimize random_sample n pos Hconv.
    destruct (search_parameters_best minimize
                (Calibration.fit_function self)
                (Calibration.initial_guess random_sample self))
      with (number_of_repetition := n) (pos := pos)
      as (results & st & best & err & _ & _ & Hrun & Hbest & _).
    { intros k. destruct (Hconv k) as (p & e & Hmin & He & _).
      by exists p, e. }
    destruct (search_parameters_from_start minimize
                (Calibration.fit_function self)
                (Calibration.initial_guess random_sample self)
                n pos st best Hrun Hbest) as [k Hk].
    exists best, k. split; [|exact Hk].
    unfold Calibration.find_parameters. rewrite Hrun.
    cbn [mbind result_bind]. by rewrite Hbest.
Qed.

Lemma parameter_vector_layout_witness :
  let seen := observing two_camera_init two_camera_targets (2, 2)
                two_camera_others in
  Calibration.camera_slot two_camera_init two_camera_result 0
  = Ok (1, 1, 0, -5, 0, 0, 0, 0) /\
  (exists e,
     Calibration.fit_function seen two_camera_result = Ok e /\
     layout_objective seen (1, 1, -5, 0, 0, 0, 1)
       [(0, 0, 0, 0, 0, 0)] [(1, 1, 0, -5, 0, 0, 0, 0)] = Ok e) /\
  (exists e,
     Calibration.calibrate (found two_camera_result) sample_stream
       two_camera_init two_camera_targets (2, 2) two_camera_others 0 0
     = Ok (stored seen (1, 1, -5, 0, 0, 0, 1)
             [(0, 0, 0, 0, 0, 0)] [(1, 1, 0, -5, 0, 0, 0, 0)],
           e / INR 2)).
Proof.
  cbv zeta.
  destruct (parameter_vector_layout two_camera_init (1, 1, -5, 0, 0, 0, 1)
              [(0, 0, 0, 0, 0, 0)] [(1, 1, 0, -5, 0, 0, 0, 0)]
              eq_refl eq_refl eq_refl)
    as (_ & _ & _ & Hothers & _ & _ & Hcal & _).
  destruct (parameter_vector_layout
              (observing two_camera_init two_camera_targets (2, 2)
                 two_camera_others)
              (1, 1, -5, 0, 0, 0, 1)
              [(0, 0, 0, 0, 0, 0)] [(1, 1, 0, -5, 0, 0, 0, 0)]
              eq_refl eq_refl eq_refl)
    as (_ & _ & _ & _ & Hfit & _).
  split; [exact (proj2 (Hothers 0%nat _ eq_refl))|]. split.
  - assert (exists e,
              layout_objective
                (observing two_camera_init two_camera_targets (2, 2)
                   two_camera_others)
                (1, 1, -5, 0, 0, 0, 1)
                [(0, 0, 0, 0, 0, 0)] [(1, 1, 0, -5, 0, 0, 0, 0)] = Ok e)
      as [e He] by (eexists; reflexivity).
    exists e. split; [|exact He]. rewrite <- He. exact Hfit.
  - assert (exists e,
              layout_objective
                (stored (observing two_camera_init two_camera_targets (2, 2)
                           two_camera_others)
                   (1, 1, -5, 0, 0, 0, 1)
                   [(0, 0, 0, 0, 0, 0)] [(1, 1, 0, -5, 0, 0, 0, 0)])
                (1, 1, -5, 0, 0, 0, 1)
                [(0, 0, 0, 0, 0, 0)] [(1, 1, 0, -5, 0, 0, 0, 0)] = Ok e)
      as [e He] by (eexists; reflexivity).
    exists e.
    apply (Hcal (found two_camera_result) sample_stream two_camera_targets
             (2, 2) two_camera_others 0%nat 0%nat e).
    + cbn. lia.
    + cbn. lia.
    + exact two_camera_depths.
    + reflexivity.
    + exact He.
Defined.

(* ===================================================================== *)
(** * [dump] after [calibrate] of [Calibration] *)
(* ===================================================================== *)

(** C3, where the code fails: on a rig of one target and two cameras made
    by the constructor, [calibrate] returns (the search having found the
    vector [two_camera_result], at which every corner has the depth 5) and
    has set the pose of the target and every parameter of the other camera;
    but it has not set the origin axis of the reference camera, and [dump]
    of the calibrated object raises AttributeError: no file is written from
    which [load] could give the parameters back. *)
Theorem rig_dump_after_calibrate_raises :
  exists self' err,
    Calibration.calibrate (found two_camera_result) sample_stream
      two_camera_init two_camera_targets (2, 2) two_camera_others 0 0
    = Ok (self', err) /\
    rig_depths
      (observing two_camera_init two_camera_targets (2, 2) two_camera_others)
      two_camera_result /\
    Calibration._targets_parameters self'
    = [stored_target (0, 0, 0, 0, 0, 0)] /\
    Calibration._others self'
    = [stored_camera 1
         (Calibration.set_image_size CalibrationCamera.init (2, 2))
         (1, 1, 0, -5, 0, 0, 0, 0)] /\
    CalibrationCamera._cam_origin_axis (Calibration.base self') = None /\
    forall fs filename,
      Calibration.dump self' fs filename = Raise AttributeError.
Proof.
  assert (exists e,
            layout_objective
              (stored (observing two_camera_init two_camera_targets (2, 2)
                         two_camera_others)
                 (1, 1, -5, 0, 0, 0, 1)
                 [(0, 0, 0, 0, 0, 0)] [(1, 1, 0, -5, 0, 0, 0, 0)])
              (1, 1, -5, 0, 0, 0, 1)
              [(0, 0, 0, 0, 0, 0)] [(1, 1, 0, -5, 0, 0, 0, 0)] = Ok e)
    as [e He] by (eexists; reflexivity).
  eexists. exists (e / INR 2). split.
  - apply (calibrate_layout (found two_camera_result) sample_stream
             two_camera_init (1, 1, -5, 0, 0, 0, 1)
             [(0, 0, 0, 0, 0, 0)] [(1, 1, 0, -5, 0, 0, 0, 0)]
             two_camera_targets (2, 2) two_camera_others 0 0 e);
      try reflexivity; try exact He; cbn; lia.
  - split; [exact two_camera_depths|].
    split; [reflexivity|]. split; [reflexivity|]. split; [reflexivity|].
    intros fs filename. reflexivity.
Qed.
